(** * Waymo Open Dataset average-precision metric: a shallow embedding

    This development models [lingvo/tasks/car/waymo/waymo_ap_metric.py]:
    the builder of the matcher configuration, the data selector
    [_GetData], the graph builder [_BuildMetric], the aggregation done by
    [WaymoBreakdownMetric.ComputeMetrics], the weighted value and the
    summaries.

    - Python exceptions are the [Raise] results of an error type; a method
      of the object is a function from the state to a state and a result.
    - Python dicts are finite maps ([gmap string]); lists are lists, indexed
      as Python indexes them.
    - The collaborators that live outside the module (the loader of the base
      class, the detection-metrics op, the naming of breakdowns, [plot.Curve],
      the enumeration of breakdown generators) are members of two classes,
      [BreakdownProto] and [Collaborators]: every definition and theorem is
      stated for all of them.
    - Floating-point numbers are the members of an interface, [PyFloat],
      with two instances: IEEE binary64 (the kernel's primitive floats),
      on which the definitions run as the program does, and exact rationals
      extended with NaN.  The few facts of IEEE arithmetic that a proof needs
      are the class [PyFloatLaws]; they are proved for the exact instance
      and checked by evaluation on a range of integers for binary64. *)

From Stdlib Require Import ZArith String Ascii List Lia Floats QArith Qcanon.
From stdpp Require Import gmap strings list numbers.

Local Open Scope Z_scope.

(** ** Python results *)

Module Py.

(** The exceptions the modelled code can raise. *)
Inductive exn : Type :=
| AssertionError
| IndexError
| KeyError
| ValueError
| ZeroDivisionError
| OverflowError.

(** The outcome of running a piece of Python code: a value, or an
    exception that leaves the function. *)
Inductive result (A : Type) : Type :=
| Ok (a : A)
| Raise (e : exn).
Arguments Ok {A} a.
Arguments Raise {A} e.

#[global] Instance result_ret : MRet result := @Ok.
#[global] Instance result_bind : MBind result := fun A B f r =>
  match r with Ok a => f a | Raise e => Raise e end.
#[global] Instance result_fmap : FMap result := fun A B f r =>
  match r with Ok a => Ok (f a) | Raise e => Raise e end.

Definition is_ok {A} (r : result A) : bool :=
  match r with Ok _ => true | Raise _ => false end.

(** [for x in l: acc = body(x, acc)], leaving at the first exception. *)
Fixpoint for_each {A S : Type} (body : A -> S -> result S) (l : list A) (s : S)
  : result S :=
  match l with
  | [] => Ok s
  | x :: l' => match body x s with
               | Ok s' => for_each body l' s'
               | Raise e => Raise e
               end
  end.

(** A list comprehension [[f x for x in l]] whose element expression may raise. *)
Fixpoint comprehension {A B : Type} (f : A -> result B) (l : list A)
  : result (list B) :=
  match l with
  | [] => Ok []
  | x :: l' => match f x with
               | Ok y => match comprehension f l' with
                         | Ok ys => Ok (y :: ys)
                         | Raise e => Raise e
                         end
               | Raise e => Raise e
               end
  end.

(** [range(n)]: empty when [n <= 0]. *)
Definition range (n : Z) : list Z := map Z.of_nat (seq 0 (Z.to_nat n)).

(** [enumerate(l)] *)
Definition enumerate {A : Type} (l : list A) : list (nat * A) :=
  zip (seq 0 (length l)) l.

(** [l[i]] on a list, with Python's negative indices. *)
Definition getitem {A : Type} (l : list A) (i : Z) : result A :=
  let n := Z.of_nat (length l) in
  let j := if i <? 0 then i + n else i in
  if (j <? 0) || (n <=? j) then Raise IndexError
  else match l !! Z.to_nat j with
       | Some x => Ok x
       | None => Raise IndexError
       end.

(** [l[i]] for an index produced by [enumerate] or [range(len(..))]. *)
Definition getitem_nat {A : Type} (l : list A) (i : nat) : result A :=
  match l !! i with
  | Some x => Ok x
  | None => Raise IndexError
  end.

(** [d[k]] on a dict. *)
Definition dict_get {V : Type} (d : gmap string V) (k : string) : result V :=
  match d !! k with
  | Some v => Ok v
  | None => Raise KeyError
  end.

(** [l.index(x)]: the first position of [x], [ValueError] when absent. *)
Fixpoint index (l : list string) (x : string) : result Z :=
  match l with
  | [] => Raise ValueError
  | y :: l' => if String.eqb y x then Ok 0
               else match index l' x with
                    | Ok i => Ok (i + 1)
                    | Raise e => Raise e
                    end
  end.

(** [l[i] = v] on a list (a protobuf repeated field): [IndexError] out of
    range; the indices used by the modelled code are never negative. *)
Definition setitem {A : Type} (l : list A) (i : Z) (v : A) : result (list A) :=
  if (i <? 0) || (Z.of_nat (length l) <=? i) then Raise IndexError
  else Ok (<[Z.to_nat i := v]> l).

(** [str.lower()] on the ASCII range: the letters [A]..[Z] are mapped to
    [a]..[z], every other byte is kept. *)
Definition ascii_lower (c : ascii) : ascii :=
  let n := nat_of_ascii c in
  if ((65 <=? n) && (n <=? 90))%nat then ascii_of_nat (n + 32) else c.

Fixpoint lower (s : string) : string :=
  match s with
  | EmptyString => EmptyString
  | String c s' => String (ascii_lower c) (lower s')
  end.

(** [p in s] on strings: [p] occurs in [s] as a contiguous substring. *)
Fixpoint str_in (p s : string) : bool :=
  String.prefix p s ||
  match s with
  | EmptyString => false
  | String _ s' => str_in p s'
  end.

End Py.
Import Py.

(** ** Floating-point numbers *)

(** What [np.nan_to_num] distinguishes. *)
Inductive fclass : Type := FNaN | FPosInf | FNegInf | FFinite.

(** The operations of Python's [float] that the module uses.  [f_of_Z] is
    the conversion of an [int]; it raises [OverflowError] in Python exactly
    when [f_int_ok] is false. *)
Class PyFloat (F : Type) : Type := {
  f_of_Z : Z -> F;
  f_int_ok : Z -> bool;
  f_exact_int : Z -> bool;
  f_add : F -> F -> F;
  f_mul : F -> F -> F;
  f_div : F -> F -> F;
  f_is_zero : F -> bool;
  f_leb : F -> F -> bool;
  f_classify : F -> fclass;
  f_nan : F;
  f_max : F;
  f_min : F;
  f_lit_0_7 : F
}.

(** The properties of IEEE-754 arithmetic that the proofs below rely on.
    [f_exact_int n] says that counting up to [n] by ones is exact (in
    binary64: [n <= 2^53]). *)
Class PyFloatLaws (F : Type) `{PyFloat F} : Prop := {
  f_mul_one : forall z, f_mul (f_of_Z z) (f_of_Z 1) = f_of_Z z;
  f_zero_div : forall d, 0 < d -> f_div (f_of_Z 0) (f_of_Z d) = f_of_Z 0;
  f_div_self : forall d, 0 < d -> f_int_ok d = true ->
    f_div (f_of_Z d) (f_of_Z d) = f_of_Z 1;
  f_div_mono : forall i j d, 0 <= i <= j -> 0 < d ->
    f_int_ok j = true -> f_int_ok d = true ->
    f_leb (f_div (f_of_Z i) (f_of_Z d)) (f_div (f_of_Z j) (f_of_Z d)) = true;
  f_is_zero_of_Z : forall z, f_is_zero (f_of_Z z) = (z =? 0);
  f_succ : forall n, 0 <= n -> f_exact_int (n + 1) = true ->
    f_add (f_of_Z n) (f_of_Z 1) = f_of_Z (n + 1);
  f_exact_int_mono : forall i j, 0 <= i <= j -> f_exact_int j = true ->
    f_exact_int i = true;
  f_int_ok_0 : f_int_ok 0 = true;
  f_int_ok_mono : forall i j, 0 <= i <= j -> f_int_ok j = true -> f_int_ok i = true
}.

Section FloatOps.
Context {F : Type} `{PyFloat F}.

(** [float(i)] for a Python [int]. *)
Definition float_of_int (i : Z) : result F :=
  if f_int_ok i then Ok (f_of_Z i) else Raise OverflowError.

(** [x / y] on Python floats. *)
Definition truediv (x y : F) : result F :=
  if f_is_zero y then Raise ZeroDivisionError else Ok (f_div x y).

(** [np.nan_to_num(x)] with its default arguments. *)
Definition nan_to_num (x : F) : F :=
  match f_classify x with
  | FNaN => f_of_Z 0
  | FPosInf => f_max
  | FNegInf => f_min
  | FFinite => x
  end.

End FloatOps.

(** *** IEEE binary64 *)

Module Binary64.

Definition of_Z (z : Z) : float :=
  SF2Prim (binary_normalize prec emax z 0 false).

Definition int_ok (z : Z) : bool :=
  match binary_normalize prec emax z 0 false with
  | S754_infinity _ => false
  | _ => true
  end.

Definition classify (x : float) : fclass :=
  if PrimFloat.is_nan x then FNaN
  else if PrimFloat.eqb x infinity then FPosInf
  else if PrimFloat.eqb x neg_infinity then FNegInf
  else FFinite.

#[global] Instance binary64 : PyFloat float := {|
  f_of_Z := of_Z;
  f_int_ok := int_ok;
  f_exact_int := fun z => Z.abs z <=? 2 ^ 53;
  f_add := PrimFloat.add;
  f_mul := PrimFloat.mul;
  f_div := PrimFloat.div;
  f_is_zero := fun x => PrimFloat.eqb x 0%float;
  f_leb := PrimFloat.leb;
  f_classify := classify;
  f_nan := nan;
  f_max := 0x1.fffffffffffffp+1023%float;
  f_min := (- 0x1.fffffffffffffp+1023)%float;
  f_lit_0_7 := 0x1.6666666666666p-1%float
|}.

End Binary64.

(** *** Exact rationals with a NaN *)

Module Exact.

Inductive xfloat : Type := XNaN | XNum (q : Qc).

Definition lift2 (f : Qc -> Qc -> Qc) (x y : xfloat) : xfloat :=
  match x, y with
  | XNum a, XNum b => XNum (f a b)
  | _, _ => XNaN
  end.

Definition xdiv (x y : xfloat) : xfloat :=
  match x, y with
  | XNum a, XNum b => if decide (b = 0%Qc) then XNaN else XNum (a / b)%Qc
  | _, _ => XNaN
  end.

Definition xleb (x y : xfloat) : bool :=
  match x, y with
  | XNum a, XNum b => bool_decide (a <= b)%Qc
  | _, _ => false
  end.

#[global] Instance exact : PyFloat xfloat := {|
  f_of_Z := fun z => XNum (Qc_of_Z z);
  f_int_ok := fun _ => true;
  f_exact_int := fun _ => true;
  f_add := lift2 Qcplus;
  f_mul := lift2 Qcmult;
  f_div := xdiv;
  f_is_zero := fun x => match x with XNum q => bool_decide (q = 0%Qc) | XNaN => false end;
  f_leb := xleb;
  f_classify := fun x => match x with XNaN => FNaN | XNum _ => FFinite end;
  f_nan := XNaN;
  f_max := XNum 0%Qc;
  f_min := XNum 0%Qc;
  f_lit_0_7 := XNum (Q2Qc (7 # 10))
|}.

End Exact.

(** ** The matcher configuration *)

(** [metrics_pb2.MatcherProto.Type]: the one value the module assigns. *)
Inductive MatcherType : Type := TYPE_HUNGARIAN.

(** [label_pb2.Label.Box.Type]: the two values the module assigns. *)
Inductive BoxType : Type := TYPE_2D | TYPE_3D.

(** [metrics_pb2.Difficulty]: a message with one repeated field. *)
Record Difficulty : Type := { levels : list Z }.

(** [metrics_pb2.Difficulty()] *)
Definition Difficulty_default : Difficulty := {| levels := [] |}.

(** [breakdown_pb2.Breakdown.GeneratorId]: the number of an enum name
    ([GeneratorId.Value], [None] where the protocol buffer raises
    [ValueError]) and the number of [ONE_SHARD].  The enumeration is declared
    by the waymo_open_dataset package. *)
Class BreakdownProto : Type := {
  GeneratorId_Value : string -> option Z;
  ONE_SHARD : Z
}.

Section Config.
Context {F : Type} `{PyFloat F} `{BreakdownProto}.

(** The metadata collaborator: what its methods return. *)
Record Metadata : Type := {
  NumClasses : Z;
  ClassNames : list string;
  IoUThresholds : list (string * F);
  NumberOfPrecisionRecallPoints : Z;
  EvalClassIndices : list Z
}.

(** [metrics_pb2.Config]: the fields the builder writes.  A field holds the
    value it was given; the width of the stored number is the schema's. *)
Record Config : Type := {
  score_cutoffs : list F;
  matcher_type : MatcherType;
  box_type : BoxType;
  iou_thresholds : list F;
  breakdown_generator_ids : list Z;
  difficulties : list Difficulty
}.

(** [i * 1.0 / (num_pr_points - 1)] *)
Definition score_cutoff (num_pr_points i : Z) : result F :=
  x ← float_of_int i;
  let y := f_mul x (f_of_Z 1) in
  d ← float_of_int (num_pr_points - 1);
  truediv y d.

(** [[i * 1.0 / (num_pr_points - 1) for i in range(num_pr_points)]] *)
Definition build_score_cutoffs (num_pr_points : Z) : result (list F) :=
  comprehension (score_cutoff num_pr_points) (range num_pr_points).

(** The body of the loop over [metadata.IoUThresholds().items()]. *)
Definition set_iou_threshold (class_names : list string)
    (item : string * F) (thresholds : list F) : result (list F) :=
  cls_idx ← index class_names item.1;
  setitem thresholds cls_idx item.2.

(** [config.iou_thresholds[:] = [0.7, 0.7, 0.7, 0.7, 0.7]] followed by the
    loop over the overrides. *)
Definition build_iou_thresholds (metadata : Metadata) : result (list F) :=
  for_each (set_iou_threshold (ClassNames metadata)) (IoUThresholds metadata)
    [f_lit_0_7; f_lit_0_7; f_lit_0_7; f_lit_0_7; f_lit_0_7].

(** The body of the loop over [waymo_breakdown_metrics]. *)
Definition add_breakdown (breakdown_value : string)
    (acc : list Z * list Difficulty) : result (list Z * list Difficulty) :=
  match GeneratorId_Value breakdown_value with
  | None => Raise ValueError
  | Some breakdown_id => Ok (acc.1 ++ [breakdown_id], acc.2 ++ [Difficulty_default])
  end.

Definition build_breakdowns (waymo_breakdown_metrics : list string)
  : result (list Z * list Difficulty) :=
  for_each add_breakdown waymo_breakdown_metrics ([ONE_SHARD], [Difficulty_default]).

Definition _BuildWaymoMetricConfig (metadata : Metadata) (box_type_param : string)
    (waymo_breakdown_metrics : list string) : result Config :=
  let num_pr_points := NumberOfPrecisionRecallPoints metadata in
  cutoffs ← build_score_cutoffs num_pr_points;
  let mt := TYPE_HUNGARIAN in
  let bt := if String.eqb box_type_param "2d" then TYPE_2D else TYPE_3D in
  thresholds ← build_iou_thresholds metadata;
  bd ← build_breakdowns waymo_breakdown_metrics;
  Ok {| score_cutoffs := cutoffs;
        matcher_type := mt;
        box_type := bt;
        iou_thresholds := thresholds;
        breakdown_generator_ids := bd.1;
        difficulties := bd.2 |}.

End Config.

Arguments Metadata F : clear implicits.
Arguments Config F : clear implicits.

(** ** The metric object *)

Section Metric.
Context {F : Type} `{PyFloat F} `{BreakdownProto}.

(** What [_LoadBoundingBoxes] returns when it finds boxes. *)
Record BoundingBoxes : Type := {
  boxes : list (list F);
  imgids : list Z;
  speeds : list (list F);
  scores : list F
}.

(** One call of [_LoadBoundingBoxes], by its arguments. *)
Record LoadCall : Type := {
  lc_kind : string;
  lc_classid : Z;
  lc_distance : option Z;
  lc_num_points : option Z;
  lc_rotation : option Z
}.

(** A precision-recall curve: an array of shape [[P, 2]], one row per score
    cutoff. *)
Definition Curve : Type := list (F * F).

(** The [gt] and [pd] members of the NestedMap that [_GetData] returns. *)
Record GtData : Type := { gt_imgid : list Z; gt_bbox : list (list F); gt_speed : list (list F) }.
Record PdData : Type := { pd_imgid : list Z; pd_bbox : list (list F); pd_score : list F }.
Record FeedData : Type := { iou_threshold : F; gt : GtData; pd : PdData }.

(** The placeholders of [_BuildMetric] and the arrays fed to them. *)
Inductive Placeholder : Type :=
| f_gt_bbox | f_gt_imgid | f_gt_speed | f_pd_bbox | f_pd_imgid | f_pd_score.

Inductive FeedValue : Type :=
| FeedBoxes (a : list (list F))
| FeedIds (a : list Z)
| FeedScores (a : list F).

(** The node [py_metrics_ops.detection_metrics(...)]: the class id that fills
    both type vectors, their lengths, and the serialized configuration.  The
    remaining arguments are the placeholders, or are derived from them. *)
Record DetectionOp : Type := {
  op_classid : Z;
  op_num_gt_bboxes : nat;
  op_num_pd_bboxes : nat;
  op_config : Config F
}.

(** The fetch tensors that [_BuildMetric] returns. *)
Inductive ScalarTensor : Type :=
| SConstant (v : F)
| SAp (op : DetectionOp) (i : nat)
| SApHa (op : DetectionOp) (i : nat).

Inductive CurveTensor : Type :=
| CZeros (rows cols : Z)
| CPr (op : DetectionOp) (i : nat)
| CPrHa (op : DetectionOp) (i : nat).

(** What the detection-metrics op computes: four arrays with one entry per
    breakdown. *)
Record MatcherOutput : Type := {
  m_ap : list F;
  m_ap_ha : list F;
  m_pr : list Curve;
  m_pr_ha : list Curve
}.

(** The arguments of one [plot.Curve] call ([setter] configures the axes
    and is left out). *)
Record CurveArgs : Type := {
  ca_name : string;
  ca_figsize : Z * Z;
  ca_xs : list F;
  ca_ys : list (list F);
  ca_marker : string;
  ca_markersize : Z;
  ca_linestyle : string;
  ca_linewidth : Z;
  ca_alpha : Z * Z
}.

(** An entry of a [tf.Summary]: a tagged number, or an image made by
    [plot.Curve]. *)
Inductive SummaryValue : Type :=
| SimpleValue (tag : string) (simple_value : F)
| ImageValue (plot : CurveArgs).

Record TfSummary : Type := { values : list SummaryValue }.

(** The collaborators outside the module: the names of the breakdowns of a
    configuration ([config_util.get_breakdown_names_from_config]), the
    loader of the base class, the detection-metrics op and [plot.Curve]. *)
Class Collaborators : Type := {
  get_breakdown_names_from_config : Config F -> list string;
  _LoadBoundingBoxes : LoadCall -> option BoundingBoxes;
  detection_metrics : DetectionOp -> list (Placeholder * FeedValue) -> MatcherOutput;
  plot_Curve : CurveArgs -> TfSummary
}.

Context `{Collaborators}.

(** The fields of a [WaymoAPMetrics] object that never change after
    [__init__]; [breakdown_list] is the parameter of its
    [WaymoBreakdownMetric], [_iou_thresholds] is set by the base class. *)
Record WaymoAPMetrics : Type := {
  metadata : Metadata F;
  p_box_type : string;
  p_waymo_breakdown_metrics : list string;
  _waymo_metric_config : Config F;
  _iou_thresholds : gmap string F;
  breakdown_list : list string
}.

(** The mutable part: the four maps of the [WaymoBreakdownMetric]; the
    "already populated" mark of the lazy evaluation, which the base class
    keeps; and three counters that observe the run without taking part in
    it (the loader calls, the runs of the detection-metrics op, the
    evaluation passes). *)
Record State : Type := {
  load_log : list LoadCall;
  matcher_calls : nat;
  evaluation_passes : nat;
  is_evaluated : bool;
  _average_precisions : gmap string (list F);
  _average_precision_headings : gmap string (list F);
  _precision_recall : gmap string (list Curve);
  _precision_recall_headings : gmap string (list Curve)
}.

(** A freshly constructed object: nothing loaded, nothing evaluated. *)
Definition initial_state : State := {|
  load_log := [];
  matcher_calls := 0;
  evaluation_passes := 0;
  is_evaluated := false;
  _average_precisions := ∅;
  _average_precision_headings := ∅;
  _precision_recall := ∅;
  _precision_recall_headings := ∅
|}.

(** Methods: they read and write the state, and return or raise. *)
Definition M (A : Type) : Type := State -> State * result A.

#[global] Instance M_ret : MRet M := fun A a st => (st, Ok a).
#[global] Instance M_bind : MBind M := fun A B f m st =>
  match m st with
  | (st', Ok a) => f a st'
  | (st', Raise e) => (st', Raise e)
  end.

Definition get : M State := fun st => (st, Ok st).
Definition modify (f : State -> State) : M unit := fun st => (f st, Ok tt).
Definition lift {A} (r : result A) : M A := fun st => (st, r).
Definition assert (b : bool) : M unit :=
  fun st => (st, if b then Ok tt else Raise AssertionError).

(** A [for] loop whose body is a method call. *)
Fixpoint for_eachM {A S : Type} (body : A -> S -> M S) (l : list A) (s : S) : M S :=
  match l with
  | [] => mret s
  | x :: l' => s' ← body x s; for_eachM body l' s'
  end.

(** [self._LoadBoundingBoxes(...)], recorded in the log. *)
Definition load_bounding_boxes (c : LoadCall) : M (option BoundingBoxes) :=
  fun st =>
    (Build_State (load_log st ++ [c]) (matcher_calls st) (evaluation_passes st)
       (is_evaluated st) (_average_precisions st) (_average_precision_headings st)
       (_precision_recall st) (_precision_recall_headings st),
     Ok (_LoadBoundingBoxes c)).

(** [WaymoAPMetrics.__init__]; the thresholds of the base class are given. *)
Definition WaymoAPMetrics_init (md : Metadata F) (box_type_param : string)
    (waymo_breakdown_metrics : list string) (base_iou_thresholds : gmap string F)
  : result WaymoAPMetrics :=
  config ← _BuildWaymoMetricConfig md box_type_param waymo_breakdown_metrics;
  let breakdown_names := get_breakdown_names_from_config config in
  Ok {| metadata := md;
        p_box_type := box_type_param;
        p_waymo_breakdown_metrics := waymo_breakdown_metrics;
        _waymo_metric_config := config;
        _iou_thresholds := base_iou_thresholds;
        breakdown_list := breakdown_names |}.

Definition _GetData (self : WaymoAPMetrics) (classid : Z)
    (difficulty : option string) (distance num_points rotation : option Z)
  : M (option FeedData) :=
  _ ← assert ((0 <? classid) && (classid <? NumClasses (metadata self)));
  g ← load_bounding_boxes
        {| lc_kind := "groundtruth"; lc_classid := classid; lc_distance := distance;
           lc_num_points := num_points; lc_rotation := rotation |};
  p ← load_bounding_boxes
        {| lc_kind := "prediction"; lc_classid := classid; lc_distance := distance;
           lc_num_points := None; lc_rotation := rotation |};
  match g, p with
  | Some g, Some p =>
      let gt_boxes := boxes g in
      let gt_imgids := imgids g in
      let gt_speeds := speeds g in
      classname ← lift (getitem (ClassNames (metadata self)) classid);
      iou ← lift (dict_get (_iou_thresholds self) classname);
      mret (Some {| iou_threshold := iou;
                    gt := {| gt_imgid := gt_imgids; gt_bbox := gt_boxes; gt_speed := gt_speeds |};
                    pd := {| pd_imgid := imgids p; pd_bbox := boxes p; pd_score := scores p |} |})
  | _, _ => mret None
  end.

(** The body and the loop [for i, metric in enumerate(breakdown_names)] of
    [_BuildMetric]: four entries per breakdown, the tensors chosen by the
    position [i]. *)
Definition add_breakdown_entries
    (ap ap_ha : nat -> ScalarTensor) (pr pr_ha : nat -> CurveTensor)
    (dicts : gmap string ScalarTensor * gmap string CurveTensor)
    (im : nat * string)
  : gmap string ScalarTensor * gmap string CurveTensor :=
  let i := im.1 in
  let metric := im.2 in
  (<["ap_ha_weighted_" +:+ metric := ap_ha i]> (<["ap_" +:+ metric := ap i]> dicts.1),
   <["pr_ha_weighted_" +:+ metric := pr_ha i]> (<["pr_" +:+ metric := pr i]> dicts.2)).

Definition add_breakdown_metrics
    (ap ap_ha : nat -> ScalarTensor) (pr pr_ha : nat -> CurveTensor)
    (breakdown_names : list string)
    (dicts : gmap string ScalarTensor * gmap string CurveTensor)
  : gmap string ScalarTensor * gmap string CurveTensor :=
  fold_left (add_breakdown_entries ap ap_ha pr pr_ha)
    (enumerate breakdown_names) dicts.

(** [tf.zeros([rows, 2], tf.float32)]: refused for a negative dimension. *)
Definition tf_zeros (rows : Z) : result CurveTensor :=
  if rows <? 0 then Raise ValueError else Ok (CZeros rows 2).

Definition _BuildMetric (self : WaymoAPMetrics) (feed_data : option FeedData)
    (classid : Z)
  : result (gmap string ScalarTensor * gmap string CurveTensor *
            list (Placeholder * FeedValue)) :=
  let breakdown_names := get_breakdown_names_from_config (_waymo_metric_config self) in
  match feed_data with
  | None =>
      let dummy_scalar := SConstant f_nan in
      dummy_curve ← tf_zeros (NumberOfPrecisionRecallPoints (metadata self));
      let scalar_metrics : gmap string ScalarTensor :=
        <["ap_ha_weighted" := dummy_scalar]> (<["ap" := dummy_scalar]> ∅) in
      let curve_metrics : gmap string CurveTensor :=
        <["pr_ha_weighted" := dummy_curve]> (<["pr" := dummy_curve]> ∅) in
      let d := add_breakdown_metrics
                 (fun _ => dummy_scalar) (fun _ => dummy_scalar)
                 (fun _ => dummy_curve) (fun _ => dummy_curve)
                 breakdown_names (scalar_metrics, curve_metrics) in
      Ok (d.1, d.2, [])
  | Some feed_data =>
      let feed_dict :=
        [(f_gt_bbox, FeedBoxes (gt_bbox (gt feed_data)));
         (f_gt_imgid, FeedIds (gt_imgid (gt feed_data)));
         (f_gt_speed, FeedBoxes (gt_speed (gt feed_data)));
         (f_pd_bbox, FeedBoxes (pd_bbox (pd feed_data)));
         (f_pd_imgid, FeedIds (pd_imgid (pd feed_data)));
         (f_pd_score, FeedScores (pd_score (pd feed_data)))] in
      let num_gt_bboxes := length (gt_imgid (gt feed_data)) in
      let num_pd_bboxes := length (pd_imgid (pd feed_data)) in
      let op := {| op_classid := classid;
                   op_num_gt_bboxes := num_gt_bboxes;
                   op_num_pd_bboxes := num_pd_bboxes;
                   op_config := _waymo_metric_config self |} in
      let scalar_metrics : gmap string ScalarTensor :=
        <["ap_ha_weighted" := SApHa op 0]> (<["ap" := SAp op 0]> ∅) in
      let curve_metrics : gmap string CurveTensor :=
        <["pr_ha_weighted" := CPrHa op 0]> (<["pr" := CPr op 0]> ∅) in
      let d := add_breakdown_metrics
                 (SAp op) (SApHa op) (CPr op) (CPrHa op)
                 breakdown_names (scalar_metrics, curve_metrics) in
      Ok (d.1, d.2, feed_dict)
  end.

(** *** Running the graph and the lazy evaluation *)

(** Modelled from the spec: what running a fetch tensor gives (the run itself
    belongs to the base class and to TensorFlow): a constant is its value, a
    zero tensor is rows of zeros, and a slice of an output of the op is the
    entry of that output for the breakdown. *)
Definition run_scalar (out : DetectionOp -> MatcherOutput) (t : ScalarTensor)
  : result F :=
  match t with
  | SConstant v => Ok v
  | SAp op i => getitem_nat (m_ap (out op)) i
  | SApHa op i => getitem_nat (m_ap_ha (out op)) i
  end.

Definition run_curve (out : DetectionOp -> MatcherOutput) (t : CurveTensor)
  : result Curve :=
  match t with
  | CZeros rows cols => Ok (replicate (Z.to_nat rows) (f_of_Z 0, f_of_Z 0))
  | CPr op i => getitem_nat (m_pr (out op)) i
  | CPrHa op i => getitem_nat (m_pr_ha (out op)) i
  end.

(** Modelled from the spec: running every tensor of a dict of fetches. *)
Definition run_dict {T V : Type} (run : T -> result V) (d : gmap string T)
  : result (gmap string V) :=
  list_to_map <$>
    comprehension (fun kt : string * T => v ← run kt.2; Ok (kt.1, v)) (map_to_list d).

Definition count_matcher_call : M unit :=
  modify (fun st =>
    Build_State (load_log st) (S (matcher_calls st)) (evaluation_passes st)
      (is_evaluated st) (_average_precisions st) (_average_precision_headings st)
      (_precision_recall st) (_precision_recall_headings st)).

Definition count_evaluation_pass : M unit :=
  modify (fun st =>
    Build_State (load_log st) (matcher_calls st) (S (evaluation_passes st))
      (is_evaluated st) (_average_precisions st) (_average_precision_headings st)
      (_precision_recall st) (_precision_recall_headings st)).

Definition set_evaluated : M unit :=
  modify (fun st =>
    Build_State (load_log st) (matcher_calls st) (evaluation_passes st)
      true (_average_precisions st) (_average_precision_headings st)
      (_precision_recall st) (_precision_recall_headings st)).

(** Modelled from the spec: the evaluation of one eval class, which the base
    class [APMetrics] performs and the sources do not contain.  The data
    selector feeds the metric evaluator; the external matcher runs once when
    there is data and not at all on the placeholder branch. *)
Definition evaluate_class (self : WaymoAPMetrics) (classid : Z)
  : M (gmap string F * gmap string Curve) :=
  feed_data ← _GetData self classid None None None None;
  built ← lift (_BuildMetric self feed_data classid);
  _ ← match feed_data with
      | Some _ => count_matcher_call
      | None => mret tt
      end;
  let out := fun op => detection_metrics op built.2 in
  scalars ← lift (run_dict (run_scalar out) built.1.1);
  curves ← lift (run_dict (run_curve out) built.1.2);
  mret (scalars, curves).

(** Modelled from the spec: the evaluation pass of the base class, one
    evaluation per eval class, in the order of [EvalClassIndices]. *)
Definition evaluate_all_classes (self : WaymoAPMetrics)
  : M (list (gmap string F) * list (gmap string Curve)) :=
  for_eachM
    (fun classid acc =>
       r ← evaluate_class self classid;
       mret (acc.1 ++ [r.1], acc.2 ++ [r.2]))
    (EvalClassIndices (metadata self)) ([], []).

(** The four assignments of the loop body of [ComputeMetrics], one map
    each. *)
Definition set_average_precisions (breakdown_str : string) (ap : list F) : M unit :=
  modify (fun st =>
    Build_State (load_log st) (matcher_calls st) (evaluation_passes st)
      (is_evaluated st)
      (<[breakdown_str := ap]> (_average_precisions st))
      (_average_precision_headings st) (_precision_recall st)
      (_precision_recall_headings st)).

Definition set_average_precision_headings (breakdown_str : string) (aph : list F)
  : M unit :=
  modify (fun st =>
    Build_State (load_log st) (matcher_calls st) (evaluation_passes st)
      (is_evaluated st) (_average_precisions st)
      (<[breakdown_str := aph]> (_average_precision_headings st))
      (_precision_recall st) (_precision_recall_headings st)).

Definition set_precision_recall (breakdown_str : string) (pr : list Curve) : M unit :=
  modify (fun st =>
    Build_State (load_log st) (matcher_calls st) (evaluation_passes st)
      (is_evaluated st) (_average_precisions st) (_average_precision_headings st)
      (<[breakdown_str := pr]> (_precision_recall st))
      (_precision_recall_headings st)).

Definition set_precision_recall_headings (breakdown_str : string) (prh : list Curve)
  : M unit :=
  modify (fun st =>
    Build_State (load_log st) (matcher_calls st) (evaluation_passes st)
      (is_evaluated st) (_average_precisions st) (_average_precision_headings st)
      (_precision_recall st)
      (<[breakdown_str := prh]> (_precision_recall_headings st))).

(** What the four assignments of one pass of the loop do together. *)
Definition store_breakdown (breakdown_str : string)
    (ap aph : list F) (pr prh : list Curve) : M unit :=
  modify (fun st =>
    Build_State (load_log st) (matcher_calls st) (evaluation_passes st)
      (is_evaluated st)
      (<[breakdown_str := ap]> (_average_precisions st))
      (<[breakdown_str := aph]> (_average_precision_headings st))
      (<[breakdown_str := pr]> (_precision_recall st))
      (<[breakdown_str := prh]> (_precision_recall_headings st))).

(** [WaymoBreakdownMetric.ComputeMetrics]: each list is built and assigned
    before the next one is built, so that a failing lookup leaves the
    assignments made before it. *)
Definition ComputeMetrics (self : WaymoAPMetrics)
    (compute_metrics_fn : M (list (gmap string F) * list (gmap string Curve)))
  : M unit :=
  sc ← compute_metrics_fn;
  let scalars := sc.1 in
  let curves := sc.2 in
  for_eachM
    (fun breakdown_str (_ : unit) =>
       ap ← lift (comprehension (fun s => dict_get s ("ap_" +:+ breakdown_str)) scalars);
       _ ← set_average_precisions breakdown_str ap;
       aph ← lift (comprehension
                     (fun s => dict_get s ("ap_ha_weighted_" +:+ breakdown_str)) scalars);
       _ ← set_average_precision_headings breakdown_str aph;
       pr ← lift (comprehension (fun c => dict_get c ("pr_" +:+ breakdown_str)) curves);
       _ ← set_precision_recall breakdown_str pr;
       prh ← lift (comprehension
                     (fun c => dict_get c ("pr_ha_weighted_" +:+ breakdown_str)) curves);
       set_precision_recall_headings breakdown_str prh)
    (breakdown_list self) tt.

(** Modelled from the spec: [APMetrics._EvaluateIfNecessary], which the
    sources call and do not contain.  The aggregate maps are populated by a
    single evaluation pass; a call that finds them populated does nothing. *)
Definition _EvaluateIfNecessary (self : WaymoAPMetrics) : M unit :=
  st ← get;
  if is_evaluated st then mret tt
  else
    _ ← count_evaluation_pass;
    _ ← ComputeMetrics self (evaluate_all_classes self);
    set_evaluated.

(** *** The weighted value and the summaries *)

(** The body of the loop of [value]: [sums] is [(num_sum, denom_sum)]. *)
Definition accumulate_class (breakdown_names : list string)
    (ap : gmap string (list F)) (class_index : Z) (sums : F * F) : result (F * F) :=
  name0 ← getitem breakdown_names 0;
  aps ← dict_get ap name0;
  x ← getitem aps class_index;
  Ok (f_add sums.1 (nan_to_num x), f_add sums.2 (f_of_Z 1)).

(** The loop and the final division of [value], on the map [ap] it reads. *)
Definition weighted_value (self : WaymoAPMetrics) (ap : gmap string (list F))
  : result F :=
  let breakdown_names := get_breakdown_names_from_config (_waymo_metric_config self) in
  sums ← for_each (accumulate_class breakdown_names ap)
            (range (Z.of_nat (length (EvalClassIndices (metadata self)))))
            (f_of_Z 0, f_of_Z 0);
  truediv sums.1 sums.2.

(** The property [WaymoAPMetrics.value]. *)
Definition value (self : WaymoAPMetrics) : M F :=
  _ ← _EvaluateIfNecessary self;
  st ← get;
  lift (weighted_value self (_average_precisions st)).

(** The test that guards [continue] in both rendering loops:
    [k > 0 and classname.lower() not in breakdown_name.lower()]. *)
Definition skip_breakdown (k : nat) (classname breakdown_name : string) : bool :=
  (0 <? k)%nat && negb (str_in (lower classname) (lower breakdown_name)).

(** The body of the inner loop of [Summary], for the class at position [i]. *)
Definition summary_breakdown (name : string) (ap aph : gmap string (list F))
    (i : nat) (classname : string) (kb : nat * string) (ret : list SummaryValue)
  : result (list SummaryValue) :=
  let k := kb.1 in
  let breakdown_name := kb.2 in
  if skip_breakdown k classname breakdown_name then Ok ret
  else
    let prefix := if (k =? 0)%nat then name +:+ "/" +:+ classname
                  else name +:+ "_extra" in
    let breakdown_str := if (k =? 0)%nat then "default" else breakdown_name in
    let tag_str := prefix +:+ "/AP_" +:+ breakdown_str in
    aps ← dict_get ap breakdown_name;
    ap_value ← getitem_nat aps i;
    let ret := ret ++ [SimpleValue tag_str ap_value] in
    let tag_str := prefix +:+ "/APH_" +:+ breakdown_str in
    aphs ← dict_get aph breakdown_name;
    aph_value ← getitem_nat aphs i;
    Ok (ret ++ [SimpleValue tag_str aph_value]).

(** The nested loops of [Summary] over the eval classes and the breakdowns. *)
Definition summary_scalars (self : WaymoAPMetrics) (name : string)
    (ap aph : gmap string (list F)) (ret : list SummaryValue)
  : result (list SummaryValue) :=
  let breakdown_names := get_breakdown_names_from_config (_waymo_metric_config self) in
  for_each
    (fun (ij : nat * Z) ret =>
       classname ← getitem (ClassNames (metadata self)) ij.2;
       for_each (summary_breakdown name ap aph ij.1 classname)
         (enumerate breakdown_names) ret)
    (enumerate (EvalClassIndices (metadata self))) ret.

(** The body of the inner loop of [GenerateSummaries]. *)
Definition plot_breakdown (name : string) (precision_recall : gmap string (list Curve))
    (i : nat) (classname : string) (kb : nat * string) (image_summaries : list TfSummary)
  : result (list TfSummary) :=
  let k := kb.1 in
  let breakdown_str := kb.2 in
  if skip_breakdown k classname breakdown_str then Ok image_summaries
  else
    prs ← dict_get precision_recall breakdown_str;
    curve ← getitem_nat prs i;
    let ps := [map fst curve] in
    let rs := [map snd curve] in
    let tag_str := if (k =? 0)%nat then name +:+ "/" +:+ classname +:+ "/PR"
                   else name +:+ "/" +:+ classname +:+ "/" +:+ breakdown_str +:+ "/PR" in
    let image_summary :=
      plot_Curve {| ca_name := tag_str;
                    ca_figsize := (10, 8);
                    ca_xs := hd [] rs;
                    ca_ys := map (fun p => [p]) (hd [] ps);
                    ca_marker := ".";
                    ca_markersize := 14;
                    ca_linestyle := "-";
                    ca_linewidth := 2;
                    ca_alpha := (1, 2) |} in
    Ok (image_summaries ++ [image_summary]).

(** [WaymoBreakdownMetric.GenerateSummaries], on the map it reads. *)
Definition generate_summaries (self : WaymoAPMetrics) (name : string)
    (precision_recall : gmap string (list Curve)) : result (list TfSummary) :=
  for_each
    (fun (ij : nat * Z) image_summaries =>
       classname ← getitem (ClassNames (metadata self)) ij.2;
       for_each (plot_breakdown name precision_recall ij.1 classname)
         (enumerate (breakdown_list self)) image_summaries)
    (enumerate (EvalClassIndices (metadata self))) [].

Definition GenerateSummaries (self : WaymoAPMetrics) (name : string)
  : M (list TfSummary) :=
  st ← get;
  lift (generate_summaries self name (_precision_recall st)).

(** [WaymoAPMetrics.Summary] *)
Definition Summary (self : WaymoAPMetrics) (name : string) : M TfSummary :=
  _ ← _EvaluateIfNecessary self;
  v ← value self;
  let ret := [SimpleValue (name +:+ "/weighted_mAP") v] in
  st ← get;
  ret ← lift (summary_scalars self name (_average_precisions st)
                (_average_precision_headings st) ret);
  image_summaries ← GenerateSummaries self name;
  mret {| values := fold_left (fun ret s => ret ++ values s) image_summaries ret |}.

(** A call on the object from outside. *)
Inductive Call : Type :=
| CallValue
| CallSummary (name : string).

Definition run_call (self : WaymoAPMetrics) (c : Call) : M unit :=
  match c with
  | CallValue => _ ← value self; mret tt
  | CallSummary name => _ ← Summary self name; mret tt
  end.

(** A sequence of calls; an exception ends the run. *)
Definition run_calls (self : WaymoAPMetrics) (cs : list Call) : M unit :=
  for_eachM (fun c (_ : unit) => run_call self c) cs tt.

End Metric.

Arguments BoundingBoxes F : clear implicits.
Arguments Curve F : clear implicits.
Arguments GtData F : clear implicits.
Arguments PdData F : clear implicits.
Arguments FeedData F : clear implicits.
Arguments FeedValue F : clear implicits.
Arguments DetectionOp F : clear implicits.
Arguments ScalarTensor F : clear implicits.
Arguments CurveTensor F : clear implicits.
Arguments MatcherOutput F : clear implicits.
Arguments CurveArgs F : clear implicits.
Arguments SummaryValue F : clear implicits.
Arguments TfSummary F : clear implicits.
Arguments Collaborators F : clear implicits.
Arguments WaymoAPMetrics F : clear implicits.
Arguments State F : clear implicits.
Arguments M F A : clear implicits.

(** * The vocabulary of the properties *)

Section Vocabulary.
Context {F : Type} `{PyFloat F} `{BreakdownProto} `{Collaborators F}.

(** The two loader calls of [_GetData], by the arguments of the caller. *)
Definition groundtruth_call (classid : Z) (distance num_points rotation : option Z)
  : LoadCall :=
  {| lc_kind := "groundtruth"; lc_classid := classid; lc_distance := distance;
     lc_num_points := num_points; lc_rotation := rotation |}.

Definition prediction_call (classid : Z) (distance rotation : option Z) : LoadCall :=
  {| lc_kind := "prediction"; lc_classid := classid; lc_distance := distance;
     lc_num_points := None; lc_rotation := rotation |}.

(** The keys of the scalar dict and of the curve dict, as the loop of
    [_BuildMetric] names them. *)
Definition scalar_key (names : list string) (k : string) : Prop :=
  k = "ap"%string \/ k = "ap_ha_weighted"%string \/
  exists name, name ∈ names /\
    (k = "ap_" +:+ name \/ k = "ap_ha_weighted_" +:+ name).

Definition curve_key (names : list string) (k : string) : Prop :=
  k = "pr"%string \/ k = "pr_ha_weighted"%string \/
  exists name, name ∈ names /\
    (k = "pr_" +:+ name \/ k = "pr_ha_weighted_" +:+ name).

(** An entry with NaN replaced by 0, and the sum of a list of floats taken
    from left to right, starting from 0. *)
Definition nan_as_zero (x : F) : F :=
  match f_classify x with
  | FNaN => f_of_Z 0
  | _ => x
  end.

Definition float_sum (l : list F) : F := fold_left f_add l (f_of_Z 0).

(** The (class position, class name, breakdown position, breakdown name)
    combinations that a rendering loop does not skip, in the order of the
    loops. *)
Definition rendered (classnames breakdown_names : list string)
  : list (nat * string * nat * string) :=
  flat_map
    (fun ic : nat * string =>
       flat_map
         (fun kb : nat * string =>
            if skip_breakdown kb.1 ic.2 kb.2 then []
            else [(ic.1, ic.2, kb.1, kb.2)])
         (enumerate breakdown_names))
    (enumerate classnames).

(** A default for the total lookups below; the theorems use them only where
    the lookup is defined. *)
#[local] Instance F_inhabited : Inhabited F := populate f_nan.

(** The AP/APH pair that [Summary] emits for one combination. *)
Definition scalar_pair (name : string) (ap aph : gmap string (list F))
    (r : nat * string * nat * string) : list (SummaryValue F) :=
  let '(i, classname, k, breakdown_name) := r in
  let prefix := if (k =? 0)%nat then name +:+ "/" +:+ classname
                else name +:+ "_extra" in
  let breakdown_str := if (k =? 0)%nat then "default"%string else breakdown_name in
  [SimpleValue (prefix +:+ "/AP_" +:+ breakdown_str) ((ap !!! breakdown_name) !!! i);
   SimpleValue (prefix +:+ "/APH_" +:+ breakdown_str) ((aph !!! breakdown_name) !!! i)].

(** The plot that [GenerateSummaries] makes for one combination. *)
Definition curve_plot (name : string) (precision_recall : gmap string (list (Curve F)))
    (r : nat * string * nat * string) : TfSummary F :=
  let '(i, classname, k, breakdown_str) := r in
  let curve : Curve F := (precision_recall !!! breakdown_str) !!! i in
  plot_Curve
    {| ca_name := if (k =? 0)%nat then name +:+ "/" +:+ classname +:+ "/PR"
                  else name +:+ "/" +:+ classname +:+ "/" +:+ breakdown_str +:+ "/PR";
       ca_figsize := (10, 8);
       ca_xs := map snd curve;
       ca_ys := map (fun p => [p]) (map fst curve);
       ca_marker := ".";
       ca_markersize := 14;
       ca_linestyle := "-";
       ca_linewidth := 2;
       ca_alpha := (1, 2) |}.

(** [within d st st']: from [st] to [st'] no evaluation pass was counted,
    the flag was not touched, and at most [d] matcher runs were counted. *)
Definition within (d : nat) (st st' : State F) : Prop :=
  evaluation_passes st' = evaluation_passes st /\
  is_evaluated st' = is_evaluated st /\
  (matcher_calls st <= matcher_calls st' <= matcher_calls st + d)%nat.

Definition costs {A : Type} (d : nat) (m : M F A) : Prop :=
  forall st, within d st (m st).1.

(** The dicts of the per-class results have the four keys that
    [ComputeMetrics] reads for the breakdown [bs]. *)
Definition has_breakdown_keys (scalars : list (gmap string F))
    (curves : list (gmap string (Curve F))) (bs : string) : Prop :=
  (forall s, s ∈ scalars ->
     is_Some (s !! ("ap_" +:+ bs)) /\ is_Some (s !! ("ap_ha_weighted_" +:+ bs))) /\
  (forall c, c ∈ curves ->
     is_Some (c !! ("pr_" +:+ bs)) /\ is_Some (c !! ("pr_ha_weighted_" +:+ bs))).

(** The same as a test, to be evaluated on given dicts. *)
Definition has_key {V : Type} (k : string) (d : gmap string V) : bool :=
  match d !! k with Some _ => true | None => false end.

Definition has_breakdown_keysb (scalars : list (gmap string F))
    (curves : list (gmap string (Curve F))) (bs : string) : bool :=
  forallb (fun s => has_key ("ap_" +:+ bs) s && has_key ("ap_ha_weighted_" +:+ bs) s)
    scalars &&
  forallb (fun c => has_key ("pr_" +:+ bs) c && has_key ("pr_ha_weighted_" +:+ bs) c)
    curves.

(** The four aggregate maps hold, under [bs], the per-class entries of the
    results, in the order of the results. *)
Definition stores_breakdown (st : State F) (scalars : list (gmap string F))
    (curves : list (gmap string (Curve F))) (bs : string) : Prop :=
  _average_precisions st !! bs = Some (map (fun s => s !!! ("ap_" +:+ bs)) scalars) /\
  _average_precision_headings st !! bs =
    Some (map (fun s => s !!! ("ap_ha_weighted_" +:+ bs)) scalars) /\
  _precision_recall st !! bs = Some (map (fun c => c !!! ("pr_" +:+ bs)) curves) /\
  _precision_recall_headings st !! bs =
    Some (map (fun c => c !!! ("pr_ha_weighted_" +:+ bs)) curves).

(** The four aggregate maps agree under [bs] in two states. *)
Definition same_breakdown (st st' : State F) (bs : string) : Prop :=
  _average_precisions st' !! bs = _average_precisions st !! bs /\
  _average_precision_headings st' !! bs = _average_precision_headings st !! bs /\
  _precision_recall st' !! bs = _precision_recall st !! bs /\
  _precision_recall_headings st' !! bs = _precision_recall_headings st !! bs.

(** The map [m] has, under the breakdown name of the combination [r], a
    list with an element at the position of its class. *)
Definition has_entry {V : Type} (m : gmap string (list V))
    (r : nat * string * nat * string) : Prop :=
  exists l, m !! r.2 = Some l /\ (r.1.1.1 < length l)%nat.

(** A metadata whose override mapping lists its items in another order. *)
Definition with_overrides (items : list (string * F)) (md : Metadata F) : Metadata F :=
  {| NumClasses := NumClasses md;
     ClassNames := ClassNames md;
     IoUThresholds := items;
     NumberOfPrecisionRecallPoints := NumberOfPrecisionRecallPoints md;
     EvalClassIndices := EvalClassIndices md |}.

End Vocabulary.

(** * A concrete metric object *)

Module Example.

(** Some generator ids of the Waymo breakdown enumeration. *)
#[export] Instance waymo_proto : BreakdownProto := {|
  GeneratorId_Value := fun name =>
    if String.eqb name "ONE_SHARD" then Some 1
    else if String.eqb name "OBJECT_TYPE" then Some 2
    else if String.eqb name "RANGE" then Some 3
    else None;
  ONE_SHARD := 1
|}.

Section Generic.
Context {F : Type} `{PyFloat F}.

Definition frac (a b : Z) : F := f_div (f_of_Z a) (f_of_Z b).

(** Four classes, of which three are evaluated; three precision-recall
    points; one override. *)
Definition md : Metadata F := {|
  NumClasses := 4;
  ClassNames := ["Background"; "Vehicle"; "Pedestrian"; "Cyclist"]%string;
  IoUThresholds := [("Pedestrian"%string, frac 1 2)];
  NumberOfPrecisionRecallPoints := 3;
  EvalClassIndices := [1; 2; 3]
|}.

Definition with_points (P : Z) (m : Metadata F) : Metadata F :=
  {| NumClasses := NumClasses m; ClassNames := ClassNames m;
     IoUThresholds := IoUThresholds m; NumberOfPrecisionRecallPoints := P;
     EvalClassIndices := EvalClassIndices m |}.

(** Six classes: one more than the configuration has thresholds for. *)
Definition md_six (overrides : list (string * F)) : Metadata F := {|
  NumClasses := 6;
  ClassNames := ["Background"; "Vehicle"; "Pedestrian"; "Sign"; "Cyclist"; "Other"]%string;
  IoUThresholds := overrides;
  NumberOfPrecisionRecallPoints := 3;
  EvalClassIndices := [1; 2; 4]
|}.

Definition breakdown_names (config : Config F) : list string :=
  flat_map
    (fun id =>
       if id =? 1 then ["ONE_SHARD"%string]
       else if id =? 2 then
         ["OBJECT_TYPE_TYPE_VEHICLE"; "OBJECT_TYPE_TYPE_PEDESTRIAN";
          "OBJECT_TYPE_TYPE_SIGN"; "OBJECT_TYPE_TYPE_CYCLIST"]%string
       else ["RANGE"%string])
    (breakdown_generator_ids config).

(** Boxes for the classes 1 and 3, none for the others. *)
Definition loader (c : LoadCall) : option (BoundingBoxes F) :=
  if (lc_classid c =? 1) || (lc_classid c =? 3) then
    Some {| boxes := [[f_of_Z 0; f_of_Z 1]];
            imgids := [lc_classid c];
            speeds := [[f_of_Z 0; f_of_Z 0]];
            scores := [frac 1 2] |}
  else None.

(** A matcher whose overall AP is 0.8 for class 1 and 0.6 otherwise. *)
Definition matcher (op : DetectionOp F) (feed : list (Placeholder * FeedValue F))
  : MatcherOutput F :=
  let overall := if op_classid op =? 1 then frac 4 5 else frac 3 5 in
  let line : Curve F := [(f_of_Z 1, f_of_Z 0); (frac 1 2, frac 1 2); (f_of_Z 0, f_of_Z 1)] in
  {| m_ap := [overall; overall; overall; overall; overall];
     m_ap_ha := [frac 1 2; frac 1 2; frac 1 2; frac 1 2; frac 1 2];
     m_pr := [line; line; line; line; line];
     m_pr_ha := [line; line; line; line; line] |}.

#[export] Instance collaborators : Collaborators F := {|
  get_breakdown_names_from_config := breakdown_names;
  _LoadBoundingBoxes := loader;
  detection_metrics := matcher;
  plot_Curve := fun args => {| values := [ImageValue args] |}
|}.

Definition unwrap {A : Type} (d : A) (r : result A) : A :=
  match r with Ok a => a | Raise _ => d end.

Definition empty_config : Config F := {|
  score_cutoffs := []; matcher_type := TYPE_HUNGARIAN; box_type := TYPE_3D;
  iou_thresholds := []; breakdown_generator_ids := []; difficulties := [] |}.

Definition config (box_type_param : string) (extra : list string) : Config F :=
  unwrap empty_config (_BuildWaymoMetricConfig md box_type_param extra).

Definition thresholds : gmap string F :=
  list_to_map [("Vehicle"%string, f_lit_0_7); ("Pedestrian"%string, frac 1 2);
               ("Cyclist"%string, frac 1 2)].

Definition self : WaymoAPMetrics F :=
  unwrap {| metadata := md; p_box_type := ""; p_waymo_breakdown_metrics := [];
            _waymo_metric_config := empty_config; _iou_thresholds := ∅;
            breakdown_list := [] |}
    (WaymoAPMetrics_init md "3d" ["OBJECT_TYPE"%string] thresholds).

(** The state after the evaluation pass. *)
Definition evaluated : State F := (_EvaluateIfNecessary self initial_state).1.

(** What [Summary] returns on the fresh object. *)
Definition summary : TfSummary F :=
  unwrap {| values := [] |} (Summary self "eval" initial_state).2.

(** The per-class results of the evaluation pass on the fresh object, and
    the state in which the pass leaves it. *)
Definition results : list (gmap string F) * list (gmap string (Curve F)) :=
  unwrap ([], []) (evaluate_all_classes self initial_state).2.

Definition loaded : State F := (evaluate_all_classes self initial_state).1.

(** The same object with the default [breakdown_list] of
    [WaymoBreakdownMetric.Params], which is empty. *)
Definition self_default_list : WaymoAPMetrics F := {|
  metadata := metadata self;
  p_box_type := p_box_type self;
  p_waymo_breakdown_metrics := p_waymo_breakdown_metrics self;
  _waymo_metric_config := _waymo_metric_config self;
  _iou_thresholds := _iou_thresholds self;
  breakdown_list := []
|}.

(** The same object when the base class has no threshold for any class. *)
Definition self_without_thresholds : WaymoAPMetrics F := {|
  metadata := metadata self;
  p_box_type := p_box_type self;
  p_waymo_breakdown_metrics := p_waymo_breakdown_metrics self;
  _waymo_metric_config := _waymo_metric_config self;
  _iou_thresholds := ∅;
  breakdown_list := breakdown_list self
|}.

(** The same object when the thresholds of the base class are the override
    mapping of the metadata, which names one class only. *)
Definition self_with_override_thresholds : WaymoAPMetrics F := {|
  metadata := metadata self;
  p_box_type := p_box_type self;
  p_waymo_breakdown_metrics := p_waymo_breakdown_metrics self;
  _waymo_metric_config := _waymo_metric_config self;
  _iou_thresholds := list_to_map (IoUThresholds md);
  breakdown_list := breakdown_list self
|}.

(** The same object when no class is evaluated. *)
Definition self_without_eval_classes : WaymoAPMetrics F := {|
  metadata := {| NumClasses := 4;
                 ClassNames := ClassNames md;
                 IoUThresholds := IoUThresholds md;
                 NumberOfPrecisionRecallPoints := 3;
                 EvalClassIndices := [] |};
  p_box_type := p_box_type self;
  p_waymo_breakdown_metrics := p_waymo_breakdown_metrics self;
  _waymo_metric_config := _waymo_metric_config self;
  _iou_thresholds := _iou_thresholds self;
  breakdown_list := breakdown_list self
|}.

End Generic.
End Example.

(** * Checks of binary64 arithmetic by evaluation *)

Module Binary64Checks.
Import Binary64.

Definition same (x y : float) : bool := PrimFloat.Leibniz.eqb x y.

(** The laws of [PyFloatLaws] at the integers [0 <= i < n] and the divisors
    [0 < d <= n], decided by evaluation. *)
Definition laws_hold_below (n : Z) : bool :=
  forallb
    (fun z =>
       same (f_mul (f_of_Z z) (f_of_Z 1)) (f_of_Z z) &&
       Bool.eqb (f_is_zero (f_of_Z z)) (z =? 0) &&
       same (f_add (f_of_Z z) (f_of_Z 1)) (f_of_Z (z + 1)) &&
       f_int_ok z && f_exact_int (z + 1))
    (range n) &&
  forallb
    (fun d =>
       same (f_div (f_of_Z 0) (f_of_Z d)) (f_of_Z 0) &&
       same (f_div (f_of_Z d) (f_of_Z d)) (f_of_Z 1) &&
       forallb
         (fun i => f_leb (f_div (f_of_Z i) (f_of_Z d)) (f_div (f_of_Z (i + 1)) (f_of_Z d)))
         (range n))
    (map (Z.add 1) (range n)).

(** The score cutoffs for [P] points: built, of length [P], from 0 to 1,
    ascending. *)
Definition cutoffs_hold (P : Z) : bool :=
  match build_score_cutoffs (F:=float) P with
  | Ok cs =>
      (Z.of_nat (length cs) =? P) &&
      match cs !! 0%nat, cs !! Z.to_nat (P - 1) with
      | Some x, Some y => same x 0%float && same y 1%float
      | _, _ => false
      end &&
      forallb (fun xy : float * float => f_leb xy.1 xy.2) (zip cs (tail cs))
  | Raise _ => false
  end.

End Binary64Checks.

(** * Properties *)

(** ** Loops, comprehensions and list operations *)

Section PyFacts.
Context {A B S : Type}.

Lemma comprehension_Ok (f : A -> result B) (l : list A) (ys : list B) :
  comprehension f l = Ok ys <-> Forall2 (fun x y => f x = Ok y) l ys.
Proof.
  revert ys. induction l as [|x l IH]; intros ys; simpl.
  - split.
    + intros [= <-]. constructor.
    + intros Hf. inversion Hf. reflexivity.
  - destruct (f x) as [y|e] eqn:Hx.
    + destruct (comprehension f l) as [ys'|e] eqn:Hl.
      * split.
        -- intros [= <-]. constructor; [assumption | by apply IH].
        -- intros Hf. inversion Hf as [|? y' ? ys'' Hy Hrest]; subst.
           apply IH in Hrest. congruence.
      * split; [discriminate|].
        intros Hf. inversion Hf as [|? y' ? ys'' Hy Hrest]; subst.
        apply IH in Hrest. discriminate.
    + split; [discriminate|].
      intros Hf. inversion Hf; congruence.
Qed.

Lemma comprehension_map (f : A -> result B) (g : A -> B) (l : list A) :
  (forall x, x ∈ l -> f x = Ok (g x)) -> comprehension f l = Ok (map g l).
Proof.
  induction l as [|x l IH]; intros Hall; simpl; [reflexivity|].
  rewrite Hall by left. rewrite IH; [reflexivity|].
  intros y Hy. apply Hall. by right.
Qed.

Lemma comprehension_Raise_first (f : A -> result B) (x : A) (l : list A) (e : exn) :
  f x = Raise e -> comprehension f (x :: l) = Raise e.
Proof. intros Hx. simpl. by rewrite Hx. Qed.

End PyFacts.

Lemma range_length (n : Z) : 0 <= n -> Z.of_nat (length (range n)) = n.
Proof. intros Hn. unfold range. rewrite length_map, length_seq. lia. Qed.

Lemma range_lookup (n i : Z) :
  0 <= i < n -> range n !! Z.to_nat i = Some i.
Proof.
  intros Hi. unfold range. rewrite list_lookup_fmap.
  rewrite lookup_seq_lt by lia. simpl. f_equal. lia.
Qed.

Lemma range_elem (n i : Z) : i ∈ range n <-> 0 <= i < n.
Proof.
  unfold range. rewrite list_elem_of_fmap. split.
  - intros (k & -> & Hk). apply elem_of_seq in Hk. lia.
  - intros Hi. exists (Z.to_nat i). split; [lia|]. apply elem_of_seq. lia.
Qed.

Lemma range_nonpos (n : Z) : n <= 0 -> range n = [].
Proof. intros Hn. unfold range. by replace (Z.to_nat n) with 0%nat by lia. Qed.

Lemma enumerate_lookup {A : Type} (l : list A) (i : nat) (x : A) :
  enumerate l !! i = Some (i, x) <-> l !! i = Some x.
Proof.
  unfold enumerate. rewrite lookup_zip_with_Some. split.
  - intros (k & y & [= <- <-] & Hk & Hy). assumption.
  - intros Hx. exists i, x. split; [reflexivity|]. split; [|assumption].
    apply lookup_seq. split; [reflexivity|]. by eapply lookup_lt_Some.
Qed.

Lemma enumerate_elem {A : Type} (l : list A) (i : nat) (x : A) :
  (i, x) ∈ enumerate l <-> l !! i = Some x.
Proof.
  rewrite list_elem_of_lookup. split.
  - intros [k Hk]. unfold enumerate in Hk.
    apply lookup_zip_with_Some in Hk as (a & b & [= <- <-] & Ha & Hb).
    apply lookup_seq in Ha as [-> _]. assumption.
  - intros Hx. exists i. by apply enumerate_lookup.
Qed.

Lemma index_Ok (l : list string) (x : string) (i : Z) :
  index l x = Ok i -> 0 <= i /\ l !! Z.to_nat i = Some x.
Proof.
  revert i. induction l as [|y l IH]; intros i; simpl; [discriminate|].
  destruct (String.eqb y x) eqn:Hyx.
  - intros [= <-]. apply String.eqb_eq in Hyx. subst. done.
  - destruct (index l x) as [j|e]; [|discriminate].
    intros [= <-]. destruct (IH j eq_refl) as [Hj Hl]. split; [lia|].
    replace (Z.to_nat (j + 1)) with (S (Z.to_nat j)) by lia. assumption.
Qed.

Lemma index_Raise (l : list string) (x : string) (e : exn) :
  index l x = Raise e -> e = ValueError /\ x ∉ l.
Proof.
  induction l as [|y l IH]; simpl.
  - intros [= <-]. split; [reflexivity|]. apply not_elem_of_nil.
  - destruct (String.eqb y x) eqn:Hyx; [discriminate|].
    destruct (index l x) as [j|e']; [discriminate|].
    intros [= <-]. destruct (IH eq_refl) as [He Hnin]. split; [exact He|].
    apply String.eqb_neq in Hyx. rewrite elem_of_cons.
    intros [->|Hin]; [by apply Hyx | by apply Hnin].
Qed.

Lemma index_inj (l : list string) (x y : string) (i : Z) :
  index l x = Ok i -> index l y = Ok i -> x = y.
Proof.
  intros Hx Hy. apply index_Ok in Hx as [_ Hx]. apply index_Ok in Hy as [_ Hy].
  congruence.
Qed.

Lemma bind_Ok {A B : Type} (x : A) (f : A -> result B) : (Ok x ≫= f) = f x.
Proof. reflexivity. Qed.

Lemma bind_Raise {A B : Type} (e : exn) (f : A -> result B) :
  (Raise e ≫= f) = Raise e.
Proof. reflexivity. Qed.

Lemma prefix_spec (p s : string) :
  String.prefix p s = true <-> exists b, s = p +:+ b.
Proof.
  revert s. induction p as [|c p IH]; intros s.
  - split; [intros _; by exists s | intros _; by destruct s].
  - destruct s as [|c' s]; simpl.
    + split; [discriminate | intros [b [=]]].
    + destruct (ascii_dec c c') as [->|Hne].
      * rewrite IH. split; intros [b Hb]; exists b; [by rewrite Hb | by injection Hb].
      * split; [discriminate | intros [b Hb]; injection Hb as Hc _; by destruct Hne].
Qed.

(** [str_in] is Python's substring test. *)
Lemma str_in_spec (p s : string) :
  str_in p s = true <-> exists a b, s = a +:+ p +:+ b.
Proof.
  induction s as [|c s IH]; cbn [str_in].
  - rewrite orb_false_r, prefix_spec. split.
    + intros [b Hb]. by exists EmptyString, b.
    + intros (a & b & Hab). destruct a; [by exists b | discriminate].
  - rewrite orb_true_iff, prefix_spec, IH. split.
    + intros [[b Hb]|(a & b & Hab)].
      * by exists EmptyString, b.
      * exists (String c a), b. simpl. by rewrite Hab.
    + intros (a & b & Hab). destruct a as [|c' a]; simpl in Hab.
      * left. by exists b.
      * right. injection Hab as _ Hab. by exists a, b.
Qed.

(** ** The configuration builder *)

Section ConfigFacts.
Context {F : Type} `{PyFloat F} `{BreakdownProto}.

(** The builder returns exactly when its three parts do, and the
    configuration collects their results. *)
Lemma build_Ok (md : Metadata F) (bt : string) (wbm : list string) (cfg : Config F) :
  _BuildWaymoMetricConfig md bt wbm = Ok cfg <->
  exists cutoffs thresholds bd,
    build_score_cutoffs (NumberOfPrecisionRecallPoints md) = Ok cutoffs /\
    build_iou_thresholds md = Ok thresholds /\
    build_breakdowns wbm = Ok bd /\
    cfg = {| score_cutoffs := cutoffs;
             matcher_type := TYPE_HUNGARIAN;
             box_type := if String.eqb bt "2d" then TYPE_2D else TYPE_3D;
             iou_thresholds := thresholds;
             breakdown_generator_ids := bd.1;
             difficulties := bd.2 |}.
Proof.
  unfold _BuildWaymoMetricConfig.
  destruct (build_score_cutoffs _) as [cs|e1]; simpl.
  2: { split; [discriminate|]. intros (? & ? & ? & [=] & _). }
  destruct (build_iou_thresholds md) as [ts|e2]; simpl.
  2: { split; [discriminate|]. intros (? & ? & ? & _ & [=] & _). }
  destruct (build_breakdowns wbm) as [bd|e3]; simpl.
  2: { split; [discriminate|]. intros (? & ? & ? & _ & _ & [=] & _). }
  split.
  - intros [= <-]. by exists cs, ts, bd.
  - intros (? & ? & ? & [= <-] & [= <-] & [= <-] & ->). reflexivity.
Qed.

Lemma build_breakdowns_loop (wbm : list string) (ids0 : list Z)
    (ds0 : list Difficulty) (bd : list Z * list Difficulty) :
  for_each add_breakdown wbm (ids0, ds0) = Ok bd ->
  exists ids, mapM GeneratorId_Value wbm = Some ids /\
    bd.1 = ids0 ++ ids /\
    bd.2 = ds0 ++ replicate (length wbm) Difficulty_default.
Proof.
  revert ids0 ds0. induction wbm as [|name wbm IH]; intros ids0 ds0; simpl.
  - intros [= <-]. exists []. simpl. by rewrite !app_nil_r.
  - unfold add_breakdown at 1. simpl.
    destruct (GeneratorId_Value name) as [id|] eqn:Hid; [|discriminate].
    intros Hloop. apply IH in Hloop as (ids & Hids & H1 & H2).
    exists (id :: ids). rewrite H1, H2, <- !app_assoc. simpl.
    split; [|done].
    rewrite Hids. reflexivity.
Qed.

Lemma build_breakdowns_unknown (wbm : list string) (name : string)
    (acc : list Z * list Difficulty) :
  name ∈ wbm -> GeneratorId_Value name = None ->
  for_each add_breakdown wbm acc = Raise ValueError.
Proof.
  intros Hin Hnone. revert acc.
  induction wbm as [|n wbm IH]; intros acc; [by apply elem_of_nil in Hin|].
  simpl. unfold add_breakdown at 1.
  destruct (GeneratorId_Value n) as [id|] eqn:Hid; [|reflexivity].
  apply IH. apply elem_of_cons in Hin as [->|Hin]; [congruence | assumption].
Qed.

(** C10: the box type of the built configuration is [TYPE_2D] exactly when
    the [box_type] parameter is the string ["2d"]; every other string gives
    [TYPE_3D], and no string makes the builder fail: if it returns for one
    value of the parameter it returns for every value. *)
Theorem box_type_2d_iff (md : Metadata F) (bt : string) (wbm : list string)
    (cfg : Config F) :
  _BuildWaymoMetricConfig md bt wbm = Ok cfg ->
  (box_type cfg = TYPE_2D <-> bt = "2d"%string) /\
  (bt <> "2d"%string -> box_type cfg = TYPE_3D) /\
  (forall bt' : string, exists cfg',
     _BuildWaymoMetricConfig md bt' wbm = Ok cfg' /\
     box_type cfg' = if String.eqb bt' "2d" then TYPE_2D else TYPE_3D).
Proof.
  intros Hb. apply build_Ok in Hb as (cs & ts & bd & Hcs & Hts & Hbd & ->).
  simpl. repeat split.
  - destruct (String.eqb bt "2d") eqn:E; [|discriminate].
    intros _. by apply String.eqb_eq.
  - intros ->. reflexivity.
  - intros Hne. apply String.eqb_neq in Hne. by rewrite Hne.
  - intros bt'. eexists. split.
    + apply build_Ok. exists cs, ts, bd. repeat split; try eassumption.
    + reflexivity.
Qed.

(** C6: whatever the extra breakdown names, a built configuration starts
    its breakdown generator ids with [ONE_SHARD], continues with the id of
    each extra name in order, and pairs every id with one default
    difficulty: both sequences have length [1 + len(extra names)]. *)
Theorem breakdowns_one_shard_first (md : Metadata F) (bt : string)
    (wbm : list string) (cfg : Config F) :
  _BuildWaymoMetricConfig md bt wbm = Ok cfg ->
  breakdown_generator_ids cfg !! 0%nat = Some ONE_SHARD /\
  length (breakdown_generator_ids cfg) = S (length wbm) /\
  length (difficulties cfg) = S (length wbm) /\
  difficulties cfg = replicate (S (length wbm)) Difficulty_default /\
  (forall (k : nat) (name : string), wbm !! k = Some name ->
     exists id, GeneratorId_Value name = Some id /\
                breakdown_generator_ids cfg !! S k = Some id).
Proof.
  intros Hb. apply build_Ok in Hb as (cs & ts & bd & Hcs & Hts & Hbd & ->).
  simpl. unfold build_breakdowns in Hbd.
  apply build_breakdowns_loop in Hbd as (ids & Hids & -> & ->).
  apply mapM_Some in Hids.
  pose proof (Forall2_length Hids) as Hlen.
  simpl. repeat split.
  - lia.
  - by rewrite length_replicate.
  - intros k name Hk.
    destruct (Forall2_lookup_l _ _ _ _ _ Hids Hk) as (id & Hid & Hv).
    exists id. split; assumption.
Qed.

Lemma setitem_Ok {A : Type} (l l' : list A) (i : Z) (v : A) :
  setitem l i v = Ok l' ->
  0 <= i < Z.of_nat (length l) /\ l' = <[Z.to_nat i := v]> l.
Proof.
  unfold setitem. destruct (i <? 0) eqn:E1; simpl; [discriminate|].
  destruct (Z.of_nat (length l) <=? i) eqn:E2; [discriminate|].
  intros [= <-]. split; [lia | reflexivity].
Qed.

Lemma set_iou_threshold_Ok (names : list string) (item : string * F)
    (ths ths' : list F) :
  set_iou_threshold names item ths = Ok ths' ->
  exists i : nat, index names item.1 = Ok (Z.of_nat i) /\
    (i < length ths)%nat /\ ths' = <[i := item.2]> ths.
Proof.
  unfold set_iou_threshold.
  destruct (index names item.1) as [z|e] eqn:Hidx; simpl; [|discriminate].
  intros Hset. apply setitem_Ok in Hset as [Hz ->].
  exists (Z.to_nat z). rewrite Z2Nat.id by lia. split; [reflexivity|].
  split; [lia | reflexivity].
Qed.

(** The loop over the overrides: the length is kept, a position that no
    override resolves to is kept, and every override is stored at the
    position of its class name. *)
Lemma iou_thresholds_loop (names : list string) (items : list (string * F))
    (ths ths' : list F) :
  for_each (set_iou_threshold names) items ths = Ok ths' ->
  length ths' = length ths /\
  (forall i : nat,
     (forall cn th, (cn, th) ∈ items -> index names cn <> Ok (Z.of_nat i)) ->
     ths' !! i = ths !! i) /\
  (NoDup items.*1 -> forall cn th, (cn, th) ∈ items ->
     exists i : nat, index names cn = Ok (Z.of_nat i) /\
       (i < length ths)%nat /\ ths' !! i = Some th).
Proof.
  revert ths. induction items as [|[cn0 th0] items IH]; intros ths; simpl.
  - intros [= <-]. split; [reflexivity|]. split; [reflexivity|].
    intros _ cn th Hin. by apply elem_of_nil in Hin.
  - destruct (set_iou_threshold names (cn0, th0) ths) as [ths1|e] eqn:Hset;
      [|discriminate].
    apply set_iou_threshold_Ok in Hset as (i0 & Hidx0 & Hlt0 & ->). simpl in *.
    intros Hloop. destruct (IH _ Hloop) as (Hlen & Hkeep & Hset).
    rewrite length_insert in Hlen, Hset.
    split; [exact Hlen|]. split.
    + intros i Hfree. rewrite Hkeep.
      * apply list_lookup_insert_ne. intros ->.
        apply (Hfree cn0 th0); [by left | exact Hidx0].
      * intros cn th Hin. apply (Hfree cn th). by right.
    + intros Hnd cn th Hin. apply list.NoDup_cons in Hnd as [Hfresh Hnd].
      apply elem_of_cons in Hin as [[= -> ->]|Hin].
      * exists i0. split; [exact Hidx0|]. split; [exact Hlt0|].
        rewrite Hkeep; [by apply list_lookup_insert_eq|].
        intros cn th Hin Hidx. apply Hfresh.
        rewrite (index_inj _ _ _ _ Hidx0 Hidx).
        apply list_elem_of_fmap. by exists (cn, th).
      * by apply Hset.
Qed.

(** An override whose class name is unknown, or whose class has an index
    of 5 or more, makes the loop raise. *)
Lemma iou_thresholds_loop_Raise (names : list string) (items : list (string * F))
    (ths : list F) (cn : string) (th : F) :
  (cn, th) ∈ items ->
  (forall i : nat, index names cn = Ok (Z.of_nat i) -> (length ths <= i)%nat) ->
  exists e, for_each (set_iou_threshold names) items ths = Raise e.
Proof.
  intros Hin Hbad. revert ths Hbad.
  induction items as [|item items IH]; intros ths Hbad;
    [by apply elem_of_nil in Hin|].
  simpl. destruct (set_iou_threshold names item ths) as [ths1|e] eqn:Hset;
    [|by exists e].
  apply set_iou_threshold_Ok in Hset as (i0 & Hidx0 & Hlt0 & ->).
  apply elem_of_cons in Hin as [<-|Hin].
  - simpl in Hidx0. apply Hbad in Hidx0. lia.
  - apply IH; [assumption|]. intros i Hi. rewrite length_insert. by apply Hbad.
Qed.

(** C4, as the code has it: a built configuration has exactly five per-class
    IoU thresholds, for the class indices 0 to 4.  Among those, a class whose
    name is not a key of the override mapping has the default 0.7, and every
    key of the mapping is the name of a class with an index below 5 whose
    threshold is the override.  (The keys of a dict are distinct.) *)
Theorem iou_thresholds_five_slots (md : Metadata F) (bt : string)
    (wbm : list string) (cfg : Config F) :
  NoDup (IoUThresholds md).*1 ->
  _BuildWaymoMetricConfig md bt wbm = Ok cfg ->
  length (iou_thresholds cfg) = 5%nat /\
  (forall (i : nat) (cn : string),
     ClassNames md !! i = Some cn -> cn ∉ (IoUThresholds md).*1 -> (i < 5)%nat ->
     iou_thresholds cfg !! i = Some f_lit_0_7) /\
  (forall (cn : string) (th : F), (cn, th) ∈ IoUThresholds md ->
     exists i : nat, index (ClassNames md) cn = Ok (Z.of_nat i) /\ (i < 5)%nat /\
       iou_thresholds cfg !! i = Some th).
Proof.
  intros Hnd Hb. apply build_Ok in Hb as (cs & ts & bd & Hcs & Hts & Hbd & ->).
  simpl. unfold build_iou_thresholds in Hts.
  apply iou_thresholds_loop in Hts as (Hlen & Hkeep & Hset).
  split; [exact Hlen|]. split.
  - intros i cn Hi Hnin Hlt. rewrite Hkeep.
    + do 5 (destruct i as [|i]; [reflexivity|]). lia.
    + intros cn' th' Hin Hidx. apply Hnin.
      apply index_Ok in Hidx as [_ Hidx]. rewrite Nat2Z.id in Hidx.
      replace cn with cn' by congruence.
      apply list_elem_of_fmap. by exists (cn', th').
  - intros cn th Hin. by apply Hset.
Qed.

(** The builder fails for an override that names an unknown class or a
    class with an index of 5 or more, and for an unknown breakdown name. *)
Lemma build_bad_override_fails (md : Metadata F) (bt : string) (wbm : list string)
    (cn : string) (th : F) :
  (cn, th) ∈ IoUThresholds md ->
  (forall i : nat, index (ClassNames md) cn = Ok (Z.of_nat i) -> (5 <= i)%nat) ->
  is_ok (_BuildWaymoMetricConfig md bt wbm) = false.
Proof.
  intros Hin Hbad. unfold _BuildWaymoMetricConfig.
  destruct (build_score_cutoffs _); [|reflexivity]. rewrite bind_Ok.
  unfold build_iou_thresholds.
  destruct (iou_thresholds_loop_Raise (ClassNames md) (IoUThresholds md)
              [f_lit_0_7; f_lit_0_7; f_lit_0_7; f_lit_0_7; f_lit_0_7] cn th Hin Hbad)
    as [e ->].
  reflexivity.
Qed.

Lemma build_unknown_breakdown_fails (md : Metadata F) (bt : string)
    (wbm : list string) (name : string) :
  name ∈ wbm -> GeneratorId_Value name = None ->
  is_ok (_BuildWaymoMetricConfig md bt wbm) = false.
Proof.
  intros Hin Hnone. unfold _BuildWaymoMetricConfig.
  destruct (build_score_cutoffs _); [|reflexivity]. rewrite bind_Ok.
  destruct (build_iou_thresholds md); [|reflexivity]. rewrite bind_Ok.
  unfold build_breakdowns. by rewrite (build_breakdowns_unknown wbm name).
Qed.

Context {HL : PyFloatLaws F}.

Lemma score_cutoff_Ok (P i : Z) :
  2 <= P -> f_int_ok (P - 1) = true -> 0 <= i < P ->
  score_cutoff P i = Ok (f_div (f_of_Z i) (f_of_Z (P - 1))).
Proof.
  intros HP Hok Hi. unfold score_cutoff, float_of_int, truediv.
  rewrite (f_int_ok_mono i (P - 1)) by (lia || assumption). simpl.
  rewrite Hok. simpl. rewrite f_mul_one, f_is_zero_of_Z.
  destruct (P - 1 =? 0) eqn:E; [lia | reflexivity].
Qed.

Lemma build_score_cutoffs_Ok (P : Z) :
  2 <= P -> f_int_ok (P - 1) = true ->
  build_score_cutoffs P =
  Ok (map (fun i => f_div (f_of_Z i) (f_of_Z (P - 1))) (range P)).
Proof.
  intros HP Hok. unfold build_score_cutoffs. apply comprehension_map.
  intros i Hi. apply range_elem in Hi. by apply score_cutoff_Ok.
Qed.

Lemma build_score_cutoffs_one :
  build_score_cutoffs 1 = Raise ZeroDivisionError.
Proof.
  unfold build_score_cutoffs. change (range 1) with [0].
  apply comprehension_Raise_first.
  unfold score_cutoff, float_of_int, truediv. change (1 - 1) with 0.
  rewrite f_int_ok_0. simpl. by rewrite f_is_zero_of_Z.
Qed.

(** An integer [P - 1] beyond the range of floats raises at the first
    element. *)
Lemma build_score_cutoffs_overflow (P : Z) :
  1 <= P -> f_int_ok (P - 1) = false ->
  build_score_cutoffs P = Raise OverflowError.
Proof.
  intros HP Hbad. unfold build_score_cutoffs, range.
  destruct (Z.to_nat P) as [|n] eqn:En; [lia|].
  simpl. unfold score_cutoff at 1, float_of_int.
  rewrite f_int_ok_0, Hbad. reflexivity.
Qed.

(** C5, as the code has it: for every [P >= 2] whose [P - 1] converts to a
    float, the score cutoffs have length [P], element [i] is [i / (P - 1)],
    they ascend, the first is 0 and the last is 1.  With [P = 1] the builder
    raises [ZeroDivisionError]; with [P <= 0] the cutoffs are the empty list
    and nothing is raised for them. *)
Theorem score_cutoffs_grid (md : Metadata F) (bt : string) (wbm : list string) :
  let P := NumberOfPrecisionRecallPoints md in
  (2 <= P -> f_int_ok (P - 1) = true ->
   exists cs : list F,
     build_score_cutoffs P = Ok cs /\
     (forall cfg, _BuildWaymoMetricConfig md bt wbm = Ok cfg ->
        score_cutoffs cfg = cs) /\
     Z.of_nat (length cs) = P /\
     (forall i, 0 <= i < P ->
        cs !! Z.to_nat i = Some (f_div (f_of_Z i) (f_of_Z (P - 1)))) /\
     (forall (i j : nat) (x y : F), (i <= j)%nat ->
        cs !! i = Some x -> cs !! j = Some y -> f_leb x y = true) /\
     cs !! 0%nat = Some (f_of_Z 0) /\
     cs !! Z.to_nat (P - 1) = Some (f_of_Z 1)) /\
  (P = 1 ->
   _BuildWaymoMetricConfig md bt wbm =
   Raise ZeroDivisionError) /\
  (P <= 0 ->
   build_score_cutoffs P = Ok [] /\
   forall cfg, _BuildWaymoMetricConfig md bt wbm = Ok cfg ->
     score_cutoffs cfg = []).
Proof.
  intros P. split; [|split].
  - intros HP Hok.
    pose proof (build_score_cutoffs_Ok P HP Hok) as Hcs.
    eexists. split; [exact Hcs|].
    assert (Hlook : forall i, 0 <= i < P ->
      map (fun i => f_div (f_of_Z i) (f_of_Z (P - 1))) (range P) !! Z.to_nat i
      = Some (f_div (f_of_Z i) (f_of_Z (P - 1)))).
    { intros i Hi. rewrite list_lookup_fmap, range_lookup by lia. reflexivity. }
    split; [|split; [|split; [|split; [|split]]]].
    + intros cfg Hb. apply build_Ok in Hb as (cs & ts & bd & Hcs' & _ & _ & ->).
      simpl. fold P in Hcs'. congruence.
    + rewrite length_map. apply range_length. lia.
    + exact Hlook.
    + intros i j x y Hij Hx Hy.
      assert (Hj : (j < Z.to_nat P)%nat).
      { apply lookup_lt_Some in Hy.
        rewrite length_map in Hy. unfold range in Hy.
        by rewrite length_map, length_seq in Hy. }
      rewrite <- (Nat2Z.id i), Hlook in Hx by lia.
      rewrite <- (Nat2Z.id j), Hlook in Hy by lia.
      injection Hx as <-. injection Hy as <-.
      apply f_div_mono; [lia | lia | | assumption].
      apply (f_int_ok_mono _ (P - 1)); [lia | assumption].
    + change 0%nat with (Z.to_nat 0). rewrite Hlook by lia.
      by rewrite f_zero_div by lia.
    + rewrite Hlook by lia. by rewrite f_div_self by (lia || assumption).
  - intros HP. unfold _BuildWaymoMetricConfig. fold P. rewrite HP.
    by rewrite build_score_cutoffs_one.
  - intros HP.
    assert (Hnil : build_score_cutoffs P = Ok []).
    { unfold build_score_cutoffs. by rewrite range_nonpos. }
    split; [exact Hnil|].
    intros cfg Hb. apply build_Ok in Hb as (cs & ts & bd & Hcs' & _ & _ & ->).
    simpl. fold P in Hcs'. congruence.
Qed.

End ConfigFacts.

(** ** The data selector *)

Lemma getitem_nonneg {A : Type} (l : list A) (i : Z) :
  0 <= i ->
  getitem l i = match l !! Z.to_nat i with
                | Some x => Ok x
                | None => Raise IndexError
                end.
Proof.
  intros Hi. unfold getitem. cbv zeta.
  assert (E : (i <? 0) = false) by (apply Z.ltb_ge; lia).
  rewrite E. simpl. rewrite E. simpl.
  destruct (Z.of_nat (length l) <=? i) eqn:E2; [|reflexivity].
  rewrite lookup_ge_None_2 by lia. reflexivity.
Qed.

Section MetricFacts.
Context {F : Type} `{PyFloat F} `{BreakdownProto} `{Collaborators F}.

#[local] Existing Instance F_inhabited.

(** C7: a call of [_GetData] whose class id passes the assertion performs
    exactly two loads, in this order: the ground truth with the caller's
    distance, point-count and rotation filters, and the predictions with the
    same distance and rotation filters and no point-count filter, whatever
    point count the caller supplied.  A call that fails the assertion loads
    nothing. *)
Theorem GetData_prediction_load_omits_num_points (self : WaymoAPMetrics F)
    (classid : Z) (difficulty : option string)
    (distance num_points rotation : option Z) (st : State F) :
  load_log (_GetData self classid difficulty distance num_points rotation st).1 =
  if (0 <? classid) && (classid <? NumClasses (metadata self))
  then load_log st ++ [groundtruth_call classid distance num_points rotation;
                       prediction_call classid distance rotation]
  else load_log st.
Proof.
  unfold _GetData, assert, load_bounding_boxes, mbind, M_bind, lift, mret, M_ret.
  destruct ((0 <? classid) && (classid <? NumClasses (metadata self))); simpl;
    [|reflexivity].
  unfold groundtruth_call, prediction_call.
  destruct (_LoadBoundingBoxes _) as [g|]; simpl;
    [destruct (_LoadBoundingBoxes _) as [p|]; simpl|];
    rewrite <- ?app_assoc; simpl; try reflexivity.
  destruct (getitem _ _) as [cn|e]; simpl; [|reflexivity].
  destruct (dict_get _ _); reflexivity.
Qed.

(** C8: [_GetData] fails its assertion unless [0 < classid < NumClasses()].
    Otherwise it returns [None] as soon as the ground-truth load or the
    prediction load is empty.  When both found boxes it looks up the name of
    the class and then the threshold of that name: it raises [IndexError]
    when the class id is not a position of the class names, [KeyError] when
    the name has no threshold in the object, and otherwise returns that
    threshold with the image ids, boxes and speeds of the ground truth and
    the image ids, boxes and scores of the predictions. *)
Theorem GetData_result (self : WaymoAPMetrics F) (classid : Z)
    (difficulty : option string) (distance num_points rotation : option Z)
    (st : State F) :
  let r := (_GetData self classid difficulty distance num_points rotation st).2 in
  let g := _LoadBoundingBoxes (groundtruth_call classid distance num_points rotation) in
  let p := _LoadBoundingBoxes (prediction_call classid distance rotation) in
  (~ (0 < classid < NumClasses (metadata self)) -> r = Raise AssertionError) /\
  (0 < classid < NumClasses (metadata self) ->
     (g = None \/ p = None -> r = Ok None) /\
     (forall gb pb, g = Some gb -> p = Some pb ->
        (ClassNames (metadata self) !! Z.to_nat classid = None ->
         r = Raise IndexError) /\
        (forall classname,
           ClassNames (metadata self) !! Z.to_nat classid = Some classname ->
           (_iou_thresholds self !! classname = None -> r = Raise KeyError) /\
           (forall iou, _iou_thresholds self !! classname = Some iou ->
              r = Ok (Some {| iou_threshold := iou;
                              gt := {| gt_imgid := imgids gb; gt_bbox := boxes gb;
                                       gt_speed := speeds gb |};
                              pd := {| pd_imgid := imgids pb; pd_bbox := boxes pb;
                                       pd_score := scores pb |} |}))))).
Proof.
  intros r g p. subst r g p.
  unfold _GetData, assert, load_bounding_boxes, mbind, M_bind, lift, mret, M_ret.
  fold (groundtruth_call classid distance num_points rotation).
  fold (prediction_call classid distance rotation).
  split.
  - intros Hbad.
    destruct ((0 <? classid) && (classid <? NumClasses (metadata self))) eqn:E;
      [|reflexivity].
    apply andb_true_iff in E as [E1 E2]. lia.
  - intros Hok.
    replace ((0 <? classid) && (classid <? NumClasses (metadata self))) with true
      by (symmetry; apply andb_true_iff; lia).
    simpl. split.
    + intros [Hg|Hp].
      * rewrite Hg. reflexivity.
      * rewrite Hp.
        by destruct (_LoadBoundingBoxes (groundtruth_call classid distance num_points rotation)).
    + intros gb pb Hg Hp. rewrite Hg, Hp. simpl.
      rewrite getitem_nonneg by lia. split.
      * intros Hcn. by rewrite Hcn.
      * intros cn Hcn. rewrite Hcn. simpl. unfold dict_get. split.
        -- intros Hiou. by rewrite Hiou.
        -- intros iou Hiou. by rewrite Hiou.
Qed.

(** ** The metric evaluator: keys and placeholders *)

Lemma add_breakdown_entries_loop
    (ap ap_ha : nat -> ScalarTensor F) (pr pr_ha : nat -> CurveTensor F)
    (l : list (nat * string))
    (d : gmap string (ScalarTensor F) * gmap string (CurveTensor F)) :
  let d' := fold_left (add_breakdown_entries ap ap_ha pr pr_ha) l d in
  (forall k, is_Some (d'.1 !! k) <->
     is_Some (d.1 !! k) \/
     exists name, name ∈ l.*2 /\ (k = "ap_" +:+ name \/ k = "ap_ha_weighted_" +:+ name)) /\
  (forall k, is_Some (d'.2 !! k) <->
     is_Some (d.2 !! k) \/
     exists name, name ∈ l.*2 /\ (k = "pr_" +:+ name \/ k = "pr_ha_weighted_" +:+ name)) /\
  (forall k v, d'.1 !! k = Some v ->
     d.1 !! k = Some v \/ exists i, v = ap i \/ v = ap_ha i) /\
  (forall k v, d'.2 !! k = Some v ->
     d.2 !! k = Some v \/ exists i, v = pr i \/ v = pr_ha i).
Proof.
  revert d. induction l as [|[i name] l IH]; intros d; simpl.
  - repeat split; intros; try tauto.
    destruct H2 as [?|(name & Hin & _)]; [assumption|].
    by apply elem_of_nil in Hin.
    destruct H2 as [?|(name & Hin & _)]; [assumption|].
    by apply elem_of_nil in Hin.
  - set (d1 := add_breakdown_entries ap ap_ha pr pr_ha d (i, name)).
    assert (E1 : d1.1 = <["ap_ha_weighted_" +:+ name := ap_ha i]>
                          (<["ap_" +:+ name := ap i]> d.1)) by reflexivity.
    assert (E2 : d1.2 = <["pr_ha_weighted_" +:+ name := pr_ha i]>
                          (<["pr_" +:+ name := pr i]> d.2)) by reflexivity.
    destruct (IH d1) as (IH1 & IH2 & IH3 & IH4). clearbody d1.
    rewrite E1 in IH1, IH3. rewrite E2 in IH2, IH4.
    split; [|split; [|split]].
    + intros k. rewrite IH1, !lookup_insert_is_Some'. setoid_rewrite elem_of_cons.
      split.
      * intros [[<-|[<-|Hd]]|(n & Hn & Hk)].
        -- right. exists name. split; [by left | by right].
        -- right. exists name. split; [by left | by left].
        -- by left.
        -- right. exists n. split; [by right | exact Hk].
      * intros [Hd|(n & [->|Hn] & Hk)].
        -- left. right. by right.
        -- left. destruct Hk as [->| ->]; [right; by left | by left].
        -- right. by exists n.
    + intros k. rewrite IH2, !lookup_insert_is_Some'. setoid_rewrite elem_of_cons.
      split.
      * intros [[<-|[<-|Hd]]|(n & Hn & Hk)].
        -- right. exists name. split; [by left | by right].
        -- right. exists name. split; [by left | by left].
        -- by left.
        -- right. exists n. split; [by right | exact Hk].
      * intros [Hd|(n & [->|Hn] & Hk)].
        -- left. right. by right.
        -- left. destruct Hk as [->| ->]; [right; by left | by left].
        -- right. by exists n.
    + intros k v Hv. destruct (IH3 k v Hv) as [Hd|Hex]; [|by right].
      apply lookup_insert_Some in Hd as [[_ <-]|[_ Hd]]; [right; exists i; by right|].
      apply lookup_insert_Some in Hd as [[_ <-]|[_ Hd]]; [right; exists i; by left|].
      by left.
    + intros k v Hv. destruct (IH4 k v Hv) as [Hd|Hex]; [|by right].
      apply lookup_insert_Some in Hd as [[_ <-]|[_ Hd]]; [right; exists i; by right|].
      apply lookup_insert_Some in Hd as [[_ <-]|[_ Hd]]; [right; exists i; by left|].
      by left.
Qed.

Lemma enumerate_snd {A : Type} (l : list A) : (enumerate l).*2 = l.
Proof. unfold enumerate. apply snd_zip. by rewrite length_seq. Qed.

Lemma add_breakdown_metrics_keys
    (ap ap_ha : nat -> ScalarTensor F) (pr pr_ha : nat -> CurveTensor F)
    (names : list string) (s0 s1 : ScalarTensor F) (c0 c1 : CurveTensor F) :
  let d := add_breakdown_metrics ap ap_ha pr pr_ha names
             (<["ap_ha_weighted" := s1]> (<["ap" := s0]> ∅),
              <["pr_ha_weighted" := c1]> (<["pr" := c0]> ∅)) in
  (forall k, is_Some (d.1 !! k) <-> scalar_key names k) /\
  (forall k, is_Some (d.2 !! k) <-> curve_key names k) /\
  (forall k v, d.1 !! k = Some v ->
     v = s0 \/ v = s1 \/ exists i, v = ap i \/ v = ap_ha i) /\
  (forall k v, d.2 !! k = Some v ->
     v = c0 \/ v = c1 \/ exists i, v = pr i \/ v = pr_ha i).
Proof.
  intros d. subst d. unfold add_breakdown_metrics.
  destruct (add_breakdown_entries_loop ap ap_ha pr pr_ha (enumerate names)
              (<["ap_ha_weighted" := s1]> (<["ap" := s0]> ∅),
               <["pr_ha_weighted" := c1]> (<["pr" := c0]> ∅)))
    as (K1 & K2 & V1 & V2).
  rewrite enumerate_snd in K1, K2. simpl in K1, K2, V1, V2.
  split; [|split; [|split]].
  - intros k. rewrite K1, !lookup_insert_is_Some', lookup_empty.
    unfold scalar_key. split.
    + intros [[<-|[<-|[? [=]]]]|Hex]; auto.
    + intros [->|[->|Hex]]; auto.
  - intros k. rewrite K2, !lookup_insert_is_Some', lookup_empty.
    unfold curve_key. split.
    + intros [[<-|[<-|[? [=]]]]|Hex]; auto.
    + intros [->|[->|Hex]]; auto.
  - intros k v Hv. destruct (V1 k v Hv) as [Hd|Hex]; [|auto].
    apply lookup_insert_Some in Hd as [[_ <-]|[_ Hd]]; [auto|].
    apply lookup_insert_Some in Hd as [[_ <-]|[_ Hd]]; [auto|].
    by rewrite lookup_empty in Hd.
  - intros k v Hv. destruct (V2 k v Hv) as [Hd|Hex]; [|auto].
    apply lookup_insert_Some in Hd as [[_ <-]|[_ Hd]]; [auto|].
    apply lookup_insert_Some in Hd as [[_ <-]|[_ Hd]]; [auto|].
    by rewrite lookup_empty in Hd.
Qed.

(** A negative number of precision-recall points is no array dimension:
    the placeholder branch raises. *)
Lemma BuildMetric_placeholder_negative (self : WaymoAPMetrics F) (classid : Z) :
  NumberOfPrecisionRecallPoints (metadata self) < 0 ->
  _BuildMetric self None classid = Raise ValueError.
Proof.
  intros HP. unfold _BuildMetric, tf_zeros.
  by replace (_ <? 0) with true by (symmetry; apply Z.ltb_lt; lia).
Qed.

(** C2: with [feed_data = None], and a number of precision-recall points
    that is a valid array dimension, [_BuildMetric] returns for every class
    id a scalar dict whose values are all the NaN constant and a curve dict
    whose values are all the zero array of shape [[P, 2]], with an empty
    feed dict.  The keys are [ap], [ap_ha_weighted] and [ap_<name>],
    [ap_ha_weighted_<name>] for every breakdown name (resp. [pr],
    [pr_ha_weighted], [pr_<name>], [pr_ha_weighted_<name>]); the dicts built
    from any populated data have the same key sets. *)
Theorem BuildMetric_placeholder_keys (self : WaymoAPMetrics F) (classid : Z) :
  let names := get_breakdown_names_from_config (_waymo_metric_config self) in
  let P := NumberOfPrecisionRecallPoints (metadata self) in
  0 <= P ->
  exists scalars curves,
    _BuildMetric self None classid = Ok (scalars, curves, []) /\
    (forall k, is_Some (scalars !! k) <-> scalar_key names k) /\
    (forall k, is_Some (curves !! k) <-> curve_key names k) /\
    (forall k v, scalars !! k = Some v -> v = SConstant f_nan) /\
    (forall k v, curves !! k = Some v -> v = CZeros P 2) /\
    (forall out,
       run_scalar out (SConstant f_nan) = Ok f_nan /\
       run_curve out (CZeros P 2) = Ok (replicate (Z.to_nat P) (f_of_Z 0, f_of_Z 0))) /\
    (forall fd : FeedData F, exists scalars' curves' feed_dict,
       _BuildMetric self (Some fd) classid = Ok (scalars', curves', feed_dict) /\
       dom scalars' = dom scalars /\ dom curves' = dom curves).
Proof.
  intros names P HP. unfold _BuildMetric, tf_zeros. fold names. fold P.
  replace (P <? 0) with false by (symmetry; apply Z.ltb_ge; lia). simpl.
  set (dummy := add_breakdown_metrics _ _ _ _ names _).
  destruct (add_breakdown_metrics_keys
              (fun _ => SConstant f_nan) (fun _ => SConstant f_nan)
              (fun _ => CZeros P 2) (fun _ => CZeros P 2) names
              (SConstant f_nan) (SConstant f_nan) (CZeros P 2) (CZeros P 2))
    as (K1 & K2 & V1 & V2).
  fold dummy in K1, K2, V1, V2.
  exists dummy.1, dummy.2. split; [reflexivity|].
  split; [exact K1|]. split; [exact K2|]. split; [|split; [|split]].
  - intros k v Hv. destruct (V1 k v Hv) as [->|[->|[i [->| ->]]]]; reflexivity.
  - intros k v Hv. destruct (V2 k v Hv) as [->|[->|[i [->| ->]]]]; reflexivity.
  - intros out. split; reflexivity.
  - intros fd.
    set (op := Build_DetectionOp _ _ _ _).
    set (real := add_breakdown_metrics _ _ _ _ names _).
    destruct (add_breakdown_metrics_keys (SAp op) (SApHa op) (CPr op) (CPrHa op)
                names (SAp op 0) (SApHa op 0) (CPr op 0) (CPrHa op 0))
      as (K1' & K2' & _ & _).
    fold real in K1', K2'.
    eexists real.1, real.2, _. split; [reflexivity|]. split.
    + apply set_eq. intros k. rewrite !elem_of_dom, K1, K1'. reflexivity.
    + apply set_eq. intros k. rewrite !elem_of_dom, K2, K2'. reflexivity.
Qed.

(** ** The weighted value *)

Lemma fold_left_add_map (g : F -> F) (l : list F) (a : F) :
  fold_left (fun s x => f_add s (g x)) l a = fold_left f_add (map g l) a.
Proof. revert a. induction l as [|x l IH]; intros a; simpl; [reflexivity | apply IH]. Qed.

Lemma nan_to_num_finite (x : F) :
  f_classify x <> FPosInf -> f_classify x <> FNegInf ->
  nan_to_num x = nan_as_zero x.
Proof.
  unfold nan_to_num, nan_as_zero. destruct (f_classify x); congruence.
Qed.

Lemma value_unfold (self : WaymoAPMetrics F) (st : State F) :
  value self st =
  match _EvaluateIfNecessary self st with
  | (st', Ok _) => (st', weighted_value self (_average_precisions st'))
  | (st', Raise e) => (st', Raise e)
  end.
Proof.
  unfold value, mbind, M_bind, get, lift.
  destruct (_EvaluateIfNecessary self st) as [st' [[]|e]]; reflexivity.
Qed.

Section WithLaws.
Context {HL : PyFloatLaws F}.

(** The loop of [value] from position [k] on: the numerator adds the
    entries of [aps] through [np.nan_to_num], the denominator counts. *)
Lemma accumulate_class_loop (names : list string) (ap : gmap string (list F))
    (name0 : string) (aps : list F) (m k : nat) (num : F) :
  names !! 0%nat = Some name0 -> ap !! name0 = Some aps ->
  (k + m <= length aps)%nat -> f_exact_int (Z.of_nat (k + m)) = true ->
  for_each (accumulate_class names ap) (map Z.of_nat (seq k m))
    (num, f_of_Z (Z.of_nat k)) =
  Ok (fold_left (fun s x => f_add s (nan_to_num x)) (take m (drop k aps)) num,
      f_of_Z (Z.of_nat (k + m))).
Proof.
  intros Hname Hap. revert k num.
  induction m as [|m IH]; intros k num Hlen Hex; simpl.
  - by rewrite Nat.add_0_r.
  - unfold accumulate_class at 1.
    rewrite getitem_nonneg by lia. change (Z.to_nat 0) with 0%nat.
    rewrite Hname, bind_Ok. unfold dict_get. rewrite Hap, bind_Ok.
    rewrite getitem_nonneg by lia. rewrite Nat2Z.id.
    destruct (aps !! k) as [x|] eqn:Hx.
    2: { apply lookup_ge_None in Hx. lia. }
    rewrite bind_Ok. cbn [fst snd].
    rewrite f_succ.
    2: lia.
    2: { apply (f_exact_int_mono _ (Z.of_nat (k + S m))); [lia | assumption]. }
    replace (Z.of_nat k + 1) with (Z.of_nat (S k)) by lia.
    rewrite IH.
    2: lia.
    2: { replace (S k + m)%nat with (k + S m)%nat by lia. assumption. }
    rewrite (drop_S _ _ _ Hx). simpl. do 3 f_equal. lia.
Qed.

(** Without eval classes both sums stay 0.0 and the division raises. *)
Lemma weighted_value_no_eval_classes (self : WaymoAPMetrics F)
    (ap : gmap string (list F)) :
  EvalClassIndices (metadata self) = [] ->
  weighted_value self ap = Raise ZeroDivisionError.
Proof.
  intros Hnil. unfold weighted_value. rewrite Hnil. simpl.
  unfold truediv. simpl. by rewrite f_is_zero_of_Z.
Qed.

(** C1: once the aggregate maps are populated, [value] returns the mean
    over the eval-class positions of the average precisions stored under
    the overall (first) breakdown name, every NaN entry counted as 0: the sum
    of the entries with NaN replaced by 0, divided by the number of eval
    classes.  (The entries are finite or NaN; the number of eval classes is
    positive and small enough to be counted exactly by a float.) *)
Theorem value_is_mean_with_nan_as_zero (self : WaymoAPMetrics F)
    (st st' : State F) (name0 : string) (aps : list F) :
  let names := get_breakdown_names_from_config (_waymo_metric_config self) in
  let n := length (EvalClassIndices (metadata self)) in
  _EvaluateIfNecessary self st = (st', Ok tt) ->
  names !! 0%nat = Some name0 ->
  _average_precisions st' !! name0 = Some aps ->
  (0 < n)%nat -> (n <= length aps)%nat ->
  f_exact_int (Z.of_nat n) = true ->
  (forall x, x ∈ take n aps -> f_classify x <> FPosInf /\ f_classify x <> FNegInf) ->
  value self st =
  (st', Ok (f_div (float_sum (map nan_as_zero (take n aps))) (f_of_Z (Z.of_nat n)))).
Proof.
  intros names n Hev Hname Hap Hpos Hlen Hex Hfin.
  rewrite value_unfold, Hev. f_equal.
  unfold weighted_value. fold names. fold n. unfold range. rewrite Nat2Z.id.
  change (f_of_Z 0, f_of_Z 0) with (f_of_Z 0, f_of_Z (Z.of_nat 0)).
  rewrite (accumulate_class_loop names _ name0 aps n 0) by assumption.
  simpl. unfold truediv. rewrite f_is_zero_of_Z.
  destruct (Z.of_nat n =? 0) eqn:E; [lia|].
  rewrite drop_0. unfold float_sum. rewrite <- fold_left_add_map.
  do 2 f_equal.
  assert (Hgen : forall (l : list F) (a : F),
    (forall x, x ∈ l -> f_classify x <> FPosInf /\ f_classify x <> FNegInf) ->
    fold_left (fun s x => f_add s (nan_to_num x)) l a =
    fold_left (fun s x => f_add s (nan_as_zero x)) l a).
  { induction l as [|x l IH]; intros a Hl; simpl; [reflexivity|].
    destruct (Hl x) as [Hp Hn]; [by left|].
    rewrite nan_to_num_finite by assumption.
    apply IH. intros y Hy. apply Hl. by right. }
  by apply Hgen.
Qed.

End WithLaws.

(** ** The summaries *)

Lemma flat_map_flat_map {A B C : Type} (f : B -> list C) (g : A -> list B)
    (l : list A) :
  flat_map f (flat_map g l) = flat_map (fun x => flat_map f (g x)) l.
Proof.
  induction l as [|x l IH]; simpl; [reflexivity|].
  by rewrite flat_map_app, IH.
Qed.

Lemma skip_breakdown_false (k : nat) (classname breakdown_name : string) :
  skip_breakdown k classname breakdown_name = false <->
  k = 0%nat \/ str_in (lower classname) (lower breakdown_name) = true.
Proof.
  unfold skip_breakdown. destruct k as [|k]; simpl.
  - split; [by left | reflexivity].
  - destruct (str_in _ _); simpl; split; try done.
    + by right.
    + intros [[=]|[=]].
Qed.

Lemma rendered_elem (classnames breakdown_names : list string)
    (i : nat) (cn : string) (k : nat) (bn : string) :
  (i, cn, k, bn) ∈ rendered classnames breakdown_names <->
  classnames !! i = Some cn /\ breakdown_names !! k = Some bn /\
  (k = 0%nat \/ str_in (lower cn) (lower bn) = true).
Proof.
  unfold rendered. rewrite list_elem_of_In, in_flat_map. split.
  - intros ([i' cn'] & Hic & Hin). apply in_flat_map in Hin as ([k' bn'] & Hkb & Hin).
    simpl in Hin. destruct (skip_breakdown k' cn' bn') eqn:Hskip; [destruct Hin|].
    destruct Hin as [[= -> -> -> ->]|[]].
    apply list_elem_of_In, enumerate_elem in Hic.
    apply list_elem_of_In, enumerate_elem in Hkb.
    by apply skip_breakdown_false in Hskip.
  - intros (Hi & Hk & Hkeep). exists (i, cn). split.
    + by apply list_elem_of_In, enumerate_elem.
    + apply in_flat_map. exists (k, bn). split.
      * by apply list_elem_of_In, enumerate_elem.
      * simpl. apply skip_breakdown_false in Hkeep. rewrite Hkeep. by left.
Qed.

(** Two nested rendering loops, in general: when the inner body appends
    [h i cn kb] for a combination that is not skipped and nothing otherwise,
    the loops append [h] over the rendered combinations. *)
Section NestedLoops.
Context {T : Type}.
Variable step : nat -> string -> nat * string -> list T -> result (list T).
Variable h : nat * string * nat * string -> list T.
Hypothesis step_spec : forall i cn kb acc acc',
  step i cn kb acc = Ok acc' ->
  acc' = acc ++ (if skip_breakdown kb.1 cn kb.2 then [] else h (i, cn, kb.1, kb.2)).

Lemma inner_loop_appends (i : nat) (cn : string) (l : list (nat * string))
    (acc acc' : list T) :
  for_each (step i cn) l acc = Ok acc' ->
  acc' = acc ++
    flat_map h
      (flat_map (fun kb : nat * string =>
                   if skip_breakdown kb.1 cn kb.2 then [] else [(i, cn, kb.1, kb.2)]) l).
Proof.
  revert acc. induction l as [|kb l IH]; intros acc; simpl.
  - intros [= <-]. by rewrite app_nil_r.
  - destruct (step i cn kb acc) as [acc1|e] eqn:Hstep; [|discriminate].
    intros Hrest. apply step_spec in Hstep. apply IH in Hrest.
    rewrite Hrest, Hstep, flat_map_app, <- app_assoc. do 2 f_equal.
    destruct (skip_breakdown kb.1 cn kb.2); simpl; by rewrite ?app_nil_r.
Qed.

Lemma outer_loop_appends (class_names : list string) (bns : list string)
    (idxs : list Z) (k : nat) (acc acc' : list T) :
  for_each
    (fun (ij : nat * Z) acc =>
       classname ← getitem class_names ij.2;
       for_each (step ij.1 classname) (enumerate bns) acc)
    (zip (seq k (length idxs)) idxs) acc = Ok acc' ->
  exists cns : list string,
    Forall2 (fun j cn => getitem class_names j = Ok cn) idxs cns /\
    acc' = acc ++
      flat_map h
        (flat_map
           (fun ic : nat * string =>
              flat_map (fun kb : nat * string =>
                          if skip_breakdown kb.1 ic.2 kb.2 then []
                          else [(ic.1, ic.2, kb.1, kb.2)]) (enumerate bns))
           (zip (seq k (length cns)) cns)).
Proof.
  revert k acc. induction idxs as [|j idxs IH]; intros k acc; simpl.
  - intros [= <-]. exists []. split; [constructor|]. simpl. by rewrite app_nil_r.
  - destruct (getitem class_names j) as [cn|e] eqn:Hcn; [|discriminate].
    rewrite bind_Ok.
    destruct (for_each (step k cn) (enumerate bns) acc) as [acc1|e] eqn:Hin;
      [|discriminate].
    intros Hrest. apply inner_loop_appends in Hin.
    apply IH in Hrest as (cns & Hcns & Hrest).
    exists (cn :: cns). split; [by constructor|].
    rewrite Hrest, Hin. simpl. rewrite flat_map_app, <- app_assoc. reflexivity.
Qed.

End NestedLoops.

Lemma summary_breakdown_spec (name : string) (ap aph : gmap string (list F))
    (i : nat) (cn : string) (kb : nat * string) (acc acc' : list (SummaryValue F)) :
  summary_breakdown name ap aph i cn kb acc = Ok acc' ->
  acc' = acc ++ (if skip_breakdown kb.1 cn kb.2 then []
                 else scalar_pair name ap aph (i, cn, kb.1, kb.2)).
Proof.
  unfold summary_breakdown, scalar_pair.
  destruct (skip_breakdown kb.1 cn kb.2).
  { intros [= <-]. by rewrite app_nil_r. }
  unfold dict_get, getitem_nat.
  destruct (ap !! kb.2) as [aps|] eqn:Hap; [|discriminate]. rewrite bind_Ok.
  destruct (aps !! i) as [a|] eqn:Ha; [|discriminate]. rewrite bind_Ok.
  destruct (aph !! kb.2) as [aphs|] eqn:Haph; [|discriminate]. rewrite bind_Ok.
  destruct (aphs !! i) as [b|] eqn:Hb; [|discriminate]. rewrite bind_Ok.
  intros [= <-].
  rewrite (lookup_total_correct _ _ _ Hap), (list_lookup_total_correct _ _ _ Ha).
  rewrite (lookup_total_correct _ _ _ Haph), (list_lookup_total_correct _ _ _ Hb).
  by rewrite <- app_assoc.
Qed.

Lemma plot_breakdown_spec (name : string) (pr : gmap string (list (Curve F)))
    (i : nat) (cn : string) (kb : nat * string) (acc acc' : list (TfSummary F)) :
  plot_breakdown name pr i cn kb acc = Ok acc' ->
  acc' = acc ++ (if skip_breakdown kb.1 cn kb.2 then []
                 else [curve_plot name pr (i, cn, kb.1, kb.2)]).
Proof.
  unfold plot_breakdown, curve_plot, Curve in *.
  destruct (skip_breakdown kb.1 cn kb.2).
  { intros [= <-]. by rewrite app_nil_r. }
  unfold dict_get, getitem_nat.
  destruct (pr !! kb.2) as [prs|] eqn:Hpr; [|discriminate]. rewrite bind_Ok.
  destruct (prs !! i) as [c|] eqn:Hc; [|discriminate].
  rewrite bind_Ok. cbv zeta. simpl hd. intros [= <-].
  rewrite (lookup_total_correct _ _ _ Hpr), (list_lookup_total_correct _ _ _ Hc).
  reflexivity.
Qed.

Lemma flat_map_singleton {A B : Type} (f : A -> B) (l : list A) :
  flat_map (fun x => [f x]) l = map f l.
Proof. induction l as [|x l IH]; simpl; [reflexivity | by rewrite IH]. Qed.

Lemma summary_scalars_rendered (self : WaymoAPMetrics F) (name : string)
    (ap aph : gmap string (list F)) (acc acc' : list (SummaryValue F)) :
  summary_scalars self name ap aph acc = Ok acc' ->
  exists cns : list string,
    Forall2 (fun j cn => getitem (ClassNames (metadata self)) j = Ok cn)
      (EvalClassIndices (metadata self)) cns /\
    acc' = acc ++
      flat_map (scalar_pair name ap aph)
        (rendered cns (get_breakdown_names_from_config (_waymo_metric_config self))).
Proof.
  unfold summary_scalars, enumerate at 1. intros Hloop.
  apply (outer_loop_appends (fun i cn => summary_breakdown name ap aph i cn)
           (scalar_pair name ap aph)) in Hloop.
  - exact Hloop.
  - intros i cn kb a a'. apply summary_breakdown_spec.
Qed.

Lemma generate_summaries_rendered (self : WaymoAPMetrics F) (name : string)
    (pr : gmap string (list (Curve F))) (images : list (TfSummary F)) :
  generate_summaries self name pr = Ok images ->
  exists cns : list string,
    Forall2 (fun j cn => getitem (ClassNames (metadata self)) j = Ok cn)
      (EvalClassIndices (metadata self)) cns /\
    images = map (curve_plot name pr) (rendered cns (breakdown_list self)).
Proof.
  unfold generate_summaries, enumerate at 1. intros Hloop.
  apply (outer_loop_appends (fun i cn => plot_breakdown name pr i cn)
           (fun r => [curve_plot name pr r])) in Hloop.
  - destruct Hloop as (cns & Hcns & ->). exists cns. split; [exact Hcns|].
    simpl. apply flat_map_singleton.
  - intros i cn kb a a'. apply plot_breakdown_spec.
Qed.

Lemma Forall2_getitem_functional (class_names : list string) (idxs : list Z)
    (cns cns' : list string) :
  Forall2 (fun j cn => getitem class_names j = Ok cn) idxs cns ->
  Forall2 (fun j cn => getitem class_names j = Ok cn) idxs cns' ->
  cns = cns'.
Proof.
  intros Ha. revert cns'. induction Ha as [|j cn idxs cns Hj _ IH]; intros cns' Hb.
  - by inversion Hb.
  - inversion Hb as [|? cn' ? cns'' Hj' Hrest]; subst.
    f_equal; [congruence | by apply IH].
Qed.

(** *** The lazy evaluation *)

Lemma EvaluateIfNecessary_noop (self : WaymoAPMetrics F) (st : State F) :
  is_evaluated st = true -> _EvaluateIfNecessary self st = (st, Ok tt).
Proof.
  intros Hev. unfold _EvaluateIfNecessary, mbind, M_bind, get, mret, M_ret.
  by rewrite Hev.
Qed.

Lemma EvaluateIfNecessary_Ok (self : WaymoAPMetrics F) (st st' : State F) (u : unit) :
  _EvaluateIfNecessary self st = (st', Ok u) -> is_evaluated st' = true.
Proof.
  unfold _EvaluateIfNecessary, mbind, M_bind, get, mret, M_ret.
  destruct (is_evaluated st) eqn:Hev.
  - intros [= <- _]. exact Hev.
  - destruct (count_evaluation_pass st) as [st1 [[]|e]]; [|discriminate].
    destruct (ComputeMetrics self (evaluate_all_classes self) st1) as [st2 [[]|e]];
      [|discriminate].
    unfold set_evaluated, modify. by intros [= <- _].
Qed.

Lemma fold_left_values (images : list (TfSummary F)) (acc : list (SummaryValue F)) :
  fold_left (fun ret s => ret ++ values s) images acc = acc ++ flat_map values images.
Proof.
  revert acc. induction images as [|s images IH]; intros acc; simpl.
  - by rewrite app_nil_r.
  - by rewrite IH, <- app_assoc.
Qed.

(** C3: when [Summary] returns, its entries are the weighted mAP, then one
    AP/APH pair for each rendered (eval class, breakdown) combination, then
    the plots of [GenerateSummaries], which are one curve for each rendered
    combination of its own breakdown list.  A combination of the class at
    eval position [i] and the breakdown at index [k] is rendered exactly when
    [k = 0] or the lowercased class name occurs in the lowercased breakdown
    name; so the overall entry ([k = 0]) of every eval class is rendered. *)
Theorem Summary_renders_matching_breakdowns (self : WaymoAPMetrics F)
    (name : string) (st st' : State F) (ret : TfSummary F) :
  Summary self name st = (st', Ok ret) ->
  exists (cns : list string) (v : F) (image_summaries : list (TfSummary F)),
    Forall2 (fun j cn => getitem (ClassNames (metadata self)) j = Ok cn)
      (EvalClassIndices (metadata self)) cns /\
    GenerateSummaries self name st' = (st', Ok image_summaries) /\
    image_summaries =
      map (curve_plot name (_precision_recall st'))
        (rendered cns (breakdown_list self)) /\
    values ret =
      SimpleValue (name +:+ "/weighted_mAP") v ::
      flat_map (scalar_pair name (_average_precisions st')
                  (_average_precision_headings st'))
        (rendered cns (get_breakdown_names_from_config (_waymo_metric_config self)))
      ++ flat_map values image_summaries /\
    (forall (bl : list string) (i : nat) (cn : string) (k : nat) (bn : string),
       (i, cn, k, bn) ∈ rendered cns bl <->
       cns !! i = Some cn /\ bl !! k = Some bn /\
       (k = 0%nat \/ str_in (lower cn) (lower bn) = true)).
Proof.
  unfold Summary, mbind at 1, M_bind at 1.
  destruct (_EvaluateIfNecessary self st) as [st1 [[]|e]] eqn:Hev; [|discriminate].
  pose proof (EvaluateIfNecessary_Ok _ _ _ _ Hev) as Hdone.
  unfold mbind at 1, M_bind at 1.
  rewrite value_unfold, (EvaluateIfNecessary_noop self st1 Hdone).
  destruct (weighted_value self (_average_precisions st1)) as [v|e]; [|discriminate].
  unfold mbind at 1, M_bind at 1, get.
  unfold mbind at 1, M_bind at 1, lift.
  destruct (summary_scalars self name _ _ _) as [scalars|e] eqn:Hsc; [|discriminate].
  unfold mbind at 1, M_bind at 1, GenerateSummaries.
  unfold mbind at 1, M_bind at 1, get, lift.
  destruct (generate_summaries self name (_precision_recall st1)) as [images|e] eqn:Hgen;
    [|discriminate].
  unfold mret, M_ret. intros [= <- <-].
  apply summary_scalars_rendered in Hsc as (cns & Hcns & ->).
  pose proof Hgen as Hgen'.
  apply generate_summaries_rendered in Hgen' as (cns' & Hcns' & Himg).
  rewrite (Forall2_getitem_functional _ _ _ _ Hcns' Hcns) in Himg.
  exists cns, v, images. split; [exact Hcns|]. split; [|split; [exact Himg|split]].
  - unfold mbind, M_bind. by rewrite Hgen.
  - simpl. by rewrite fold_left_values.
  - intros bl i cn k bn. apply rendered_elem.
Qed.

(** *** What the methods do to the counters *)

Ltac within_arith :=
  unfold within, mret, M_ret in *; simpl in *;
  intuition (try congruence; try lia).

Lemma costs_ret {A : Type} (a : A) : @costs F A 0 (mret a).
Proof. intros st. within_arith. Qed.

Lemma costs_lift {A : Type} (r : result A) : @costs F A 0 (lift r).
Proof. intros st. within_arith. Qed.

Lemma costs_get : @costs F (State F) 0 get.
Proof. intros st. within_arith. Qed.

Lemma costs_assert (b : bool) : @costs F unit 0 (assert b).
Proof. intros st. within_arith. Qed.

Lemma costs_weaken {A : Type} (d d' : nat) (m : M F A) :
  (d <= d')%nat -> costs d m -> costs d' m.
Proof. intros Hd Hm st. specialize (Hm st). within_arith. Qed.

Lemma costs_bind {A B : Type} (d1 d2 : nat) (m : M F A) (f : A -> M F B) :
  costs d1 m -> (forall a, costs d2 (f a)) -> costs (d1 + d2) (m ≫= f).
Proof.
  intros Hm Hf st. specialize (Hm st). unfold mbind, M_bind.
  destruct (m st) as [st1 [a|e]]; simpl in *.
  - specialize (Hf a st1). within_arith.
  - within_arith.
Qed.

Lemma costs_for_eachM {A S : Type} (d : nat) (body : A -> S -> M F S)
    (l : list A) (s : S) :
  (forall x s, costs d (body x s)) -> costs (length l * d) (for_eachM body l s).
Proof.
  intros Hbody. revert s. induction l as [|x l IH]; intros s; simpl.
  - apply costs_ret.
  - apply costs_bind; [apply Hbody | intros s'; apply IH].
Qed.

Lemma costs_load_bounding_boxes (c : LoadCall) : costs 0 (load_bounding_boxes c).
Proof. intros st. within_arith. Qed.

Lemma costs_GetData (self : WaymoAPMetrics F) (classid : Z)
    (difficulty : option string) (distance num_points rotation : option Z) :
  costs 0 (_GetData self classid difficulty distance num_points rotation).
Proof.
  unfold _GetData.
  apply (costs_bind 0 0); [apply costs_assert | intros _].
  apply (costs_bind 0 0); [apply costs_load_bounding_boxes | intros g].
  apply (costs_bind 0 0); [apply costs_load_bounding_boxes | intros p].
  destruct g as [g|]; [destruct p as [p|]|]; try apply costs_ret.
  apply (costs_bind 0 0); [apply costs_lift | intros cn].
  apply (costs_bind 0 0); [apply costs_lift | intros iou].
  apply costs_ret.
Qed.

Lemma costs_count_matcher_call : @costs F unit 1 count_matcher_call.
Proof. intros st. within_arith. Qed.

Lemma costs_evaluate_class (self : WaymoAPMetrics F) (classid : Z) :
  costs 1 (evaluate_class self classid).
Proof.
  unfold evaluate_class.
  apply (costs_bind 0 1); [apply costs_GetData | intros fd].
  apply (costs_bind 0 1); [apply costs_lift | intros built].
  apply (costs_bind 1 0).
  - destruct fd; [apply costs_count_matcher_call|].
    apply (costs_weaken 0); [lia | apply costs_ret].
  - intros _.
    apply (costs_bind 0 0); [apply costs_lift | intros scalars].
    apply (costs_bind 0 0); [apply costs_lift | intros curves].
    apply costs_ret.
Qed.

Lemma costs_evaluate_all_classes (self : WaymoAPMetrics F) :
  costs (length (EvalClassIndices (metadata self))) (evaluate_all_classes self).
Proof.
  unfold evaluate_all_classes.
  rewrite <- (Nat.mul_1_r (length _)).
  apply costs_for_eachM. intros classid acc.
  apply (costs_bind 1 0); [apply costs_evaluate_class | intros r; apply costs_ret].
Qed.

Lemma costs_set_average_precisions (breakdown_str : string) (ap : list F) :
  @costs F unit 0 (set_average_precisions breakdown_str ap).
Proof. intros st. within_arith. Qed.

Lemma costs_set_average_precision_headings (breakdown_str : string) (aph : list F) :
  @costs F unit 0 (set_average_precision_headings breakdown_str aph).
Proof. intros st. within_arith. Qed.

Lemma costs_set_precision_recall (breakdown_str : string) (pr : list (Curve F)) :
  @costs F unit 0 (set_precision_recall breakdown_str pr).
Proof. intros st. within_arith. Qed.

Lemma costs_set_precision_recall_headings (breakdown_str : string)
    (prh : list (Curve F)) :
  @costs F unit 0 (set_precision_recall_headings breakdown_str prh).
Proof. intros st. within_arith. Qed.

Lemma costs_ComputeMetrics (self : WaymoAPMetrics F) (d : nat)
    (compute_metrics_fn : M F (list (gmap string F) * list (gmap string (Curve F)))) :
  costs d compute_metrics_fn -> costs d (ComputeMetrics self compute_metrics_fn).
Proof.
  intros Hfn. unfold ComputeMetrics.
  rewrite <- (Nat.add_0_r d).
  apply costs_bind; [exact Hfn | intros sc].
  rewrite <- (Nat.mul_0_r (length (breakdown_list self))).
  apply costs_for_eachM. intros bs [].
  apply (costs_bind 0 0); [apply costs_lift | intros ap].
  apply (costs_bind 0 0); [apply costs_set_average_precisions | intros _].
  apply (costs_bind 0 0); [apply costs_lift | intros aph].
  apply (costs_bind 0 0); [apply costs_set_average_precision_headings | intros _].
  apply (costs_bind 0 0); [apply costs_lift | intros pr].
  apply (costs_bind 0 0); [apply costs_set_precision_recall | intros _].
  apply (costs_bind 0 0); [apply costs_lift | intros prh].
  apply costs_set_precision_recall_headings.
Qed.

Lemma EvaluateIfNecessary_unfold (self : WaymoAPMetrics F) (st : State F) :
  _EvaluateIfNecessary self st =
  if is_evaluated st then (st, Ok tt)
  else match ComputeMetrics self (evaluate_all_classes self)
               (count_evaluation_pass st).1 with
       | (st2, Ok _) => set_evaluated st2
       | (st2, Raise e) => (st2, Raise e)
       end.
Proof.
  unfold _EvaluateIfNecessary, mbind, M_bind, get, mret, M_ret.
  destruct (is_evaluated st); reflexivity.
Qed.

(** The first trigger: one pass is counted, at most one matcher run per
    eval class, and the flag is set when the pass completes. *)
Lemma EvaluateIfNecessary_first (self : WaymoAPMetrics F) (st : State F) :
  is_evaluated st = false ->
  let st' := (_EvaluateIfNecessary self st).1 in
  evaluation_passes st' = S (evaluation_passes st) /\
  (matcher_calls st <= matcher_calls st' <=
   matcher_calls st + length (EvalClassIndices (metadata self)))%nat.
Proof.
  intros Hev. rewrite EvaluateIfNecessary_unfold, Hev.
  pose proof (costs_ComputeMetrics self _ _ (costs_evaluate_all_classes self)
                (count_evaluation_pass st).1) as Hcm.
  destruct (ComputeMetrics self (evaluate_all_classes self) _) as [st2 [[]|e]];
    within_arith.
Qed.

Lemma value_state (self : WaymoAPMetrics F) (st : State F) :
  (value self st).1 = (_EvaluateIfNecessary self st).1 /\
  (is_ok (value self st).2 = true -> is_ok (_EvaluateIfNecessary self st).2 = true).
Proof.
  rewrite value_unfold.
  destruct (_EvaluateIfNecessary self st) as [st1 [[]|e]]; simpl; done.
Qed.

Lemma Summary_unfold (self : WaymoAPMetrics F) (name : string) (st : State F) :
  Summary self name st =
  match _EvaluateIfNecessary self st with
  | (st1, Raise e) => (st1, Raise e)
  | (st1, Ok _) =>
      match value self st1 with
      | (st2, Raise e) => (st2, Raise e)
      | (st2, Ok v) =>
          match summary_scalars self name (_average_precisions st2)
                  (_average_precision_headings st2)
                  [SimpleValue (name +:+ "/weighted_mAP") v] with
          | Raise e => (st2, Raise e)
          | Ok ret =>
              match generate_summaries self name (_precision_recall st2) with
              | Raise e => (st2, Raise e)
              | Ok image_summaries =>
                  (st2, Ok {| values := fold_left (fun ret s => ret ++ values s)
                                          image_summaries ret |})
              end
          end
      end
  end.
Proof.
  unfold Summary, GenerateSummaries, mbind, M_bind, get, lift, mret, M_ret.
  destruct (_EvaluateIfNecessary self st) as [st1 [[]|e]]; [|reflexivity].
  destruct (value self st1) as [st2 [v|e]]; [|reflexivity].
  destruct (summary_scalars self name _ _ _); [|reflexivity].
  destruct (generate_summaries self name _); reflexivity.
Qed.

Lemma Summary_state (self : WaymoAPMetrics F) (name : string) (st : State F) :
  (Summary self name st).1 = (_EvaluateIfNecessary self st).1 /\
  (is_ok (Summary self name st).2 = true -> is_ok (_EvaluateIfNecessary self st).2 = true).
Proof.
  rewrite Summary_unfold.
  destruct (_EvaluateIfNecessary self st) as [st1 [[]|e]] eqn:Hev; [|done].
  pose proof (EvaluateIfNecessary_Ok _ _ _ _ Hev) as Hdone.
  rewrite value_unfold, (EvaluateIfNecessary_noop self st1 Hdone).
  destruct (weighted_value self (_average_precisions st1)) as [v|e]; [|done].
  destruct (summary_scalars self name _ _ _) as [scalars|e]; [|done].
  destruct (generate_summaries self name (_precision_recall st1)); done.
Qed.

Lemma run_call_state (self : WaymoAPMetrics F) (c : Call) (st : State F) :
  (run_call self c st).1 = (_EvaluateIfNecessary self st).1 /\
  (is_ok (run_call self c st).2 = true -> is_ok (_EvaluateIfNecessary self st).2 = true).
Proof.
  destruct c as [|name]; unfold run_call, mbind, M_bind.
  - destruct (value_state self st) as [Hst Hok].
    destruct (value self st) as [st1 [v|e]]; simpl in *; [|done].
    split; [exact Hst | intros _; by apply Hok].
  - destruct (Summary_state self name st) as [Hst Hok].
    destruct (Summary self name st) as [st1 [v|e]]; simpl in *; [|done].
    split; [exact Hst | intros _; by apply Hok].
Qed.

(** Once the maps are populated, every further call leaves the state as it
    is, whether it returns or raises. *)
Lemma run_calls_evaluated (self : WaymoAPMetrics F) (cs : list Call) (st : State F) :
  is_evaluated st = true -> (run_calls self cs st).1 = st.
Proof.
  intros Hev. unfold run_calls. induction cs as [|c cs IH]; [reflexivity|].
  simpl. unfold mbind, M_bind.
  destruct (run_call_state self c st) as [Hst _].
  rewrite (EvaluateIfNecessary_noop self st Hev) in Hst. simpl in Hst.
  destruct (run_call self c st) as [st1 [[]|e]]; simpl in Hst; subst st1.
  - exact IH.
  - reflexivity.
Qed.

(** C9: in any sequence of calls of [value] and [Summary] on a fresh object,
    the evaluation pass is counted at most once and the external matcher
    runs at most once per eval class.  After the first call has returned,
    the maps are populated, one pass has been counted, and every later call
    leaves the whole state (maps and counters) as the first call left it. *)
Theorem evaluation_pass_runs_at_most_once (self : WaymoAPMetrics F) (cs : list Call) :
  let final := (run_calls self cs initial_state).1 in
  (evaluation_passes final <= 1)%nat /\
  (matcher_calls final <= length (EvalClassIndices (metadata self)))%nat /\
  (forall (c : Call) (cs' : list Call) (st1 : State F),
     cs = c :: cs' -> run_call self c initial_state = (st1, Ok tt) ->
     is_evaluated st1 = true /\ evaluation_passes st1 = 1%nat /\ final = st1).
Proof.
  intros final. subst final. destruct cs as [|c cs].
  { simpl. split; [lia|]. split; [lia|]. intros c0 cs' st1 [=]. }
  unfold run_calls. simpl. unfold mbind, M_bind.
  destruct (run_call_state self c initial_state) as [Hst Hok].
  destruct (EvaluateIfNecessary_first self initial_state eq_refl) as [Hp Hm].
  rewrite <- Hst in Hp, Hm. simpl in Hp, Hm.
  destruct (run_call self c initial_state) as [st1 [[]|e]] eqn:Hcall; simpl in *.
  - assert (Hev : is_evaluated st1 = true).
    { specialize (Hok eq_refl).
      destruct (_EvaluateIfNecessary self initial_state) as [st2 [[]|e]] eqn:Hev;
        [|discriminate].
      simpl in Hst. subst st2. by eapply EvaluateIfNecessary_Ok. }
    fold (run_calls self cs st1). rewrite (run_calls_evaluated self cs st1 Hev).
    split; [lia|]. split; [lia|].
    intros c' cs' st1' [= <- <-] Hrun. rewrite Hcall in Hrun.
    injection Hrun as <-. done.
  - split; [lia|]. split; [lia|].
    intros c' cs' st1' [= <- <-] Hrun. rewrite Hcall in Hrun. discriminate.
Qed.

End MetricFacts.

(** * Further properties of the configuration builder *)

Section ConfigMore.
Context {F : Type} `{PyFloat F} `{BreakdownProto}.

Lemma iou_thresholds_loop_Ok (names : list string) (items : list (string * F))
    (ths : list F) :
  (forall cn th, (cn, th) ∈ items ->
     exists i : nat, index names cn = Ok (Z.of_nat i) /\ (i < length ths)%nat) ->
  exists ths', for_each (set_iou_threshold names) items ths = Ok ths'.
Proof.
  revert ths. induction items as [|[cn0 th0] items IH]; intros ths Hall; simpl.
  - by exists ths.
  - destruct (Hall cn0 th0) as (i & Hi & Hlt); [by left|].
    unfold set_iou_threshold at 1. simpl. rewrite Hi, bind_Ok.
    unfold setitem.
    replace ((Z.of_nat i <? 0) || (Z.of_nat (length ths) <=? Z.of_nat i)) with false.
    2: { symmetry. apply orb_false_iff. split; [apply Z.ltb_ge | apply Z.leb_gt]; lia. }
    apply IH. intros cn th Hin. rewrite length_insert. apply (Hall cn th). by right.
Qed.

Lemma iou_thresholds_loop_resolves (names : list string) (items : list (string * F))
    (ths ths' : list F) (cn : string) (th : F) :
  for_each (set_iou_threshold names) items ths = Ok ths' ->
  (cn, th) ∈ items ->
  exists i : nat, index names cn = Ok (Z.of_nat i) /\ (i < length ths)%nat.
Proof.
  intros Hloop Hin.
  destruct (index names cn) as [z|e] eqn:Hidx.
  - destruct (index_Ok _ _ _ Hidx) as [Hz _].
    destruct (decide (Z.to_nat z < length ths)%nat) as [Hlt|Hge].
    + exists (Z.to_nat z). by rewrite Z2Nat.id.
    + destruct (iou_thresholds_loop_Raise names items ths cn th Hin) as [e He].
      * intros i. rewrite Hidx. intros [= ->]. rewrite Nat2Z.id in Hge. lia.
      * congruence.
  - destruct (iou_thresholds_loop_Raise names items ths cn th Hin) as [e' He].
    + intros i. rewrite Hidx. discriminate.
    + congruence.
Qed.

Lemma breakdowns_loop_Ok (wbm : list string) (acc : list Z * list Difficulty) :
  (forall name, name ∈ wbm -> is_Some (GeneratorId_Value name)) ->
  exists bd, for_each add_breakdown wbm acc = Ok bd.
Proof.
  revert acc. induction wbm as [|name wbm IH]; intros acc Hall; simpl.
  - by exists acc.
  - destruct (Hall name) as [id Hid]; [by left|].
    unfold add_breakdown at 1. rewrite Hid.
    apply IH. intros n Hn. apply Hall. by right.
Qed.

(** Whether an item of the overrides resolves to the position [i]. *)
Lemma override_hits_or_not (names : list string) (items : list (string * F)) (i : nat) :
  (exists cn th, (cn, th) ∈ items /\ index names cn = Ok (Z.of_nat i)) \/
  (forall cn th, (cn, th) ∈ items -> index names cn <> Ok (Z.of_nat i)).
Proof.
  induction items as [|[cn0 th0] items IH].
  - right. intros cn th Hin. by apply elem_of_nil in Hin.
  - destruct IH as [(cn & th & Hin & Hidx)|Hnone].
    + left. exists cn, th. split; [by right | exact Hidx].
    + destruct (index names cn0) as [z|e] eqn:Hidx0.
      * destruct (decide (z = Z.of_nat i)) as [->|Hne].
        -- left. exists cn0, th0. split; [by left | exact Hidx0].
        -- right. intros cn th Hin. apply elem_of_cons in Hin as [[= -> ->]|Hin].
           ++ rewrite Hidx0. congruence.
           ++ by apply (Hnone cn th).
      * right. intros cn th Hin. apply elem_of_cons in Hin as [[= -> ->]|Hin].
        -- rewrite Hidx0. discriminate.
        -- by apply (Hnone cn th).
Qed.

(** X1: the thresholds of a built configuration do not depend on the order
    in which the override mapping lists its items: with the items in any
    other order the builder returns the same configuration. *)
Theorem overrides_order_independent (md : Metadata F) (items' : list (string * F))
    (bt : string) (wbm : list string) (cfg : Config F) :
  NoDup (IoUThresholds md).*1 ->
  Permutation (IoUThresholds md) items' ->
  _BuildWaymoMetricConfig md bt wbm = Ok cfg ->
  _BuildWaymoMetricConfig (with_overrides items' md) bt wbm = Ok cfg.
Proof.
  intros Hnd Hperm Hb.
  apply build_Ok in Hb as (cs & ts & bd & Hcs & Hts & Hbd & ->).
  apply build_Ok. exists cs, ts, bd. split; [exact Hcs|]. split; [|by split].
  unfold build_iou_thresholds in *. simpl.
  set (init := [f_lit_0_7; f_lit_0_7; f_lit_0_7; f_lit_0_7; f_lit_0_7]) in *.
  destruct (iou_thresholds_loop_Ok (ClassNames md) items' init) as [ts' Hts'].
  { intros cn th Hin. apply (iou_thresholds_loop_resolves _ _ _ _ cn th Hts).
    by rewrite Hperm. }
  rewrite Hts'. f_equal.
  assert (Hnd' : NoDup items'.*1) by (by rewrite <- Hperm).
  destruct (iou_thresholds_loop _ _ _ _ Hts) as (Hlen & Hkeep & Hset).
  destruct (iou_thresholds_loop _ _ _ _ Hts') as (Hlen' & Hkeep' & Hset').
  apply list_eq. intros i.
  destruct (override_hits_or_not (ClassNames md) (IoUThresholds md) i)
    as [(cn & th & Hin & Hidx)|Hnone].
  - destruct (Hset Hnd cn th Hin) as (j & Hj & _ & Hv).
    rewrite Hidx in Hj. injection Hj as Hj. apply Nat2Z.inj in Hj. subst j.
    destruct (Hset' Hnd' cn th) as (j' & Hj' & _ & Hv'); [by rewrite <- Hperm|].
    rewrite Hidx in Hj'. injection Hj' as Hj'. apply Nat2Z.inj in Hj'. subst j'.
    by rewrite Hv, Hv'.
  - rewrite Hkeep by exact Hnone. rewrite Hkeep'; [reflexivity|].
    intros cn th Hin. apply (Hnone cn th). by rewrite Hperm.
Qed.

Section ConfigMoreLaws.
Context {HL : PyFloatLaws F}.

(** X2: the builder returns exactly when the number of precision-recall
    points is at most 0, or at least 2 with [P - 1] in the range of floats;
    every override names a class with an index below 5; and every extra
    breakdown name is a name of the enumeration. *)
Theorem build_succeeds_iff (md : Metadata F) (bt : string) (wbm : list string) :
  let P := NumberOfPrecisionRecallPoints md in
  is_ok (_BuildWaymoMetricConfig md bt wbm) = true <->
  (P <= 0 \/ (2 <= P /\ f_int_ok (P - 1) = true)) /\
  (forall cn th, (cn, th) ∈ IoUThresholds md ->
     exists i : nat, index (ClassNames md) cn = Ok (Z.of_nat i) /\ (i < 5)%nat) /\
  (forall name, name ∈ wbm -> is_Some (GeneratorId_Value name)).
Proof.
  intros P. split.
  - destruct (_BuildWaymoMetricConfig md bt wbm) as [cfg|e] eqn:Hb; [|discriminate].
    intros _. apply build_Ok in Hb as (cs & ts & bd & Hcs & Hts & Hbd & _).
    fold P in Hcs. split; [|split].
    + destruct (decide (P <= 0)) as [|Hpos]; [by left|]. right.
      destruct (decide (P = 1)) as [HP1|HP1].
      { rewrite HP1, build_score_cutoffs_one in Hcs. discriminate. }
      split; [lia|].
      destruct (f_int_ok (P - 1)) eqn:Hok; [reflexivity|].
      rewrite build_score_cutoffs_overflow in Hcs by (lia || assumption).
      discriminate.
    + intros cn th Hin. unfold build_iou_thresholds in Hts.
      apply (iou_thresholds_loop_resolves _ _ _ _ cn th Hts Hin).
    + intros name Hin. unfold build_breakdowns in Hbd.
      destruct (GeneratorId_Value name) as [id|] eqn:Hid; [by exists id|].
      by rewrite (build_breakdowns_unknown wbm name) in Hbd.
  - intros (HP & Hov & Hbn).
    assert (Hcs : exists cs, build_score_cutoffs P = Ok cs).
    { destruct HP as [HP|[HP Hok]].
      - exists []. unfold build_score_cutoffs. by rewrite range_nonpos.
      - eexists. by apply build_score_cutoffs_Ok. }
    destruct Hcs as [cs Hcs].
    destruct (iou_thresholds_loop_Ok (ClassNames md) (IoUThresholds md)
                [f_lit_0_7; f_lit_0_7; f_lit_0_7; f_lit_0_7; f_lit_0_7] Hov)
      as [ts Hts].
    destruct (breakdowns_loop_Ok wbm ([ONE_SHARD], [Difficulty_default]) Hbn)
      as [bd Hbd].
    unfold _BuildWaymoMetricConfig. fold P. rewrite Hcs, bind_Ok.
    unfold build_iou_thresholds. rewrite Hts, bind_Ok.
    unfold build_breakdowns. rewrite Hbd. reflexivity.
Qed.

End ConfigMoreLaws.
End ConfigMore.

(** * Further properties of the metric *)

Section MetricMore.
Context {F : Type} `{PyFloat F} `{BreakdownProto} `{Collaborators F}.

#[local] Existing Instance F_inhabited.

(** ** The aggregator *)

Lemma comprehension_dict_get_Ok {V : Type} `{Inhabited V} (k : string)
    (l : list (gmap string V)) :
  (forall d, d ∈ l -> is_Some (d !! k)) ->
  comprehension (fun d => dict_get d k) l = Ok (map (fun d => d !!! k) l).
Proof.
  intros Hall. apply comprehension_map. intros d Hd.
  destruct (Hall d Hd) as [v Hv]. unfold dict_get.
  by rewrite (lookup_total_correct _ _ _ Hv), Hv.
Qed.

Lemma comprehension_dict_get_cases {V : Type} (k : string) (l : list (gmap string V)) :
  (exists ys, comprehension (fun d => dict_get d k) l = Ok ys /\
     forall d, d ∈ l -> is_Some (d !! k)) \/
  (comprehension (fun d => dict_get d k) l = Raise KeyError /\
     exists d, d ∈ l /\ d !! k = None).
Proof.
  induction l as [|d l IH]; simpl.
  - left. exists []. split; [reflexivity|]. intros d Hd. by apply elem_of_nil in Hd.
  - assert (Hg : dict_get d k = match d !! k with
                                | Some v => Ok v
                                | None => Raise KeyError
                                end) by reflexivity.
    destruct (d !! k) as [v|] eqn:Hv; rewrite Hg.
    + destruct IH as [(ys & -> & Hall)|(-> & d' & Hd' & Hnone)].
      * left. exists (v :: ys). split; [reflexivity|].
        intros d' Hd'. apply elem_of_cons in Hd' as [->|Hd']; [by exists v | by apply Hall].
      * right. split; [reflexivity|]. exists d'. split; [by right | exact Hnone].
    + right. split; [reflexivity|]. exists d. split; [by left | exact Hv].
Qed.

Lemma forallb_elem {A : Type} (f : A -> bool) (l : list A) (x : A) :
  forallb f l = true -> x ∈ l -> f x = true.
Proof.
  intros Hall Hx. apply list_elem_of_In in Hx.
  by apply (proj1 (forallb_forall f l) Hall).
Qed.

Lemma has_key_is_Some {V : Type} (k : string) (d : gmap string V) :
  has_key k d = true -> is_Some (d !! k).
Proof. unfold has_key. destruct (d !! k) as [v|]; [by exists v | discriminate]. Qed.

(** The test decides the presence of the keys. *)
Lemma has_breakdown_keysb_true (scalars : list (gmap string F))
    (curves : list (gmap string (Curve F))) (l : list string) :
  forallb (has_breakdown_keysb scalars curves) l = true ->
  forall bs, bs ∈ l -> has_breakdown_keys scalars curves bs.
Proof.
  intros Hall bs Hbs. apply (forallb_elem _ _ bs Hall) in Hbs.
  apply andb_true_iff in Hbs as [Hs Hc].
  split; intros d Hd.
  - apply (forallb_elem _ _ d Hs) in Hd. apply andb_true_iff in Hd as [K1 K2].
    split; by apply has_key_is_Some.
  - apply (forallb_elem _ _ d Hc) in Hd. apply andb_true_iff in Hd as [K1 K2].
    split; by apply has_key_is_Some.
Qed.

(** One pass of the loop body of [ComputeMetrics] when the keys are there. *)
Lemma ComputeMetrics_step (scalars : list (gmap string F))
    (curves : list (gmap string (Curve F))) (bs : string) (st : State F) :
  has_breakdown_keys scalars curves bs ->
  (ap ← lift (comprehension (fun s => dict_get s ("ap_" +:+ bs)) scalars);
   _ ← set_average_precisions bs ap;
   aph ← lift (comprehension (fun s => dict_get s ("ap_ha_weighted_" +:+ bs)) scalars);
   _ ← set_average_precision_headings bs aph;
   pr ← lift (comprehension (fun c => dict_get c ("pr_" +:+ bs)) curves);
   _ ← set_precision_recall bs pr;
   prh ← lift (comprehension (fun c => dict_get c ("pr_ha_weighted_" +:+ bs)) curves);
   set_precision_recall_headings bs prh) st =
  store_breakdown bs
    (map (fun s => s !!! ("ap_" +:+ bs)) scalars)
    (map (fun s => s !!! ("ap_ha_weighted_" +:+ bs)) scalars)
    (map (fun c => c !!! ("pr_" +:+ bs)) curves)
    (map (fun c => c !!! ("pr_ha_weighted_" +:+ bs)) curves) st.
Proof.
  intros [Hs Hc]. unfold mbind, M_bind, lift.
  rewrite !comprehension_dict_get_Ok; try reflexivity.
  all: intros d Hd; first [apply (Hs d Hd) | apply (Hc d Hd)].
Qed.

(** One pass of the loop body when a key is missing. *)
Lemma ComputeMetrics_step_missing (scalars : list (gmap string F))
    (curves : list (gmap string (Curve F))) (bs : string) (st : State F) :
  has_breakdown_keys scalars curves bs \/
  ((ap ← lift (comprehension (fun s => dict_get s ("ap_" +:+ bs)) scalars);
    _ ← set_average_precisions bs ap;
    aph ← lift (comprehension (fun s => dict_get s ("ap_ha_weighted_" +:+ bs)) scalars);
    _ ← set_average_precision_headings bs aph;
    pr ← lift (comprehension (fun c => dict_get c ("pr_" +:+ bs)) curves);
    _ ← set_precision_recall bs pr;
    prh ← lift (comprehension (fun c => dict_get c ("pr_ha_weighted_" +:+ bs)) curves);
    set_precision_recall_headings bs prh) st).2 = Raise KeyError.
Proof.
  unfold mbind, M_bind, lift.
  destruct (comprehension_dict_get_cases ("ap_" +:+ bs) scalars)
    as [(y1 & -> & K1)|(-> & _)]; [|by right].
  destruct (comprehension_dict_get_cases ("ap_ha_weighted_" +:+ bs) scalars)
    as [(y2 & -> & K2)|(-> & _)]; [|by right].
  destruct (comprehension_dict_get_cases ("pr_" +:+ bs) curves)
    as [(y3 & -> & K3)|(-> & _)]; [|by right].
  destruct (comprehension_dict_get_cases ("pr_ha_weighted_" +:+ bs) curves)
    as [(y4 & -> & K4)|(-> & _)]; [|by right].
  left. split; intros d Hd; split; auto.
Qed.

(** The loop of [ComputeMetrics] over the names [l]. *)
Lemma ComputeMetrics_loop (scalars : list (gmap string F))
    (curves : list (gmap string (Curve F))) (l : list string) (st : State F) :
  (forall bs, bs ∈ l -> has_breakdown_keys scalars curves bs) ->
  exists st',
    for_eachM
      (fun breakdown_str (_ : unit) =>
         ap ← lift (comprehension (fun s => dict_get s ("ap_" +:+ breakdown_str)) scalars);
         _ ← set_average_precisions breakdown_str ap;
         aph ← lift (comprehension
                       (fun s => dict_get s ("ap_ha_weighted_" +:+ breakdown_str)) scalars);
         _ ← set_average_precision_headings breakdown_str aph;
         pr ← lift (comprehension (fun c => dict_get c ("pr_" +:+ breakdown_str)) curves);
         _ ← set_precision_recall breakdown_str pr;
         prh ← lift (comprehension
                       (fun c => dict_get c ("pr_ha_weighted_" +:+ breakdown_str)) curves);
         set_precision_recall_headings breakdown_str prh)
      l tt st = (st', Ok tt) /\
    (forall bs, bs ∈ l -> stores_breakdown st' scalars curves bs) /\
    (forall bs, bs ∉ l -> same_breakdown st st' bs) /\
    load_log st' = load_log st /\ matcher_calls st' = matcher_calls st /\
    evaluation_passes st' = evaluation_passes st /\ is_evaluated st' = is_evaluated st.
Proof.
  revert st. induction l as [|b l IH]; intros st Hall.
  - exists st. split; [reflexivity|]. split.
    + intros bs Hbs. by apply elem_of_nil in Hbs.
    + split; [|done]. intros bs _. by repeat split.
  - cbn [for_eachM]. unfold mbind at 1, M_bind at 1.
    rewrite ComputeMetrics_step by (apply Hall; by left).
    unfold store_breakdown at 1, modify.
    set (st1 := Build_State _ _ _ _ _ _ _ _).
    destruct (IH st1) as (st' & Hrun & Hin & Hout & Hlog & Hm & He & Hf).
    { intros bs Hbs. apply Hall. by right. }
    exists st'. split; [exact Hrun|]. split; [|split].
    + intros bs Hbs. destruct (decide (bs ∈ l)) as [Hl|Hl]; [by apply Hin|].
      apply elem_of_cons in Hbs as [->|Hbs]; [|contradiction].
      destruct (Hout b Hl) as (E1 & E2 & E3 & E4).
      unfold stores_breakdown. rewrite E1, E2, E3, E4. subst st1. simpl.
      by rewrite !lookup_insert_eq.
    + intros bs Hbs. apply not_elem_of_cons in Hbs as [Hne Hl].
      destruct (Hout bs Hl) as (E1 & E2 & E3 & E4).
      unfold same_breakdown. rewrite E1, E2, E3, E4. subst st1. simpl.
      by rewrite !lookup_insert_ne.
    + subst st1. simpl in *. done.
Qed.

(** X3: when the evaluation returns per-class dicts that have the keys of
    every breakdown of the list, [ComputeMetrics] returns, and afterwards
    each of the four aggregate maps holds, under each breakdown name of the
    list, the entries of the per-class dicts for that breakdown, one per
    class and in the order of the classes; entries under other names and
    the rest of the state are as the evaluation left them. *)
Theorem ComputeMetrics_stores (self : WaymoAPMetrics F)
    (fn : M F (list (gmap string F) * list (gmap string (Curve F))))
    (st st1 : State F) (scalars : list (gmap string F))
    (curves : list (gmap string (Curve F))) :
  fn st = (st1, Ok (scalars, curves)) ->
  (forall bs, bs ∈ breakdown_list self -> has_breakdown_keys scalars curves bs) ->
  exists st',
    ComputeMetrics self fn st = (st', Ok tt) /\
    (forall bs, bs ∈ breakdown_list self -> stores_breakdown st' scalars curves bs) /\
    (forall bs, bs ∉ breakdown_list self -> same_breakdown st1 st' bs) /\
    load_log st' = load_log st1 /\ matcher_calls st' = matcher_calls st1 /\
    evaluation_passes st' = evaluation_passes st1 /\ is_evaluated st' = is_evaluated st1.
Proof.
  intros Hfn Hkeys.
  destruct (ComputeMetrics_loop scalars curves (breakdown_list self) st1 Hkeys)
    as (st' & Hrun & Hrest).
  exists st'. split; [|exact Hrest].
  unfold ComputeMetrics, mbind at 1, M_bind at 1. rewrite Hfn. exact Hrun.
Qed.

(** X4: when some per-class dict lacks one of the four keys of a breakdown
    of the list, [ComputeMetrics] raises [KeyError]. *)
Theorem ComputeMetrics_missing_key (self : WaymoAPMetrics F)
    (fn : M F (list (gmap string F) * list (gmap string (Curve F))))
    (st st1 : State F) (scalars : list (gmap string F))
    (curves : list (gmap string (Curve F))) (bs : string) :
  fn st = (st1, Ok (scalars, curves)) ->
  bs ∈ breakdown_list self ->
  ~ has_breakdown_keys scalars curves bs ->
  (ComputeMetrics self fn st).2 = Raise KeyError.
Proof.
  intros Hfn Hin Hno.
  unfold ComputeMetrics, mbind at 1, M_bind at 1. rewrite Hfn. cbn [fst snd].
  clear Hfn. revert st1. induction (breakdown_list self) as [|b l IH]; intros st1;
    [by apply elem_of_nil in Hin|].
  cbn [for_eachM]. unfold mbind at 1, M_bind at 1.
  destruct (ComputeMetrics_step_missing scalars curves b st1) as [Hb|Hb].
  - rewrite ComputeMetrics_step by exact Hb.
    unfold store_breakdown at 1, modify.
    apply elem_of_cons in Hin as [->|Hin]; [contradiction|].
    by apply IH.
  - revert Hb. match goal with |- (?m st1).2 = _ -> _ => destruct (m st1) as [st2 [[]|e]] end.
    + discriminate.
    + simpl. by intros ->.
Qed.

(** ** The data selector: the failing lookups *)

(** X5: when both loads find boxes, [_GetData] looks up the name of the
    class and then its threshold: it raises [IndexError] when the class id
    is not a position of the class names, and [KeyError] when the class name
    has no entry among the thresholds of the object. *)
Theorem GetData_lookup_errors (self : WaymoAPMetrics F) (classid : Z)
    (difficulty : option string) (distance num_points rotation : option Z)
    (st : State F) (gb pb : BoundingBoxes F) :
  0 < classid < NumClasses (metadata self) ->
  _LoadBoundingBoxes (groundtruth_call classid distance num_points rotation) = Some gb ->
  _LoadBoundingBoxes (prediction_call classid distance rotation) = Some pb ->
  let r := (_GetData self classid difficulty distance num_points rotation st).2 in
  (ClassNames (metadata self) !! Z.to_nat classid = None -> r = Raise IndexError) /\
  (forall classname,
     ClassNames (metadata self) !! Z.to_nat classid = Some classname ->
     _iou_thresholds self !! classname = None -> r = Raise KeyError).
Proof.
  intros Hok Hg Hp r. subst r.
  unfold _GetData, assert, load_bounding_boxes, mbind, M_bind, lift, mret, M_ret.
  fold (groundtruth_call classid distance num_points rotation).
  fold (prediction_call classid distance rotation).
  replace ((0 <? classid) && (classid <? NumClasses (metadata self))) with true
    by (symmetry; apply andb_true_iff; lia).
  simpl. rewrite Hg, Hp. simpl. rewrite getitem_nonneg by lia. split.
  - intros Hcn. by rewrite Hcn.
  - intros cn Hcn Hiou. rewrite Hcn. simpl. unfold dict_get. by rewrite Hiou.
Qed.

(** ** The metric evaluator: the keys follow the positions *)

Lemma add_breakdown_entries_untouched
    (ap ap_ha : nat -> ScalarTensor F) (pr pr_ha : nat -> CurveTensor F)
    (l : list (nat * string))
    (d : gmap string (ScalarTensor F) * gmap string (CurveTensor F)) :
  let d' := fold_left (add_breakdown_entries ap ap_ha pr pr_ha) l d in
  (forall k,
     (forall n, n ∈ l.*2 -> k <> "ap_" +:+ n /\ k <> "ap_ha_weighted_" +:+ n) ->
     d'.1 !! k = d.1 !! k) /\
  (forall k,
     (forall n, n ∈ l.*2 -> k <> "pr_" +:+ n /\ k <> "pr_ha_weighted_" +:+ n) ->
     d'.2 !! k = d.2 !! k).
Proof.
  revert d. induction l as [|[i n] l IH]; intros d; simpl; [done|].
  destruct (IH (add_breakdown_entries ap ap_ha pr pr_ha d (i, n))) as [IH1 IH2].
  split; intros k Hk.
  - rewrite IH1.
    2: { intros m Hm. apply Hk. by right. }
    destruct (Hk n) as [K1 K2]; [by left|].
    unfold add_breakdown_entries. cbn [fst snd].
    by rewrite !lookup_insert_ne.
  - rewrite IH2.
    2: { intros m Hm. apply Hk. by right. }
    destruct (Hk n) as [K1 K2]; [by left|].
    unfold add_breakdown_entries. cbn [fst snd].
    by rewrite !lookup_insert_ne.
Qed.

Lemma add_breakdown_entries_lookup
    (ap ap_ha : nat -> ScalarTensor F) (pr pr_ha : nat -> CurveTensor F)
    (l : list (nat * string))
    (d : gmap string (ScalarTensor F) * gmap string (CurveTensor F)) :
  NoDup l.*2 ->
  (forall a b, a ∈ l.*2 -> b ∈ l.*2 -> a <> "ha_weighted_" +:+ b) ->
  let d' := fold_left (add_breakdown_entries ap ap_ha pr pr_ha) l d in
  forall i n, (i, n) ∈ l ->
    d'.1 !! ("ap_" +:+ n) = Some (ap i) /\
    d'.1 !! ("ap_ha_weighted_" +:+ n) = Some (ap_ha i) /\
    d'.2 !! ("pr_" +:+ n) = Some (pr i) /\
    d'.2 !! ("pr_ha_weighted_" +:+ n) = Some (pr_ha i).
Proof.
  revert d. induction l as [|[i0 n0] l IH]; intros d Hnd Hfree; simpl.
  { intros i n Hin. by apply elem_of_nil in Hin. }
  simpl in Hnd. apply list.NoDup_cons in Hnd as [Hn0 Hnd].
  intros i n Hin.
  destruct (decide ((i, n) ∈ l)) as [Hl|Hl].
  { apply IH; [exact Hnd | | exact Hl].
    intros a b Ha Hb. apply Hfree; simpl; by right. }
  apply elem_of_cons in Hin as [[= -> ->]|Hin]; [|contradiction].
  destruct (add_breakdown_entries_untouched ap ap_ha pr pr_ha l
              (add_breakdown_entries ap ap_ha pr pr_ha d (i0, n0))) as [U1 U2].
  assert (Hself : n0 <> "ha_weighted_" +:+ n0) by (apply Hfree; simpl; by left).
  assert (Hleft : forall m, m ∈ l.*2 -> n0 <> m) by (intros m Hm ->; contradiction).
  assert (Hfree1 : forall m, m ∈ l.*2 -> n0 <> "ha_weighted_" +:+ m).
  { intros m Hm. apply Hfree; simpl; [by left | by right]. }
  assert (Hfree2 : forall m, m ∈ l.*2 -> m <> "ha_weighted_" +:+ n0).
  { intros m Hm. apply Hfree; simpl; [by right | by left]. }
  rewrite !U1, !U2.
  - unfold add_breakdown_entries. cbn [fst snd].
    rewrite !lookup_insert_eq.
    rewrite (lookup_insert_ne _ ("ap_ha_weighted_" +:+ n0) ("ap_" +:+ n0)).
    2: { simpl. intros [= E]. by apply Hself. }
    rewrite (lookup_insert_ne _ ("pr_ha_weighted_" +:+ n0) ("pr_" +:+ n0)).
    2: { simpl. intros [= E]. by apply Hself. }
    by rewrite !lookup_insert_eq.
  - intros m Hm. split; simpl; intros [= E].
    + symmetry in E. by apply (Hfree2 m Hm).
    + by apply (Hleft m Hm).
  - intros m Hm. split; simpl; intros [= E].
    + by apply (Hleft m Hm).
    + by apply (Hfree1 m Hm).
  - intros m Hm. split; simpl; intros [= E].
    + symmetry in E. by apply (Hfree2 m Hm).
    + by apply (Hleft m Hm).
  - intros m Hm. split; simpl; intros [= E].
    + by apply (Hleft m Hm).
    + by apply (Hfree1 m Hm).
Qed.

(** X6: on the branch with data, the fetch tensors of [_BuildMetric] follow
    the positions of the breakdown names: the key [ap] is the slice 0 of the
    AP output of the detection-metrics op, and for the name at position [i]
    the four keys [ap_<name>], [ap_ha_weighted_<name>], [pr_<name>] and
    [pr_ha_weighted_<name>] are the slices [i] of the four outputs of the same
    op, which is built for the class id, with the numbers of ground-truth
    and prediction boxes of the data and the configuration of the object.
    (The names are distinct and no name is [ha_weighted_] followed by a
    name, so that no key is written twice.) *)
Theorem BuildMetric_keys_follow_positions (self : WaymoAPMetrics F)
    (fd : FeedData F) (classid : Z) :
  let names := get_breakdown_names_from_config (_waymo_metric_config self) in
  let op := {| op_classid := classid;
               op_num_gt_bboxes := length (gt_imgid (gt fd));
               op_num_pd_bboxes := length (pd_imgid (pd fd));
               op_config := _waymo_metric_config self |} in
  NoDup names ->
  (forall a b, a ∈ names -> b ∈ names -> a <> "ha_weighted_" +:+ b) ->
  exists scalars curves feed_dict,
    _BuildMetric self (Some fd) classid = Ok (scalars, curves, feed_dict) /\
    scalars !! "ap" = Some (SAp op 0) /\
    curves !! "pr" = Some (CPr op 0) /\
    ("ha_weighted" ∉ names ->
       scalars !! "ap_ha_weighted" = Some (SApHa op 0) /\
       curves !! "pr_ha_weighted" = Some (CPrHa op 0)) /\
    (forall (i : nat) (name : string), names !! i = Some name ->
       scalars !! ("ap_" +:+ name) = Some (SAp op i) /\
       scalars !! ("ap_ha_weighted_" +:+ name) = Some (SApHa op i) /\
       curves !! ("pr_" +:+ name) = Some (CPr op i) /\
       curves !! ("pr_ha_weighted_" +:+ name) = Some (CPrHa op i)).
Proof.
  intros names op Hnd Hfree. unfold _BuildMetric. fold names. cbv zeta. fold op.
  eexists _, _, _. split; [reflexivity|].
  unfold add_breakdown_metrics.
  set (d0 := (<["ap_ha_weighted" := SApHa op 0]> (<["ap" := SAp op 0]> ∅),
              <["pr_ha_weighted" := CPrHa op 0]> (<["pr" := CPr op 0]> ∅))
             : gmap string (ScalarTensor F) * gmap string (CurveTensor F)).
  destruct (add_breakdown_entries_untouched (SAp op) (SApHa op) (CPr op) (CPrHa op)
              (enumerate names) d0) as [U1 U2].
  rewrite enumerate_snd in U1, U2.
  split; [|split; [|split]].
  - rewrite U1; [reflexivity|]. intros n _. split; simpl; discriminate.
  - rewrite U2; [reflexivity|]. intros n _. split; simpl; discriminate.
  - intros Hno. split.
    + rewrite U1; [reflexivity|]. intros n Hn. split; simpl; [|discriminate].
      intros [= E]. apply Hno. by rewrite E.
    + rewrite U2; [reflexivity|]. intros n Hn. split; simpl; [|discriminate].
      intros [= E]. apply Hno. by rewrite E.
  - intros i name Hi.
    apply (add_breakdown_entries_lookup (SAp op) (SApHa op) (CPr op) (CPrHa op)
             (enumerate names) d0).
    + by rewrite enumerate_snd.
    + by rewrite enumerate_snd.
    + by apply enumerate_elem.
Qed.

(** ** The weighted value: what it reads, and how it fails *)

Lemma for_each_ext {A S : Type} (f g : A -> S -> result S) (l : list A) (s : S) :
  (forall x s, x ∈ l -> f x s = g x s) -> for_each f l s = for_each g l s.
Proof.
  revert s. induction l as [|x l IH]; intros s Hfg; simpl; [reflexivity|].
  rewrite Hfg by left. destruct (g x s) as [s'|e]; [|reflexivity].
  apply IH. intros y t Hy. apply Hfg. by right.
Qed.

(** X7: [value] reads nothing of the average precisions but the list stored
    under the first breakdown name, and of that list only the first entries,
    one per eval class: on two maps that agree there it computes the same
    result, exceptions included. *)
Theorem value_reads_overall_breakdown_only (self : WaymoAPMetrics F)
    (ap ap' : gmap string (list F)) :
  let names := get_breakdown_names_from_config (_waymo_metric_config self) in
  let n := length (EvalClassIndices (metadata self)) in
  (forall name0, names !! 0%nat = Some name0 ->
     take n <$> ap !! name0 = take n <$> ap' !! name0) ->
  weighted_value self ap = weighted_value self ap'.
Proof.
  intros names n Hagree. unfold weighted_value. fold names. fold n.
  rewrite (for_each_ext (accumulate_class names ap) (accumulate_class names ap'));
    [reflexivity|].
  intros x s Hx. apply range_elem in Hx. unfold accumulate_class.
  rewrite getitem_nonneg by lia. change (Z.to_nat 0) with 0%nat.
  destruct (names !! 0%nat) as [name0|] eqn:Hname; [|reflexivity].
  rewrite !bind_Ok. specialize (Hagree name0 eq_refl). unfold dict_get.
  destruct (ap !! name0) as [aps|], (ap' !! name0) as [aps'|]; simpl in Hagree;
    try discriminate; [|reflexivity].
  injection Hagree as Hagree. rewrite !bind_Ok.
  rewrite !getitem_nonneg by lia.
  assert (E : aps !! Z.to_nat x = aps' !! Z.to_nat x).
  { rewrite <- (lookup_take_lt aps n (Z.to_nat x)) by lia.
    rewrite <- (lookup_take_lt aps' n (Z.to_nat x)) by lia.
    by rewrite Hagree. }
  by rewrite E.
Qed.

(** The loop of [value] runs out of entries. *)
Lemma accumulate_class_loop_short (names : list string) (ap : gmap string (list F))
    (name0 : string) (aps : list F) (m k : nat) (sums : F * F) :
  names !! 0%nat = Some name0 -> ap !! name0 = Some aps ->
  (k <= length aps < k + m)%nat ->
  for_each (accumulate_class names ap) (map Z.of_nat (seq k m)) sums = Raise IndexError.
Proof.
  intros Hname Hap. revert k sums.
  induction m as [|m IH]; intros k sums Hlen; [lia|]. simpl.
  unfold accumulate_class at 1.
  rewrite getitem_nonneg by lia. change (Z.to_nat 0) with 0%nat.
  rewrite Hname, bind_Ok. unfold dict_get. rewrite Hap, bind_Ok.
  rewrite getitem_nonneg by lia. rewrite Nat2Z.id.
  destruct (aps !! k) as [x|] eqn:Hx; [|reflexivity].
  rewrite bind_Ok. apply IH.
  apply lookup_lt_Some in Hx. lia.
Qed.

(** X8: after the evaluation, [value] fails on its lookups as follows, when
    there is at least one eval class: with [IndexError] when the
    configuration has no breakdown name; with [KeyError] when the first
    breakdown name has no entry among the average precisions; and with
    [IndexError] when that entry has fewer elements than there are eval
    classes. *)
Theorem value_lookup_errors (self : WaymoAPMetrics F) (st st' : State F) :
  let names := get_breakdown_names_from_config (_waymo_metric_config self) in
  let n := length (EvalClassIndices (metadata self)) in
  _EvaluateIfNecessary self st = (st', Ok tt) ->
  (0 < n)%nat ->
  (names = [] -> value self st = (st', Raise IndexError)) /\
  (forall name0, names !! 0%nat = Some name0 ->
     _average_precisions st' !! name0 = None ->
     value self st = (st', Raise KeyError)) /\
  (forall name0 aps, names !! 0%nat = Some name0 ->
     _average_precisions st' !! name0 = Some aps ->
     (length aps < n)%nat ->
     value self st = (st', Raise IndexError)).
Proof.
  intros names n Hev Hpos. rewrite value_unfold, Hev.
  unfold weighted_value. fold names. fold n. unfold range. rewrite Nat2Z.id.
  destruct n as [|n']; [lia|].
  split; [|split].
  - intros Hnil. simpl. unfold accumulate_class. by rewrite Hnil.
  - intros name0 Hname Hap. simpl. unfold accumulate_class.
    rewrite getitem_nonneg by lia. change (Z.to_nat 0) with 0%nat.
    rewrite Hname, bind_Ok. unfold dict_get. by rewrite Hap.
  - intros name0 aps Hname Hap Hlen.
    rewrite (accumulate_class_loop_short names _ name0 aps) by (assumption || lia).
    reflexivity.
Qed.

(** X10: the first entry of what [Summary] returns is tagged
    [<name>/weighted_mAP] and carries the number that [value] returns, on
    the fresh object as well as after the evaluation. *)
Theorem Summary_first_entry_is_value (self : WaymoAPMetrics F) (name : string)
    (st st' : State F) (ret : TfSummary F) :
  Summary self name st = (st', Ok ret) ->
  exists v rest,
    value self st = (st', Ok v) /\ value self st' = (st', Ok v) /\
    values ret = SimpleValue (name +:+ "/weighted_mAP") v :: rest.
Proof.
  rewrite Summary_unfold.
  destruct (_EvaluateIfNecessary self st) as [st1 [[]|e]] eqn:Hev; [|discriminate].
  pose proof (EvaluateIfNecessary_Ok _ _ _ _ Hev) as Hdone.
  rewrite (value_unfold self st), Hev.
  rewrite (value_unfold self st1), (EvaluateIfNecessary_noop self st1 Hdone).
  destruct (weighted_value self (_average_precisions st1)) as [v|e] eqn:Hv;
    [|discriminate].
  destruct (summary_scalars self name _ _ _) as [scalars|e] eqn:Hsc; [|discriminate].
  destruct (generate_summaries self name _) as [images|e]; [|discriminate].
  intros [= <- <-].
  apply summary_scalars_rendered in Hsc as (cns & _ & ->).
  eexists v, _. split; [reflexivity|]. split.
  - by rewrite value_unfold, (EvaluateIfNecessary_noop self st1 Hdone), Hv.
  - simpl. rewrite fold_left_values. reflexivity.
Qed.

(** ** The rendering loops: when they return, and how much *)

Lemma string_app_assoc' (a b c : string) : (a +:+ b) +:+ c = a +:+ (b +:+ c).
Proof.
  induction a as [|x a IH]; [reflexivity|].
  change (String x ((a +:+ b) +:+ c) = String x (a +:+ (b +:+ c))). by rewrite IH.
Qed.

Lemma str_in_trans (p s t : string) :
  str_in p s = true -> str_in s t = true -> str_in p t = true.
Proof.
  rewrite !str_in_spec. intros (a & b & ->) (a' & b' & ->).
  exists (a' +:+ a), (b +:+ b'). by rewrite !string_app_assoc'.
Qed.

(** X11: the rendering test goes by substrings: a class whose lowercased
    name occurs in the lowercased name of another class is rendered with
    every breakdown that the other class is rendered with. *)
Theorem rendering_follows_substrings (k : nat) (classname classname' breakdown_name : string) :
  str_in (lower classname) (lower classname') = true ->
  skip_breakdown k classname' breakdown_name = false ->
  skip_breakdown k classname breakdown_name = false.
Proof.
  intros Hsub. rewrite !skip_breakdown_false. intros [->|Hin]; [by left|].
  right. by apply (str_in_trans _ (lower classname')).
Qed.

Section NestedLoopsOk.
Context {T : Type}.
Variable step : nat -> string -> nat * string -> list T -> result (list T).
Variable ok : nat * string * nat * string -> Prop.
Hypothesis step_ok : forall i cn kb acc,
  (exists acc', step i cn kb acc = Ok acc') <->
  (skip_breakdown kb.1 cn kb.2 = false -> ok (i, cn, kb.1, kb.2)).

Lemma inner_loop_ok (i : nat) (cn : string) (l : list (nat * string)) (acc : list T) :
  (exists acc', for_each (step i cn) l acc = Ok acc') <->
  (forall kb, kb ∈ l -> skip_breakdown kb.1 cn kb.2 = false -> ok (i, cn, kb.1, kb.2)).
Proof.
  revert acc. induction l as [|kb l IH]; intros acc; simpl.
  - split; [|by exists acc]. intros _ kb Hkb. by apply elem_of_nil in Hkb.
  - split.
    + destruct (step i cn kb acc) as [acc1|e] eqn:Hstep; [|by intros [? [=]]].
      intros Hrest kb' Hkb'. apply elem_of_cons in Hkb' as [->|Hkb'].
      * apply (step_ok i cn kb acc). by exists acc1.
      * by apply (proj1 (IH acc1) Hrest).
    + intros Hall.
      destruct (proj2 (step_ok i cn kb acc)) as [acc1 ->]; [apply Hall; by left|].
      apply IH. intros kb' Hkb'. apply Hall. by right.
Qed.

Lemma outer_loop_ok (class_names : list string) (bns : list string)
    (idxs : list Z) (k : nat) (acc : list T) :
  (exists acc',
     for_each
       (fun (ij : nat * Z) acc =>
          classname ← getitem class_names ij.2;
          for_each (step ij.1 classname) (enumerate bns) acc)
       (zip (seq k (length idxs)) idxs) acc = Ok acc') <->
  (exists cns : list string,
     Forall2 (fun j cn => getitem class_names j = Ok cn) idxs cns /\
     forall i cn kb, (i, cn) ∈ zip (seq k (length cns)) cns -> kb ∈ enumerate bns ->
       skip_breakdown kb.1 cn kb.2 = false -> ok (i, cn, kb.1, kb.2)).
Proof.
  revert k acc. induction idxs as [|j idxs IH]; intros k acc; simpl.
  - split; [|by exists acc]. intros _. exists []. split; [constructor|].
    intros i cn kb Hin. by apply elem_of_nil in Hin.
  - split.
    + destruct (getitem class_names j) as [cn|e] eqn:Hcn; [|by intros [? [=]]].
      rewrite bind_Ok.
      destruct (for_each (step k cn) (enumerate bns) acc) as [acc1|e] eqn:Hin;
        [|by intros [? [=]]].
      intros Hrest. apply IH in Hrest as (cns & Hcns & Hall).
      exists (cn :: cns). split; [by constructor|].
      intros i cn' kb Hic Hkb. simpl in Hic.
      apply elem_of_cons in Hic as [[= -> ->]|Hic].
      * apply (proj1 (inner_loop_ok k cn (enumerate bns) acc)); [by exists acc1 | exact Hkb].
      * by apply Hall.
    + intros (cns & Hcns & Hall).
      inversion Hcns as [|? cn ? cns' Hj Hrest]; subst.
      rewrite Hj, bind_Ok.
      destruct (proj2 (inner_loop_ok k cn (enumerate bns) acc)) as [acc1 ->].
      { intros kb Hkb. apply Hall; [|exact Hkb]. simpl. by left. }
      apply IH. exists cns'. split; [exact Hrest|].
      intros i cn' kb Hic Hkb. apply Hall; [|exact Hkb]. simpl. by right.
Qed.

End NestedLoopsOk.

Lemma plot_breakdown_ok (name : string) (pr : gmap string (list (Curve F)))
    (i : nat) (cn : string) (kb : nat * string) (acc : list (TfSummary F)) :
  (exists acc', plot_breakdown name pr i cn kb acc = Ok acc') <->
  (skip_breakdown kb.1 cn kb.2 = false -> has_entry pr (i, cn, kb.1, kb.2)).
Proof.
  unfold plot_breakdown, has_entry, Curve in *. cbn [fst snd].
  destruct (skip_breakdown kb.1 cn kb.2).
  { split; [discriminate | by exists acc]. }
  unfold dict_get, getitem_nat.
  destruct (pr !! kb.2) as [prs|] eqn:Hpr.
  2: { split; [by intros [? [=]] | intros Hex; by destruct (Hex eq_refl) as (? & [=] & _)]. }
  rewrite bind_Ok.
  destruct (prs !! i) as [c|] eqn:Hc.
  - rewrite bind_Ok. split; [|by eexists].
    intros _ _. exists prs. split; [reflexivity|]. by apply lookup_lt_Some in Hc.
  - split; [by intros [? [=]]|]. intros Hex.
    destruct (Hex eq_refl) as (prs' & [= <-] & Hlt).
    apply lookup_ge_None in Hc. lia.
Qed.

Lemma generate_summaries_returns (self : WaymoAPMetrics F) (name : string)
    (pr : gmap string (list (Curve F))) :
  (exists images, generate_summaries self name pr = Ok images) <->
  exists cns : list string,
    Forall2 (fun j cn => getitem (ClassNames (metadata self)) j = Ok cn)
      (EvalClassIndices (metadata self)) cns /\
    forall r, r ∈ rendered cns (breakdown_list self) -> has_entry pr r.
Proof.
  unfold generate_summaries, enumerate at 1.
  pose proof (outer_loop_ok (fun i cn => plot_breakdown name pr i cn)
                (has_entry pr)
                (fun i cn kb acc => plot_breakdown_ok name _ i cn kb acc)
                (ClassNames (metadata self)) (breakdown_list self)
                (EvalClassIndices (metadata self)) 0 []) as Hloop.
  cbv beta in Hloop. rewrite Hloop. clear Hloop.
  split; intros (cns & Hcns & Hall); exists cns; (split; [exact Hcns|]).
  - intros [[[i cn] k] bn] Hr. apply rendered_elem in Hr as (Hi & Hk & Hkeep).
    apply (Hall i cn (k, bn)).
    + by apply enumerate_elem.
    + by apply enumerate_elem.
    + by apply skip_breakdown_false.
  - intros i cn [k bn] Hi Hk Hskip. apply Hall, rendered_elem.
    split; [by apply enumerate_elem|]. split; [by apply enumerate_elem|].
    by apply skip_breakdown_false.
Qed.

(** X12: [GenerateSummaries] returns exactly when every eval class index
    is a position of the class names and, for every combination that is
    rendered, the precision-recall map has an entry under the breakdown name
    with a curve at the position of the class. *)
Theorem GenerateSummaries_returns_iff (self : WaymoAPMetrics F) (name : string)
    (st : State F) :
  is_ok (GenerateSummaries self name st).2 = true <->
  exists cns : list string,
    Forall2 (fun j cn => getitem (ClassNames (metadata self)) j = Ok cn)
      (EvalClassIndices (metadata self)) cns /\
    forall r, r ∈ rendered cns (breakdown_list self) ->
      has_entry (_precision_recall st) r.
Proof.
  unfold GenerateSummaries, mbind, M_bind, get, lift. cbn [snd].
  rewrite <- (generate_summaries_returns self name).
  destruct (generate_summaries self name (_precision_recall st)) as [images|e]; simpl.
  - split; [by exists images | done].
  - split; [done | by intros [? [=]]].
Qed.

Lemma enumerate_length {A : Type} (l : list A) : length (enumerate l) = length l.
Proof. unfold enumerate. rewrite length_zip_with, length_seq. lia. Qed.

Lemma rendered_length (cns bns : list string) :
  (length (rendered cns bns) <= length cns * length bns)%nat /\
  (bns <> [] -> length cns <= length (rendered cns bns))%nat.
Proof.
  unfold rendered. rewrite <- (enumerate_length cns), <- (enumerate_length bns).
  assert (Hne : bns <> [] -> exists b l, enumerate bns = (0%nat, b) :: l).
  { intros Hne. destruct bns as [|b bns]; [done|]. by eexists _, _. }
  generalize dependent (enumerate bns). intros kbs Hne.
  induction (enumerate cns) as [|ic l [IHle IHge]]; simpl.
  - split; [lia|]. intros _. lia.
  - rewrite length_app. split.
    + assert (Hin : (length (flat_map (fun kb : nat * string =>
                       if skip_breakdown kb.1 ic.2 kb.2 then []
                       else [(ic.1, ic.2, kb.1, kb.2)]) kbs) <= length kbs)%nat).
      { clear. induction kbs as [|kb kbs IH]; simpl; [lia|].
        rewrite length_app. destruct (skip_breakdown kb.1 ic.2 kb.2); simpl; lia. }
      lia.
    + intros Hbns. specialize (IHge Hbns).
      destruct (Hne Hbns) as (b & kbs' & ->). simpl in *. lia.
Qed.

(** X13: [GenerateSummaries] leaves the object as it is, and returns at
    least one plot for each eval class (when the breakdown list is not
    empty) and at most one for each pair of an eval class and a breakdown. *)
Theorem GenerateSummaries_count (self : WaymoAPMetrics F) (name : string)
    (st st' : State F) (images : list (TfSummary F)) :
  GenerateSummaries self name st = (st', Ok images) ->
  let n := length (EvalClassIndices (metadata self)) in
  let b := length (breakdown_list self) in
  st' = st /\ (length images <= n * b)%nat /\ (b <> 0%nat -> (n <= length images)%nat).
Proof.
  unfold GenerateSummaries, mbind, M_bind, get, lift.
  intros [= <- Hgen]. split; [reflexivity|].
  apply generate_summaries_rendered in Hgen as (cns & Hcns & ->).
  rewrite length_map. apply Forall2_length in Hcns.
  destruct (rendered_length cns (breakdown_list self)) as [Hle Hge].
  rewrite Hcns. split; [exact Hle|].
  intros Hb. apply Hge. intros Hnil. by rewrite Hnil in Hb.
Qed.

(** X14: for an object made by [__init__], the two rendering loops of
    [Summary] run over the same combinations, since the breakdown list of
    its [WaymoBreakdownMetric] is the list of the breakdown names of its
    configuration: there is one list of combinations such that the entries
    are the weighted mAP, then the AP/APH pair of each combination, then the
    plot of each combination. *)
Theorem Summary_pairs_match_plots (md : Metadata F) (bt : string) (wbm : list string)
    (iou : gmap string F) (self : WaymoAPMetrics F) (name : string)
    (st st' : State F) (ret : TfSummary F) :
  WaymoAPMetrics_init md bt wbm iou = Ok self ->
  Summary self name st = (st', Ok ret) ->
  exists (rs : list (nat * string * nat * string)) (v : F),
    GenerateSummaries self name st' =
      (st', Ok (map (curve_plot name (_precision_recall st')) rs)) /\
    values ret =
      SimpleValue (name +:+ "/weighted_mAP") v ::
      flat_map (scalar_pair name (_average_precisions st')
                  (_average_precision_headings st')) rs
      ++ flat_map values (map (curve_plot name (_precision_recall st')) rs) /\
    length (flat_map (scalar_pair name (_average_precisions st')
                        (_average_precision_headings st')) rs) = (2 * length rs)%nat.
Proof.
  intros Hinit.
  assert (Hbl : breakdown_list self =
                get_breakdown_names_from_config (_waymo_metric_config self)).
  { unfold WaymoAPMetrics_init in Hinit.
    destruct (_BuildWaymoMetricConfig md bt wbm) as [cfg|e]; [|discriminate].
    rewrite bind_Ok in Hinit. by injection Hinit as <-. }
  rewrite Summary_unfold.
  destruct (_EvaluateIfNecessary self st) as [st1 [[]|e]] eqn:Hev; [|discriminate].
  pose proof (EvaluateIfNecessary_Ok _ _ _ _ Hev) as Hdone.
  rewrite value_unfold, (EvaluateIfNecessary_noop self st1 Hdone).
  destruct (weighted_value self (_average_precisions st1)) as [v|e]; [|discriminate].
  destruct (summary_scalars self name _ _ _) as [scalars|e] eqn:Hsc; [|discriminate].
  destruct (generate_summaries self name (_precision_recall st1)) as [images|e] eqn:Hgen;
    [|discriminate].
  intros [= <- <-].
  apply summary_scalars_rendered in Hsc as (cns & Hcns & ->).
  pose proof Hgen as Hgen'.
  apply generate_summaries_rendered in Hgen' as (cns' & Hcns' & Himg).
  rewrite (Forall2_getitem_functional _ _ _ _ Hcns' Hcns), Hbl in Himg.
  exists (rendered cns (get_breakdown_names_from_config (_waymo_metric_config self))), v.
  split; [|split].
  - unfold GenerateSummaries, mbind, M_bind, get, lift. by rewrite Hgen, Himg.
  - simpl. by rewrite fold_left_values, Himg.
  - rewrite (flat_map_constant_length (c:=2)); [lia|].
    intros [[[i cn] k] bn] _. reflexivity.
Qed.

(** X16: [ComputeMetrics] followed by [GenerateSummaries]: when the
    evaluation returns one curve dict per eval class, each with the keys of
    every breakdown of the list, and every eval class index is a position of
    the class names, both calls return, and the plot of a rendered
    combination is drawn from the curve that the dict of its class holds
    under [pr_<breakdown>]. *)
Theorem GenerateSummaries_after_ComputeMetrics (self : WaymoAPMetrics F)
    (fn : M F (list (gmap string F) * list (gmap string (Curve F))))
    (name : string) (st st1 : State F) (scalars : list (gmap string F))
    (curves : list (gmap string (Curve F))) (cns : list string) :
  fn st = (st1, Ok (scalars, curves)) ->
  (forall bs, bs ∈ breakdown_list self -> has_breakdown_keys scalars curves bs) ->
  length curves = length (EvalClassIndices (metadata self)) ->
  Forall2 (fun j cn => getitem (ClassNames (metadata self)) j = Ok cn)
    (EvalClassIndices (metadata self)) cns ->
  exists st' images,
    ComputeMetrics self fn st = (st', Ok tt) /\
    GenerateSummaries self name st' = (st', Ok images) /\
    images = map (curve_plot name (_precision_recall st'))
               (rendered cns (breakdown_list self)) /\
    (forall i cn k bn, (i, cn, k, bn) ∈ rendered cns (breakdown_list self) ->
       (_precision_recall st' !!! bn) !!! i = (curves !!! i) !!! ("pr_" +:+ bn)).
Proof.
  intros Hfn Hkeys Hlen Hcns.
  destruct (ComputeMetrics_loop scalars curves (breakdown_list self) st1 Hkeys)
    as (st' & Hrun & Hin & _).
  assert (Hentry : forall i cn k bn, (i, cn, k, bn) ∈ rendered cns (breakdown_list self) ->
    _precision_recall st' !! bn = Some (map (fun c => c !!! ("pr_" +:+ bn)) curves) /\
    (i < length curves)%nat).
  { intros i cn k bn Hr. apply rendered_elem in Hr as (Hi & Hk & _).
    destruct (Hin bn) as (_ & _ & Hpr & _); [by apply list_elem_of_lookup_2 in Hk|].
    split; [exact Hpr|]. apply lookup_lt_Some in Hi.
    apply Forall2_length in Hcns. lia. }
  destruct (proj2 (generate_summaries_returns self name (_precision_recall st')))
    as [images Hgen].
  { exists cns. split; [exact Hcns|]. intros [[[i cn] k] bn] Hr.
    destruct (Hentry i cn k bn Hr) as [Hpr Hlt].
    eexists. split; [exact Hpr|]. simpl. by rewrite length_map. }
  exists st', images. split; [|split; [|split]].
  - unfold ComputeMetrics, mbind at 1, M_bind at 1. rewrite Hfn. exact Hrun.
  - unfold GenerateSummaries, mbind, M_bind, get, lift. by rewrite Hgen.
  - apply generate_summaries_rendered in Hgen as (cns' & Hcns' & ->).
    by rewrite (Forall2_getitem_functional _ _ _ _ Hcns' Hcns).
  - intros i cn k bn Hr. destruct (Hentry i cn k bn Hr) as [Hpr Hlt].
    rewrite (lookup_total_correct _ _ _ Hpr).
    by rewrite (list_lookup_total_fmap (fun c : gmap string (Curve F) => c !!! ("pr_" +:+ bn))).
Qed.

Section MetricMoreLaws.
Context {HL : PyFloatLaws F}.

(** X9: without eval classes both sums of [value] stay [0.0] and the final
    division raises [ZeroDivisionError], whatever the aggregate maps hold;
    [Summary], which asks for the value first, raises the same. *)
Theorem value_without_eval_classes (self : WaymoAPMetrics F) (name : string)
    (st st' : State F) :
  _EvaluateIfNecessary self st = (st', Ok tt) ->
  EvalClassIndices (metadata self) = [] ->
  value self st = (st', Raise ZeroDivisionError) /\
  Summary self name st = (st', Raise ZeroDivisionError).
Proof.
  intros Hev Hnil. split.
  - rewrite value_unfold, Hev. by rewrite weighted_value_no_eval_classes.
  - rewrite Summary_unfold, Hev.
    pose proof (EvaluateIfNecessary_Ok _ _ _ _ Hev) as Hdone.
    rewrite value_unfold, (EvaluateIfNecessary_noop self st' Hdone).
    by rewrite weighted_value_no_eval_classes.
Qed.

(** The loop and the division of [value] on a map that has enough finite or
    NaN entries under the first breakdown name. *)
Lemma weighted_value_mean (self : WaymoAPMetrics F) (ap : gmap string (list F))
    (name0 : string) (aps : list F) :
  let names := get_breakdown_names_from_config (_waymo_metric_config self) in
  let n := length (EvalClassIndices (metadata self)) in
  names !! 0%nat = Some name0 -> ap !! name0 = Some aps ->
  (0 < n)%nat -> (n <= length aps)%nat ->
  f_exact_int (Z.of_nat n) = true ->
  (forall x, x ∈ take n aps -> f_classify x <> FPosInf /\ f_classify x <> FNegInf) ->
  weighted_value self ap =
  Ok (f_div (float_sum (map nan_as_zero (take n aps))) (f_of_Z (Z.of_nat n))).
Proof.
  intros names n Hname Hap Hpos Hlen Hex Hfin.
  unfold weighted_value. fold names. fold n. unfold range. rewrite Nat2Z.id.
  change (f_of_Z 0, f_of_Z 0) with (f_of_Z 0, f_of_Z (Z.of_nat 0)).
  rewrite (accumulate_class_loop names _ name0 aps n 0) by assumption.
  simpl. unfold truediv. rewrite f_is_zero_of_Z.
  destruct (Z.of_nat n =? 0) eqn:E; [lia|].
  rewrite drop_0. unfold float_sum. rewrite <- fold_left_add_map.
  do 2 f_equal. clear Hlen Hap.
  generalize (f_of_Z 0). induction (take n aps) as [|x l IH]; intros a; simpl;
    [reflexivity|].
  destruct (Hfin x) as [Hp Hn]; [by left|].
  rewrite nan_to_num_finite by assumption.
  apply IH. intros y Hy. apply Hfin. by right.
Qed.

(** X15: [ComputeMetrics] followed by the computation of [value]: when the
    evaluation returns one scalar dict per eval class, the weighted value
    computed on the stored average precisions is the mean, over the classes,
    of the entries [ap_<overall>] of their dicts, NaN counted as 0.  (The
    overall breakdown, first in the configuration, is in the breakdown list;
    the entries are finite or NaN; the number of eval classes is positive
    and counted exactly by a float.) *)
Theorem value_of_computed_metrics (self : WaymoAPMetrics F)
    (fn : M F (list (gmap string F) * list (gmap string (Curve F))))
    (st st1 : State F) (scalars : list (gmap string F))
    (curves : list (gmap string (Curve F))) (name0 : string) :
  let names := get_breakdown_names_from_config (_waymo_metric_config self) in
  let n := length (EvalClassIndices (metadata self)) in
  names !! 0%nat = Some name0 -> name0 ∈ breakdown_list self ->
  fn st = (st1, Ok (scalars, curves)) ->
  (forall bs, bs ∈ breakdown_list self -> has_breakdown_keys scalars curves bs) ->
  length scalars = n -> (0 < n)%nat -> f_exact_int (Z.of_nat n) = true ->
  (forall s, s ∈ scalars ->
     f_classify (s !!! ("ap_" +:+ name0)) <> FPosInf /\
     f_classify (s !!! ("ap_" +:+ name0)) <> FNegInf) ->
  (ComputeMetrics self fn st).2 = Ok tt /\
  weighted_value self (_average_precisions (ComputeMetrics self fn st).1) =
  Ok (f_div (float_sum (map (fun s => nan_as_zero (s !!! ("ap_" +:+ name0))) scalars))
        (f_of_Z (Z.of_nat n))).
Proof.
  intros names n Hname Hin Hfn Hkeys Hlen Hpos Hex Hfin.
  destruct (ComputeMetrics_loop scalars curves (breakdown_list self) st1 Hkeys)
    as (st' & Hrun & Hstored & _).
  assert (Hcm : ComputeMetrics self fn st = (st', Ok tt)).
  { unfold ComputeMetrics, mbind at 1, M_bind at 1. rewrite Hfn. exact Hrun. }
  rewrite Hcm. split; [reflexivity|]. cbn [fst].
  destruct (Hstored name0 Hin) as (Hap & _).
  rewrite (weighted_value_mean self _ name0 _ Hname Hap); fold n.
  - rewrite firstn_all2 by (rewrite length_map; lia). by rewrite map_map.
  - exact Hpos.
  - rewrite length_map. lia.
  - exact Hex.
  - intros x Hx. rewrite firstn_all2 in Hx by (rewrite length_map; lia).
    apply list_elem_of_fmap in Hx as (s0 & -> & Hs0). by apply Hfin.
Qed.

End MetricMoreLaws.

End MetricMore.

(** * Exact arithmetic satisfies the laws *)

Module ExactLaws.
Import Exact.

Lemma Qc_of_Z_nonzero (d : Z) : d <> 0 -> Qc_of_Z d <> 0%Qc.
Proof. intros Hd Heq. apply Hd. apply Z2Qc_inj. by rewrite Z2Qc_inj_0. Qed.

Lemma xdiv_of_Z (a d : Z) :
  d <> 0 -> xdiv (XNum (Qc_of_Z a)) (XNum (Qc_of_Z d)) = XNum (Qc_of_Z a / Qc_of_Z d)%Qc.
Proof.
  intros Hd. unfold xdiv. destruct (decide (Qc_of_Z d = 0%Qc)) as [Heq|_]; [|reflexivity].
  by apply Qc_of_Z_nonzero in Heq.
Qed.

#[local] Arguments xdiv : simpl never.
#[local] Arguments Qc_of_Z : simpl never.

#[global] Instance exact_laws : PyFloatLaws xfloat.
Proof.
  split; simpl.
  - intros z. by rewrite Z2Qc_inj_1, Qcmult_1_r.
  - intros d Hd. rewrite xdiv_of_Z by lia. f_equal.
    rewrite Z2Qc_inj_0. unfold Qcdiv. apply Qcmult_0_l.
  - intros d Hd _. rewrite xdiv_of_Z by lia. f_equal.
    rewrite Z2Qc_inj_1. apply Qcmult_inv_r. apply Qc_of_Z_nonzero. lia.
  - intros i j d Hij Hd _ _. rewrite !xdiv_of_Z by lia. simpl.
    apply bool_decide_eq_true. unfold Qcdiv.
    apply Qcmult_le_mono_nonneg_r.
    + apply Qclt_le_weak, Qcinv_pos. rewrite <- Z2Qc_inj_0.
      apply (proj1 (Z2Qc_inj_lt 0 d)). lia.
    + apply (proj1 (Z2Qc_inj_le i j)). lia.
  - intros z. destruct (z =? 0) eqn:E.
    + apply Z.eqb_eq in E. subst z. apply bool_decide_eq_true, Z2Qc_inj_0.
    + apply bool_decide_eq_false. apply Qc_of_Z_nonzero. by apply Z.eqb_neq.
  - intros n _ _. by rewrite Z2Qc_inj_add.
  - reflexivity.
  - reflexivity.
  - reflexivity.
Qed.

End ExactLaws.

(** * The theorems at the concrete object *)

Module Witness.
Import Example Exact.

Local Open Scope string_scope.

(** C10 at the box types ["2d"], ["2D"], ["3d"] and an unknown string. *)
Lemma box_type_2d_iff_witness :
  box_type (config (F:=float) "2d" []) = TYPE_2D /\
  box_type (config (F:=float) "2D" []) = TYPE_3D /\
  box_type (config (F:=float) "3d" []) = TYPE_3D /\
  box_type (config (F:=float) "birdseye" []) = TYPE_3D.
Proof.
  split; [|split; [|split]].
  - destruct (box_type_2d_iff (md (F:=float)) "2d" [] (config "2d" [])) as (H2d & _);
      [vm_compute; reflexivity|].
    by apply H2d.
  - destruct (box_type_2d_iff (md (F:=float)) "2D" [] (config "2D" [])) as (_ & H3d & _);
      [vm_compute; reflexivity|].
    by apply H3d.
  - destruct (box_type_2d_iff (md (F:=float)) "3d" [] (config "3d" [])) as (_ & H3d & _);
      [vm_compute; reflexivity|].
    by apply H3d.
  - destruct (box_type_2d_iff (md (F:=float)) "birdseye" [] (config "birdseye" []))
      as (_ & H3d & _); [vm_compute; reflexivity|].
    by apply H3d.
Defined.

(** C6 with two extra breakdown names. *)
Lemma breakdowns_one_shard_first_witness :
  let cfg := config (F:=float) "3d" ["OBJECT_TYPE"; "RANGE"] in
  breakdown_generator_ids cfg !! 0%nat = Some ONE_SHARD /\
  length (breakdown_generator_ids cfg) = 3%nat /\
  length (difficulties cfg) = 3%nat /\
  difficulties cfg = replicate 3 Difficulty_default.
Proof.
  intros cfg.
  destruct (breakdowns_one_shard_first md "3d" ["OBJECT_TYPE"; "RANGE"] cfg)
    as (H1 & H2 & H3 & H4 & _).
  - vm_compute. reflexivity.
  - repeat split; assumption.
Defined.

(** C4 at a metadata with one override. *)
Lemma iou_thresholds_five_slots_witness :
  let cfg := config (F:=float) "3d" [] in
  length (iou_thresholds cfg) = 5%nat /\
  iou_thresholds cfg !! 1%nat = Some f_lit_0_7 /\
  exists i : nat, index (ClassNames (md (F:=float))) "Pedestrian" = Ok (Z.of_nat i) /\
    (i < 5)%nat /\ iou_thresholds cfg !! i = Some (frac 1 2).
Proof.
  intros cfg.
  destruct (iou_thresholds_five_slots md "3d" [] cfg) as (H1 & H2 & H3).
  - apply NoDup_singleton.
  - vm_compute. reflexivity.
  - split; [exact H1|]. split.
    + apply (H2 1%nat "Vehicle"); [reflexivity | | lia].
      simpl. intros Hin. apply list_elem_of_singleton in Hin. discriminate.
    + apply (H3 "Pedestrian" (frac 1 2)). simpl. apply list_elem_of_singleton.
      reflexivity.
Defined.

(** C4 as stated fails with six classes: the sixth class, which no override
    names, has no threshold at all (so not the default 0.7), and an override
    for it makes the builder raise. *)
Lemma iou_thresholds_sixth_class_counterexample :
  exists cfg,
    _BuildWaymoMetricConfig (md_six (F:=float) []) "3d" [] = Ok cfg /\
    ClassNames (md_six (F:=float) []) !! 5%nat = Some "Other" /\
    IoUThresholds (md_six (F:=float) []) = [] /\
    iou_thresholds cfg !! 5%nat <> Some f_lit_0_7 /\
    _BuildWaymoMetricConfig (md_six [("Other", frac 1 2)]) "3d" [] = Raise IndexError.
Proof.
  eexists. split; [vm_compute; reflexivity|].
  split; [reflexivity|]. split; [reflexivity|]. split.
  - vm_compute. discriminate.
  - vm_compute. reflexivity.
Defined.

(** C5 with three points, in exact arithmetic. *)
Lemma score_cutoffs_grid_witness :
  exists cs : list xfloat,
    build_score_cutoffs 3 = Ok cs /\
    score_cutoffs (config "3d" []) = cs /\
    Z.of_nat (length cs) = 3 /\
    cs !! 0%nat = Some (f_of_Z 0) /\
    cs !! 1%nat = Some (frac 1 2) /\
    cs !! 2%nat = Some (f_of_Z 1) /\
    (forall (i j : nat) (x y : xfloat), (i <= j)%nat ->
       cs !! i = Some x -> cs !! j = Some y -> f_leb x y = true).
Proof.
  destruct (proj1 (score_cutoffs_grid (md (F:=xfloat)) "3d" []))
    as (cs & Hcs & Hcfg & Hlen & Hi & Hsorted & H0 & H1).
  - simpl. lia.
  - reflexivity.
  - exists cs. split; [exact Hcs|]. split.
    + apply Hcfg. vm_compute. reflexivity.
    + split; [exact Hlen|]. split; [exact H0|]. split; [|split; [exact H1 | exact Hsorted]].
      apply (Hi 1). simpl. lia.
Defined.

(** C5 as stated fails with zero points: the builder does not fail, the
    cutoffs are empty. *)
Lemma score_cutoffs_zero_points_counterexample :
  NumberOfPrecisionRecallPoints (with_points 0 (md (F:=float))) < 2 /\
  exists cfg,
    _BuildWaymoMetricConfig (with_points 0 (md (F:=float))) "3d" [] = Ok cfg /\
    score_cutoffs cfg = [].
Proof.
  split; [simpl; lia|]. eexists. split; [vm_compute; reflexivity | reflexivity].
Defined.

(** C2 at the concrete object: the placeholder dicts of class 2. *)
Lemma BuildMetric_placeholder_keys_witness :
  exists scalars curves,
    _BuildMetric (self (F:=float)) None 2 = Ok (scalars, curves, []) /\
    (forall k, is_Some (scalars !! k) <->
       scalar_key (get_breakdown_names_from_config (_waymo_metric_config (self (F:=float)))) k) /\
    (forall k v, scalars !! k = Some v -> v = SConstant f_nan) /\
    (forall k v, curves !! k = Some v -> v = CZeros 3 2) /\
    (forall fd : FeedData float, exists scalars' curves' feed_dict,
       _BuildMetric self (Some fd) 2 = Ok (scalars', curves', feed_dict) /\
       dom scalars' = dom scalars /\ dom curves' = dom curves).
Proof.
  destruct (BuildMetric_placeholder_keys (self (F:=float)) 2)
    as (scalars & curves & Hb & K1 & K2 & V1 & V2 & _ & Hreal).
  - vm_compute. discriminate.
  - exists scalars, curves. repeat split; try assumption; by apply K1.
Defined.

(** C1 in exact arithmetic: the per-class APs are 4/5, NaN and 3/5. *)
Lemma value_is_mean_with_nan_as_zero_witness :
  value (self (F:=xfloat)) initial_state =
  (evaluated,
   Ok (f_div (float_sum (map nan_as_zero [frac 4 5; XNaN; frac 3 5])) (f_of_Z 3))).
Proof.
  refine (eq_trans
            (value_is_mean_with_nan_as_zero (self (F:=xfloat)) initial_state evaluated
               "ONE_SHARD" [frac 4 5; XNaN; frac 3 5] _ _ _ _ _ _ _) _).
  8: reflexivity.
  - vm_compute. reflexivity.
  - vm_compute. reflexivity.
  - vm_compute. reflexivity.
  - vm_compute. lia.
  - vm_compute. lia.
  - reflexivity.
  - intros x Hx. destruct x; simpl; split; discriminate.
Defined.

(** The example of C1 in binary64: APs 0.8, NaN and 0.6 give
    [(0.8 + 0 + 0.6) / 3]. *)
Example value_binary64 :
  (value (self (F:=float)) initial_state).2 =
  Ok (((0 + 0x1.999999999999ap-1) + 0 + 0x1.3333333333333p-1) / 3)%float /\
  _average_precisions (evaluated (F:=float)) !! "ONE_SHARD" =
  Some [0x1.999999999999ap-1; nan; 0x1.3333333333333p-1]%float.
Proof. split; vm_compute; reflexivity. Qed.

(** The laws assumed of floats hold in binary64 at the integers up to 64,
    and the score cutoffs in binary64 have the properties of C5 for every
    number of points from 2 to 128. *)
Example binary64_laws_checked : Binary64Checks.laws_hold_below 64 = true.
Proof. vm_compute. reflexivity. Qed.

Example binary64_score_cutoffs_checked :
  forallb Binary64Checks.cutoffs_hold (map (Z.add 2) (range 127)) = true.
Proof. vm_compute. reflexivity. Qed.

(** C3 at the concrete object. *)
Lemma Summary_renders_matching_breakdowns_witness :
  exists (cns : list string) (v : float) (image_summaries : list (TfSummary float)),
    Forall2 (fun j cn => getitem (ClassNames (metadata (self (F:=float)))) j = Ok cn)
      (EvalClassIndices (metadata (self (F:=float)))) cns /\
    image_summaries =
      map (curve_plot "eval" (_precision_recall evaluated))
        (rendered cns (breakdown_list (self (F:=float)))) /\
    values (summary (F:=float)) =
      SimpleValue "eval/weighted_mAP" v ::
      flat_map (scalar_pair "eval" (_average_precisions evaluated)
                  (_average_precision_headings evaluated))
        (rendered cns
           (get_breakdown_names_from_config (_waymo_metric_config (self (F:=float)))))
      ++ flat_map values image_summaries.
Proof.
  destruct (Summary_renders_matching_breakdowns (self (F:=float)) "eval"
              initial_state evaluated (summary (F:=float)))
    as (cns & v & images & H1 & _ & H3 & H4 & _).
  - vm_compute. reflexivity.
  - exists cns, v, images. repeat split; assumption.
Defined.

(** What is rendered for the three eval classes and the five breakdown
    names of the concrete object: the overall breakdown for each class, and
    besides only the breakdown that carries the name of the class. *)
Example rendered_example :
  map (fun r => (r.1.1.1, r.1.2))
    (rendered ["Vehicle"; "Pedestrian"; "Cyclist"]
       (get_breakdown_names_from_config (_waymo_metric_config (self (F:=float))))) =
  [(0, 0); (0, 1); (1, 0); (1, 2); (2, 0); (2, 4)]%nat.
Proof. vm_compute. reflexivity. Qed.

(** C7 and C8 at the concrete object: the point-count filter 5 reaches the
    ground-truth load only; class 1 has data, class 2 has none, class 0 and
    class 4 fail the assertion. *)
Example GetData_example :
  (load_log (_GetData (self (F:=float)) 1 None (Some 2) (Some 5) (Some 7) initial_state).1 =
     [groundtruth_call 1 (Some 2) (Some 5) (Some 7); prediction_call 1 (Some 2) (Some 7)]) /\
  (lc_num_points (prediction_call 1 (Some 2) (Some 7)) = None) /\
  (exists fd, (_GetData (self (F:=float)) 1 None None None None initial_state).2 = Ok (Some fd) /\
              iou_threshold fd = f_lit_0_7) /\
  (_GetData (self (F:=float)) 2 None None None None initial_state).2 = Ok None /\
  (_GetData (self (F:=float)) 0 None None None None initial_state).2 = Raise AssertionError /\
  (_GetData (self (F:=float)) 4 None None None None initial_state).2 = Raise AssertionError.
Proof.
  split; [vm_compute; reflexivity|]. split; [reflexivity|]. split.
  - eexists. split; vm_compute; reflexivity.
  - repeat split; vm_compute; reflexivity.
Qed.

(** C8 at the concrete object: class 1 has boxes on both sides, a name and
    a threshold; class 2 has no boxes; class 0 fails the assertion. *)
Lemma GetData_result_witness :
  (_GetData (self (F:=float)) 1 None None None None initial_state).2 =
    Ok (Some {| iou_threshold := f_lit_0_7;
                gt := {| gt_imgid := [1]; gt_bbox := [[f_of_Z 0; f_of_Z 1]];
                         gt_speed := [[f_of_Z 0; f_of_Z 0]] |};
                pd := {| pd_imgid := [1]; pd_bbox := [[f_of_Z 0; f_of_Z 1]];
                         pd_score := [frac 1 2] |} |}) /\
  (_GetData (self (F:=float)) 2 None None None None initial_state).2 = Ok None /\
  (_GetData (self (F:=float)) 0 None None None None initial_state).2 =
    Raise AssertionError.
Proof.
  split; [|split].
  - destruct (GetData_result (self (F:=float)) 1 None None None None initial_state)
      as [_ Hin].
    destruct Hin as [_ Hboth]; [simpl; lia|].
    destruct (Hboth _ _ eq_refl eq_refl) as [_ Hname].
    destruct (Hname "Vehicle" eq_refl) as [_ Hiou].
    exact (Hiou f_lit_0_7 eq_refl).
  - destruct (GetData_result (self (F:=float)) 2 None None None None initial_state)
      as [_ Hin].
    destruct Hin as [Hnone _]; [simpl; lia|].
    apply Hnone. by left.
  - destruct (GetData_result (self (F:=float)) 0 None None None None initial_state)
      as [Hbad _].
    apply Hbad. lia.
Defined.

(** C8 as stated fails when the object has no threshold for a class: with
    the thresholds of the override mapping, which names [Pedestrian] only,
    the class 1 passes the assertion and has boxes on both sides, and
    [_GetData] raises [KeyError] instead of returning a populated result. *)
Lemma GetData_missing_threshold_counterexample :
  0 < 1 < NumClasses (metadata (self_with_override_thresholds (F:=float))) /\
  is_Some (_LoadBoundingBoxes (F:=float) (groundtruth_call 1 None None None)) /\
  is_Some (_LoadBoundingBoxes (F:=float) (prediction_call 1 None None)) /\
  ClassNames (metadata (self_with_override_thresholds (F:=float))) !! 1%nat =
    Some "Vehicle" /\
  _iou_thresholds (self_with_override_thresholds (F:=float)) !! "Vehicle" = None /\
  (_GetData (self_with_override_thresholds (F:=float)) 1 None None None None
     initial_state).2 = Raise KeyError.
Proof.
  split; [simpl; lia|]. split; [by eexists|]. split; [by eexists|].
  split; [reflexivity|]. split; vm_compute; reflexivity.
Defined.

(** C9 at the concrete object: five calls, one pass, two matcher runs (the
    classes 1 and 3 have data). *)
Example run_calls_example :
  let st := (run_calls (self (F:=float))
               [CallValue; CallSummary "eval"; CallValue; CallSummary "x"; CallValue]
               initial_state).1 in
  evaluation_passes st = 1%nat /\ matcher_calls st = 2%nat /\ st = evaluated.
Proof. vm_compute. repeat split; reflexivity. Qed.

End Witness.

(** * The further properties at concrete inputs *)

Module MoreWitness.
Import Example Exact.

Local Open Scope string_scope.

#[local] Existing Instance F_inhabited.

(** Splits a membership in a list that is written out into its cases. *)
Ltac elems H :=
  repeat (apply elem_of_cons in H as [->|H]); try (by apply elem_of_nil in H).

(** The dicts of the evaluation pass have the keys of every breakdown. *)
Ltac keys_there := apply has_breakdown_keysb_true; vm_compute; reflexivity.

(** A decidable fact, by evaluation. *)
Ltac decided := apply (bool_decide_unpack _); vm_compute; reflexivity.

(** An equation between closed terms, by evaluating both sides. *)
Ltac by_evaluation :=
  lazymatch goal with |- ?l = _ => vm_cast_no_check (@eq_refl _ l) end.

(** X1 with two overrides, listed in both orders. *)
Lemma overrides_order_independent_witness :
  exists cfg : Config float,
    _BuildWaymoMetricConfig
      (md_six [("Pedestrian", frac 1 2); ("Vehicle", frac 3 5)]) "3d" [] = Ok cfg /\
    _BuildWaymoMetricConfig
      (with_overrides [("Vehicle", frac 3 5); ("Pedestrian", frac 1 2)]
         (md_six [("Pedestrian", frac 1 2); ("Vehicle", frac 3 5)])) "3d" [] = Ok cfg.
Proof.
  eexists. split; [vm_compute; reflexivity|].
  apply overrides_order_independent.
  - decided.
  - simpl. apply perm_swap.
  - vm_compute. reflexivity.
Defined.

(** X2 in exact arithmetic, at the metadata of the example. *)
Lemma build_succeeds_iff_witness :
  is_ok (_BuildWaymoMetricConfig (md (F:=xfloat)) "3d" ["OBJECT_TYPE"]) = true.
Proof.
  apply (proj2 (build_succeeds_iff (md (F:=xfloat)) "3d" ["OBJECT_TYPE"])).
  split; [|split].
  - right. split; [simpl; lia | reflexivity].
  - intros cn th Hin. simpl in Hin. apply list_elem_of_singleton in Hin.
    injection Hin as -> ->.
    exists 2%nat. split; [reflexivity | lia].
  - intros name Hin. elems Hin. by eexists.
Defined.

(** X3 at the evaluation pass of the concrete object. *)
Lemma ComputeMetrics_stores_witness :
  exists st' : State float,
    ComputeMetrics self (evaluate_all_classes self) initial_state = (st', Ok tt) /\
    stores_breakdown st' (results (F:=float)).1 (results (F:=float)).2 "ONE_SHARD" /\
    same_breakdown loaded st' "RANGE" /\
    load_log st' = load_log (loaded (F:=float)).
Proof.
  destruct (ComputeMetrics_stores (self (F:=float)) (evaluate_all_classes self)
              initial_state loaded results.1 results.2)
    as (st' & Hrun & Hin & Hout & Hlog & _).
  - by_evaluation.
  - keys_there.
  - exists st'. split; [exact Hrun|]. split; [|split; [|exact Hlog]].
    + apply Hin. decided.
    + apply Hout. decided.
Defined.

(** X4 when the evaluation returns one empty dict. *)
Lemma ComputeMetrics_missing_key_witness :
  (ComputeMetrics (self (F:=float)) (mret ([∅], [])) initial_state).2 = Raise KeyError.
Proof.
  apply (ComputeMetrics_missing_key (self (F:=float)) (mret ([∅], []))
           initial_state initial_state [∅] [] "ONE_SHARD").
  - reflexivity.
  - decided.
  - intros [Hs _]. destruct (Hs ∅) as [[x Hx] _]; [by left|]. discriminate.
Defined.

(** X5 at the class 1, which has boxes, on the object without thresholds. *)
Lemma GetData_lookup_errors_witness :
  (_GetData (self_without_thresholds (F:=float)) 1 None None None None initial_state).2 =
  Raise KeyError.
Proof.
  destruct (GetData_lookup_errors (self_without_thresholds (F:=float)) 1 None None None None
              initial_state
              {| boxes := [[f_of_Z 0; f_of_Z 1]]; imgids := [1];
                 speeds := [[f_of_Z 0; f_of_Z 0]]; scores := [frac 1 2] |}
              {| boxes := [[f_of_Z 0; f_of_Z 1]]; imgids := [1];
                 speeds := [[f_of_Z 0; f_of_Z 0]]; scores := [frac 1 2] |})
    as [_ Hkey].
  - simpl. lia.
  - reflexivity.
  - reflexivity.
  - apply (Hkey "Vehicle"); reflexivity.
Defined.

(** X6 at the concrete object: the keys of the breakdown at position 2. *)
Lemma BuildMetric_keys_follow_positions_witness :
  let fd : FeedData float :=
    {| iou_threshold := f_lit_0_7;
       gt := {| gt_imgid := [1; 1]; gt_bbox := []; gt_speed := [] |};
       pd := {| pd_imgid := [1]; pd_bbox := []; pd_score := [] |} |} in
  let op := {| op_classid := 1; op_num_gt_bboxes := 2; op_num_pd_bboxes := 1;
               op_config := _waymo_metric_config (self (F:=float)) |} in
  exists scalars curves feed_dict,
    _BuildMetric self (Some fd) 1 = Ok (scalars, curves, feed_dict) /\
    scalars !! "ap" = Some (SAp op 0) /\
    scalars !! "ap_OBJECT_TYPE_TYPE_PEDESTRIAN" = Some (SAp op 2) /\
    curves !! "pr_ha_weighted_OBJECT_TYPE_TYPE_PEDESTRIAN" = Some (CPrHa op 2).
Proof.
  intros fd op.
  destruct (BuildMetric_keys_follow_positions (self (F:=float)) fd 1)
    as (scalars & curves & feed_dict & Hb & Hap & _ & _ & Hpos).
  - decided.
  - intros a b Ha Hb. vm_compute in Ha, Hb. elems Ha; elems Hb; discriminate.
  - exists scalars, curves, feed_dict. split; [exact Hb|]. split; [exact Hap|].
    destruct (Hpos 2%nat "OBJECT_TYPE_TYPE_PEDESTRIAN") as (H1 & _ & _ & H4);
      [reflexivity|].
    split; [exact H1 | exact H4].
Defined.

(** X7 on two maps that differ outside what [value] reads: in a fourth
    entry of the overall breakdown, and under another name. *)
Lemma value_reads_overall_breakdown_only_witness :
  weighted_value (self (F:=float))
    (<["ONE_SHARD" := [frac 4 5; f_nan; frac 3 5]]> ∅) =
  weighted_value (self (F:=float))
    (<["RANGE" := [frac 1 5]]> (<["ONE_SHARD" := [frac 4 5; f_nan; frac 3 5; frac 1 5]]> ∅)).
Proof.
  apply value_reads_overall_breakdown_only.
  intros name0 Hname. vm_compute in Hname. injection Hname as <-.
  vm_compute. reflexivity.
Defined.

(** X8 on the object with the default, empty breakdown list: the evaluation
    stores nothing, and [value] finds no entry for the overall breakdown. *)
Lemma value_lookup_errors_witness :
  exists st' : State float,
    _EvaluateIfNecessary self_default_list initial_state = (st', Ok tt) /\
    _average_precisions st' = ∅ /\
    value self_default_list initial_state = (st', Raise KeyError).
Proof.
  eexists. split; [vm_compute; reflexivity|]. split; [reflexivity|].
  refine (proj1 (proj2 (value_lookup_errors (self_default_list (F:=float))
                          initial_state _ _ _)) "ONE_SHARD" _ _).
  - vm_compute. reflexivity.
  - simpl. lia.
  - reflexivity.
  - reflexivity.
Defined.

(** X9 in exact arithmetic, on the object without eval classes. *)
Lemma value_without_eval_classes_witness :
  exists st' : State xfloat,
    value self_without_eval_classes initial_state = (st', Raise ZeroDivisionError) /\
    Summary self_without_eval_classes "eval" initial_state =
      (st', Raise ZeroDivisionError).
Proof.
  eexists.
  apply (value_without_eval_classes (self_without_eval_classes (F:=xfloat)) "eval"
           initial_state).
  - vm_compute. reflexivity.
  - reflexivity.
Defined.

(** X10 at the concrete object. *)
Lemma Summary_first_entry_is_value_witness :
  exists (v : float) (rest : list (SummaryValue float)),
    value self initial_state = (evaluated, Ok v) /\
    value self evaluated = (evaluated, Ok v) /\
    values (summary (F:=float)) = SimpleValue "eval/weighted_mAP" v :: rest.
Proof.
  apply (Summary_first_entry_is_value (self (F:=float)) "eval" initial_state evaluated
           (summary (F:=float))).
  vm_compute. reflexivity.
Defined.

(** X11: a class [Sign] beside a class [Signal]. *)
Lemma rendering_follows_substrings_witness :
  skip_breakdown 1 "Sign" "OBJECT_TYPE_TYPE_SIGNAL" = false.
Proof.
  apply (rendering_follows_substrings 1 "Sign" "Signal" "OBJECT_TYPE_TYPE_SIGNAL");
    reflexivity.
Defined.

(** X13 at the concrete object after the evaluation: six plots for three
    classes and five breakdowns. *)
Lemma GenerateSummaries_count_witness :
  let images := unwrap [] (GenerateSummaries (self (F:=float)) "eval" evaluated).2 in
  (length images <= 3 * 5)%nat /\ (3 <= length images)%nat.
Proof.
  intros images.
  destruct (GenerateSummaries_count (self (F:=float)) "eval" evaluated evaluated images)
    as (_ & Hle & Hge).
  - vm_compute. reflexivity.
  - split; [exact Hle|]. apply Hge. vm_compute. discriminate.
Defined.

(** X14 at the concrete object, which [__init__] made. *)
Lemma Summary_pairs_match_plots_witness :
  exists (rs : list (nat * string * nat * string)) (v : float),
    GenerateSummaries (self (F:=float)) "eval" evaluated =
      (evaluated, Ok (map (curve_plot "eval" (_precision_recall (evaluated (F:=float)))) rs)) /\
    values (summary (F:=float)) =
      SimpleValue "eval/weighted_mAP" v ::
      flat_map (scalar_pair "eval" (_average_precisions (evaluated (F:=float)))
                  (_average_precision_headings (evaluated (F:=float)))) rs
      ++ flat_map values (map (curve_plot "eval" (_precision_recall (evaluated (F:=float)))) rs) /\
    length (flat_map (scalar_pair "eval" (_average_precisions (evaluated (F:=float)))
                        (_average_precision_headings (evaluated (F:=float)))) rs) =
    (2 * length rs)%nat.
Proof.
  assert (Hinit : WaymoAPMetrics_init (md (F:=float)) "3d" ["OBJECT_TYPE"] thresholds =
                  Ok self) by (vm_compute; reflexivity).
  assert (Hsum : Summary (self (F:=float)) "eval" initial_state =
                 (evaluated, Ok summary)) by (vm_compute; reflexivity).
  exact (Summary_pairs_match_plots (md (F:=float)) "3d" ["OBJECT_TYPE"] thresholds
           self "eval" initial_state evaluated summary Hinit Hsum).
Defined.

(** X15 in exact arithmetic, at the evaluation pass of the concrete
    object. *)
Lemma value_of_computed_metrics_witness :
  (ComputeMetrics (self (F:=xfloat)) (evaluate_all_classes self) initial_state).2 = Ok tt /\
  weighted_value self
    (_average_precisions
       (ComputeMetrics (self (F:=xfloat)) (evaluate_all_classes self) initial_state).1) =
  Ok (f_div (float_sum (map (fun s => nan_as_zero (s !!! "ap_ONE_SHARD"))
                          (results (F:=xfloat)).1))
        (f_of_Z 3)).
Proof.
  refine (value_of_computed_metrics (self (F:=xfloat)) (evaluate_all_classes self)
            initial_state loaded results.1 results.2 "ONE_SHARD" _ _ _ _ _ _ _ _).
  - reflexivity.
  - decided.
  - by_evaluation.
  - keys_there.
  - reflexivity.
  - simpl. lia.
  - reflexivity.
  - intros s Hs.
    assert (Hc : forallb
                   (fun s : gmap string xfloat =>
                      match f_classify (s !!! "ap_ONE_SHARD") with
                      | FPosInf | FNegInf => false
                      | _ => true
                      end) results.1 = true) by (vm_compute; reflexivity).
    apply (forallb_elem _ _ s Hc) in Hs.
    change ("ap_" +:+ "ONE_SHARD") with "ap_ONE_SHARD".
    destruct (f_classify (s !!! "ap_ONE_SHARD"));
      first [discriminate Hs | split; discriminate].
Defined.

(** X16 at the evaluation pass of the concrete object. *)
Lemma GenerateSummaries_after_ComputeMetrics_witness :
  exists (st' : State float) (images : list (TfSummary float)),
    ComputeMetrics self (evaluate_all_classes self) initial_state = (st', Ok tt) /\
    GenerateSummaries self "eval" st' = (st', Ok images) /\
    images = map (curve_plot "eval" (_precision_recall st'))
               (rendered ["Vehicle"; "Pedestrian"; "Cyclist"] (breakdown_list self)) /\
    (_precision_recall st' !!! "OBJECT_TYPE_TYPE_CYCLIST") !!! 2%nat =
    ((results (F:=float)).2 !!! 2%nat) !!! "pr_OBJECT_TYPE_TYPE_CYCLIST".
Proof.
  destruct (GenerateSummaries_after_ComputeMetrics (self (F:=float))
              (evaluate_all_classes self) "eval" initial_state loaded
              results.1 results.2 ["Vehicle"; "Pedestrian"; "Cyclist"])
    as (st' & images & Hrun & Hgen & Himg & Hcurve).
  - by_evaluation.
  - keys_there.
  - reflexivity.
  - repeat constructor.
  - exists st', images. split; [exact Hrun|]. split; [exact Hgen|]. split; [exact Himg|].
    apply (Hcurve 2%nat "Cyclist" 4%nat "OBJECT_TYPE_TYPE_CYCLIST").
    apply rendered_elem. split; [reflexivity|]. split; [reflexivity|]. by right.
Defined.

End MoreWitness.
